(** * Turn controllers and tool servers of the bank-assistant agents

    A shallow embedding of [agent_core/agent.py] and [agent_core/mcp_server.py]
    in the three variants of the repository (Agent_Pstorage, Lvl3Agent,
    UWAgent), with the properties of the turn controller: the confirmation
    rule for mutating tools, the iteration ceiling, the response classifier,
    the pipeline override, the conversation log, the file tool, the debt
    yield tool and the task mirror.  The handler of [POST /ask] of
    Lvl3Agent ([web/server.py]) and the tools of Agent_Pstorage that reach
    n8n and Postgres are embedded too, with what the controllers send to
    the engine and to the tools in a turn.

    Conventions.
    - A Python [str] is a [string]; the character classes of [strip] and
      [lower] are the ASCII ones.
    - The reasoning engine ([ollama run]) and the tool transport
      ([fastmcp.Client.call_tool]) are oracles of an environment record;
      each call is recorded in the state, so the number and the order of the
      calls of a turn can be stated.  The engine always yields a text (an
      empty one when it fails); the transport yields a text or raises.
    - [json.loads] either decodes a text or raises [json.JSONDecodeError];
      [json.loads] and [json.dumps] are taken from the environment.
    - A raised Python exception is the [Raise] outcome of the monad [M];
      the state reached before the exception is kept.
    - A Python [float] is a binary64 float of [PrimFloat].
    - The file system of a tool server holds no symbolic link, and a path
      holds no NUL character, so resolving a path never fails.
    - Starting the engine and decoding its output are taken not to raise,
      and [json.loads] to raise nothing but [json.JSONDecodeError]. *)

From Stdlib Require Import String Ascii List ZArith Floats Bool Arith Lia.
From Stdlib Require Import DecimalString.
Import ListNotations.

Set Warnings "-register-all".
Set Implicit Arguments.

Open Scope list_scope.
Open Scope string_scope.

(* ------------------------------------------------------------------ *)
(** ** Python strings *)

Module Py.

(** The double quote and the line feed, which string literals here avoid. *)
Definition dq : string := String "034"%char EmptyString.
Definition nl : string := String "010"%char EmptyString.

(** [str.isspace] on ASCII: tab, LF, VT, FF, CR, FS, GS, RS, US, space. *)
Definition is_space (c : ascii) : bool :=
  let n := nat_of_ascii c in
  (((9 <=? n) && (n <=? 13)) || ((28 <=? n) && (n <=? 32)))%nat.

Fixpoint lstrip (s : string) : string :=
  match s with
  | EmptyString => EmptyString
  | String c r => if is_space c then lstrip r else s
  end.

Fixpoint rstrip (s : string) : string :=
  match s with
  | EmptyString => EmptyString
  | String c r =>
      match rstrip r with
      | EmptyString => if is_space c then EmptyString else String c EmptyString
      | r' => String c r'
      end
  end.

(** [s.strip()] *)
Definition strip (s : string) : string := rstrip (lstrip s).

(** [s.startswith(p)] *)
Definition startswith (p s : string) : bool := String.prefix p s.

(** [s.endswith(p)] *)
Fixpoint endswith (p s : string) : bool :=
  (s =? p) ||
  match s with
  | EmptyString => false
  | String _ r => endswith p r
  end.

(** [needle in hay] *)
Fixpoint contains (needle hay : string) : bool :=
  String.prefix needle hay ||
  match hay with
  | EmptyString => false
  | String _ r => contains needle r
  end.

Definition lower_char (c : ascii) : ascii :=
  let n := nat_of_ascii c in
  if ((65 <=? n) && (n <=? 90))%nat then ascii_of_nat (n + 32) else c.

(** [s.lower()] *)
Fixpoint lower (s : string) : string :=
  match s with
  | EmptyString => EmptyString
  | String c r => String (lower_char c) (lower r)
  end.

(** [sep.join(parts)] *)
Definition join (sep : string) (parts : list string) : string :=
  String.concat sep parts.

(** Truth value of a [str]: non-empty. *)
Definition nonempty (s : string) : bool :=
  match s with EmptyString => false | _ => true end.

End Py.

(* ------------------------------------------------------------------ *)
(** ** Exceptions and outcomes *)

(** A raised exception: [type(e).__name__] and [str(e)]. *)
Record exn : Type := mkExn { exn_type : string; exn_msg : string }.

Definition KeyError (k : string) : exn := mkExn "KeyError" ("'" ++ k ++ "'").
Definition TypeError (m : string) : exn := mkExn "TypeError" m.
Definition ValueError (m : string) : exn := mkExn "ValueError" m.
Definition FileNotFoundError (m : string) : exn := mkExn "FileNotFoundError" m.
Definition ZeroDivisionError : exn :=
  mkExn "ZeroDivisionError" "float division by zero".

Inductive Outcome (A : Type) : Type :=
| Return (a : A)
| Raise (e : exn).
Arguments Return {A} a.
Arguments Raise {A} e.

Definition raises {A : Type} (o : Outcome A) : bool :=
  match o with Return _ => false | Raise _ => true end.

(* ------------------------------------------------------------------ *)
(** ** JSON values, as [json.loads] builds them *)

Module Json.

(** [dict] keeps insertion order, so an object is an association list. *)
Inductive json : Type :=
| JNull
| JBool (b : bool)
| JInt (z : Z)
| JFloat (f : float)
| JStr (s : string)
| JArr (items : list json)
| JObj (members : list (string * json)).

Definition dict : Type := list (string * json).

(** [d.get(k)] before the default is applied *)
Fixpoint dict_get (k : string) (d : dict) : option json :=
  match d with
  | [] => None
  | (k', v) :: r => if k' =? k then Some v else dict_get k r
  end.

(** [k in d] *)
Definition dict_has (k : string) (d : dict) : bool :=
  match dict_get k d with Some _ => true | None => false end.

(** [d[k] = v]: overwrite in place, or add at the end *)
Fixpoint dict_set (k : string) (v : json) (d : dict) : dict :=
  match d with
  | [] => [(k, v)]
  | (k', v') :: r => if k' =? k then (k, v) :: r else (k', v') :: dict_set k v r
  end.

(** [d.get(k)], [None] being [JNull] *)
Definition dict_get_default (k : string) (d : dict) : json :=
  match dict_get k d with Some v => v | None => JNull end.

(** [isinstance(v, dict)] *)
Definition is_dict (v : json) : bool :=
  match v with JObj _ => true | _ => false end.

(** Python truth value of a decoded value: [None], [False], zero and the
    empty string, list and dict are false. *)
Definition truthy (v : json) : bool :=
  match v with
  | JNull => false
  | JBool b => b
  | JInt z => negb (z =? 0)%Z
  | JFloat f => negb (PrimFloat.eqb f 0%float)
  | JStr s => Py.nonempty s
  | JArr l => match l with [] => false | _ => true end
  | JObj l => match l with [] => false | _ => true end
  end.

(** [v[k]] for a string key [k] *)
Definition getitem (v : json) (k : string) : Outcome json :=
  match v with
  | JObj d =>
      match dict_get k d with
      | Some x => Return x
      | None => Raise (KeyError k)
      end
  | JArr _ => Raise (TypeError "list indices must be integers or slices, not str")
  | JStr _ => Raise (TypeError "string indices must be integers, not 'str'")
  | JInt _ => Raise (TypeError "'int' object is not subscriptable")
  | JFloat _ => Raise (TypeError "'float' object is not subscriptable")
  | JBool _ => Raise (TypeError "'bool' object is not subscriptable")
  | JNull => Raise (TypeError "'NoneType' object is not subscriptable")
  end.

(** [v == s] for a string literal [s] *)
Definition eq_str (v : json) (s : string) : bool :=
  match v with JStr t => t =? s | _ => false end.

End Json.
Export Json.

(* ------------------------------------------------------------------ *)
(** ** A reference decoder and encoder

    [json.loads] and [json.dumps] belong to the Python library; the
    controllers below take them from the environment.  [loads_ref] and
    [dumps_ref] are executable instances for the concrete runs of this file.
    They follow the library on the fragment of JSON without fractional or
    exponent numbers and without [\u] escapes; [loads_ref] rejects a text
    outside the fragment, and [dumps_ref] writes a float other than the
    three special ones as its integer part. *)

Module JsonRef.

Definition is_ws (c : ascii) : bool :=
  match nat_of_ascii c with
  | 32 | 9 | 10 | 13 => true
  | _ => false
  end.

Fixpoint skip_ws (l : list ascii) : list ascii :=
  match l with
  | c :: r => if is_ws c then skip_ws r else l
  | [] => []
  end.

Definition digit_of (c : ascii) : option Z :=
  let n := nat_of_ascii c in
  if ((48 <=? n) && (n <=? 57))%nat then Some (Z.of_nat (n - 48)) else None.

(** The digits at the head of [l], their value so far in [acc]. *)
Fixpoint read_digits (acc : Z) (l : list ascii) : Z * list ascii :=
  match l with
  | c :: r =>
      match digit_of c with
      | Some d => read_digits (10 * acc + d)%Z r
      | None => (acc, l)
      end
  | [] => (acc, [])
  end.

(** After the integer part: a fraction or an exponent leaves the fragment. *)
Definition int_end (l : list ascii) : bool :=
  match l with
  | "."%char :: _ | "e"%char :: _ | "E"%char :: _ => false
  | _ => true
  end.

(** An unsigned integer literal: [0], or a non-zero digit and more digits. *)
Definition read_nat_lit (l : list ascii) : option (Z * list ascii) :=
  match l with
  | c :: r =>
      match digit_of c with
      | Some 0%Z => if int_end r then Some (0%Z, r) else None
      | Some d =>
          let '(v, r') := read_digits d r in
          if int_end r' then Some (v, r') else None
      | None => None
      end
  | [] => None
  end.

(** The body of a string literal, after its opening quote. *)
Fixpoint read_string (l : list ascii) : option (string * list ascii) :=
  match l with
  | [] => None
  | c :: r =>
      if (c =? "034")%char then Some (EmptyString, r)
      else if (c =? "\")%char then
        match r with
        | e :: r' =>
            let unescaped :=
              match nat_of_ascii e with
              | 34 => Some "034"%char
              | 92 => Some "\"%char
              | 47 => Some "/"%char
              | 98 => Some "008"%char
              | 102 => Some "012"%char
              | 110 => Some "010"%char
              | 114 => Some "013"%char
              | 116 => Some "009"%char
              | _ => None
              end in
            match unescaped, read_string r' with
            | Some u, Some (s, rest) => Some (String u s, rest)
            | _, _ => None
            end
        | [] => None
        end
      else if (nat_of_ascii c <? 32)%nat then None
      else
        match read_string r with
        | Some (s, rest) => Some (String c s, rest)
        | None => None
        end
  end.

Definition starts (p : string) (l : list ascii) : option (list ascii) :=
  let n := String.length p in
  if (string_of_list_ascii (firstn n l) =? p)%string then Some (skipn n l) else None.

Fixpoint read_value (fuel : nat) (l : list ascii) {struct fuel}
  : option (json * list ascii) :=
  match fuel with
  | O => None
  | S fuel' =>
      match l with
      | "{"%char :: r =>
          match skip_ws r with
          | "}"%char :: r' => Some (JObj [], r')
          | r' => read_members fuel' [] r'
          end
      | "["%char :: r =>
          match skip_ws r with
          | "]"%char :: r' => Some (JArr [], r')
          | r' => read_items fuel' [] r'
          end
      | "034"%char :: r =>
          match read_string r with
          | Some (s, rest) => Some (JStr s, rest)
          | None => None
          end
      | "-"%char :: r =>
          match starts "Infinity" r with
          | Some rest => Some (JFloat neg_infinity, rest)
          | None =>
              match read_nat_lit r with
              | Some (v, rest) => Some (JInt (- v), rest)
              | None => None
              end
          end
      | _ =>
          match starts "null" l, starts "true" l, starts "false" l,
                starts "NaN" l, starts "Infinity" l with
          | Some rest, _, _, _, _ => Some (JNull, rest)
          | _, Some rest, _, _, _ => Some (JBool true, rest)
          | _, _, Some rest, _, _ => Some (JBool false, rest)
          | _, _, _, Some rest, _ => Some (JFloat nan, rest)
          | _, _, _, _, Some rest => Some (JFloat infinity, rest)
          | _, _, _, _, _ =>
              match read_nat_lit l with
              | Some (v, rest) => Some (JInt v, rest)
              | None => None
              end
          end
      end
  end

(** The members of an object from its first key on; a later duplicate key
    overwrites the earlier value. *)
with read_members (fuel : nat) (acc : dict) (l : list ascii) {struct fuel}
  : option (json * list ascii) :=
  match fuel with
  | O => None
  | S fuel' =>
      match l with
      | "034"%char :: r =>
          match read_string r with
          | Some (k, r1) =>
              match skip_ws r1 with
              | ":"%char :: r2 =>
                  match read_value fuel' (skip_ws r2) with
                  | Some (v, r3) =>
                      match skip_ws r3 with
                      | ","%char :: r4 =>
                          read_members fuel' (dict_set k v acc) (skip_ws r4)
                      | "}"%char :: r4 => Some (JObj (dict_set k v acc), r4)
                      | _ => None
                      end
                  | None => None
                  end
              | _ => None
              end
          | None => None
          end
      | _ => None
      end
  end

with read_items (fuel : nat) (acc : list json) (l : list ascii) {struct fuel}
  : option (json * list ascii) :=
  match fuel with
  | O => None
  | S fuel' =>
      match read_value fuel' l with
      | Some (v, r1) =>
          match skip_ws r1 with
          | ","%char :: r2 => read_items fuel' (acc ++ [v])%list (skip_ws r2)
          | "]"%char :: r2 => Some (JArr (acc ++ [v])%list, r2)
          | _ => None
          end
      | None => None
      end
  end.

(** [json.loads(s)]: [None] is [JSONDecodeError]. *)
Definition loads_ref (s : string) : option json :=
  let l := list_ascii_of_string s in
  match read_value (2 * List.length l + 2) (skip_ws l) with
  | Some (v, rest) =>
      match skip_ws rest with
      | [] => Some v
      | _ => None
      end
  | None => None
  end.

Definition digits (z : Z) : string := NilZero.string_of_int (Z.to_int z).

Definition hex_digit (n : nat) : ascii :=
  if (n <? 10)%nat then ascii_of_nat (48 + n) else ascii_of_nat (87 + n).

(** The characters of a string literal, escaped as [json.dumps] does. *)
Fixpoint escape (s : string) : string :=
  match s with
  | EmptyString => EmptyString
  | String c r =>
      let n := nat_of_ascii c in
      (if (n =? 34)%nat then "\" ++ Py.dq
       else if (n =? 92)%nat then "\\"
       else if (n =? 10)%nat then "\n"
       else if (n =? 13)%nat then "\r"
       else if (n =? 9)%nat then "\t"
       else if (n =? 8)%nat then "\b"
       else if (n =? 12)%nat then "\f"
       else if (n <? 32)%nat then
         "\u00" ++ String (hex_digit (n / 16)) (String (hex_digit (n mod 16)) EmptyString)
       else String c EmptyString) ++ escape r
  end.

(** Sign and integer part of a finite float. *)
Definition int_part_text (f : float) : string :=
  match Prim2SF f with
  | S754_finite sign m e =>
      let magnitude :=
        match e with
        | Zneg k => Z.shiftr (Zpos m) (Zpos k)
        | _ => Z.shiftl (Zpos m) e
        end in
      (if sign then "-" else "") ++ digits magnitude
  | S754_zero true => "-0"
  | _ => "0"
  end.

(** A float as [json.dumps] writes it. *)
Definition float_text (f : float) : string :=
  match Prim2SF f with
  | S754_nan => "NaN"
  | S754_infinity false => "Infinity"
  | S754_infinity true => "-Infinity"
  | _ => int_part_text f ++ ".0"
  end.

(** [str(f)] and [format(f, ".2f")], exact on the floats that are integers
    below [10 ^ 16]. *)
Definition float_str_ref (f : float) : string :=
  match Prim2SF f with
  | S754_nan => "nan"
  | S754_infinity false => "inf"
  | S754_infinity true => "-inf"
  | _ => int_part_text f ++ ".0"
  end.

Definition float_2f_ref (f : float) : string :=
  match Prim2SF f with
  | S754_nan => "nan"
  | S754_infinity false => "inf"
  | S754_infinity true => "-inf"
  | _ => int_part_text f ++ ".00"
  end.

(** [json.dumps(v)] with the default separators. *)
Fixpoint dumps_ref (v : json) : string :=
  match v with
  | JNull => "null"
  | JBool true => "true"
  | JBool false => "false"
  | JInt z => digits z
  | JFloat f => float_text f
  | JStr s => Py.dq ++ escape s ++ Py.dq
  | JArr items => "[" ++ Py.join ", " (List.map dumps_ref items) ++ "]"
  | JObj members =>
      "{" ++ Py.join ", "
               ((fix each (d : dict) : list string :=
                   match d with
                   | [] => []
                   | (k, x) :: r =>
                       (Py.dq ++ escape k ++ Py.dq ++ ": " ++ dumps_ref x) :: each r
                   end) members) ++ "}"
  end.

End JsonRef.

(* ------------------------------------------------------------------ *)
(** ** Conversation, environment and state *)

Inductive Role : Type := user | assistant | system.

(** One message: [{"role": ..., "content": ...}]. *)
Record Turn : Type := mkTurn { role : Role; content : string }.

(** What a controller does not own: the prompt constant, the reasoning
    engine, the tool transport and the JSON library. *)
Record Env : Type := mkEnv {
  (** [SYSTEM_PROMPT], a constant no property below looks into *)
  SYSTEM_PROMPT : string;
  (** decoded standard output of the [k]-th [ollama run] on a prompt *)
  llm : nat -> string -> string;
  (** [server_path] and [os.path.exists(server_path)] *)
  server_path : string;
  server_exists : bool;
  (** the [k]-th [client.call_tool(name, args)] inside [async with Client]:
      the text parts joined by line feeds, or the error it raised *)
  mcp : nat -> json -> json -> Outcome string;
  (** [json.loads]; [None] is [json.JSONDecodeError] *)
  json_loads : string -> option json;
  (** [json.dumps] *)
  json_dumps : json -> string;
  (** [str(v)] of a decoded value that is not a [str] *)
  py_repr : json -> string
}.

(** The module-level [conversation_history], with the record of the calls
    made to the engine and to the tool transport. *)
Record State : Type := mkState {
  conversation_history : list Turn;
  prompts : list string;
  tool_calls : list (json * json)
}.

(** Computations of a turn: a result or a raised exception, and the state. *)
Definition M (A : Type) : Type := State -> Outcome A * State.

Definition ret {A : Type} (a : A) : M A := fun s => (Return a, s).

Definition throw {A : Type} (e : exn) : M A := fun s => (Raise e, s).

Definition bind {A B : Type} (m : M A) (f : A -> M B) : M B :=
  fun s =>
    match m s with
    | (Return a, s') => f a s'
    | (Raise e, s') => (Raise e, s')
    end.

(** [try: m except Exception: h] *)
Definition try_except {A : Type} (m : M A) (h : exn -> M A) : M A :=
  fun s =>
    match m s with
    | (Return a, s') => (Return a, s')
    | (Raise e, s') => h e s'
    end.

Definition lift {A : Type} (o : Outcome A) : M A := fun s => (o, s).

Declare Scope turn_scope.
Delimit Scope turn_scope with turn.
Notation "x <- m ;; k" := (bind m (fun x => k))
  (at level 61, m at next level, right associativity) : turn_scope.
Notation "m ;; k" := (bind m (fun _ => k))
  (at level 61, right associativity) : turn_scope.
Open Scope turn_scope.

Definition with_turn (s : State) (t : Turn) : State :=
  mkState (conversation_history s ++ [t])%list (prompts s) (tool_calls s).

Definition with_prompt (s : State) (p : string) : State :=
  mkState (conversation_history s) (prompts s ++ [p])%list (tool_calls s).

Definition with_tool (s : State) (name args : json) : State :=
  mkState (conversation_history s) (prompts s) (tool_calls s ++ [(name, args)])%list.

(** [conversation_history.append({"role": r, "content": c})] *)
Definition append_turn (r : Role) (c : string) : M unit :=
  fun s => (Return tt, with_turn s (mkTurn r c)).

Definition role_upper (r : Role) : string :=
  match r with
  | user => "USER"
  | assistant => "ASSISTANT"
  | system => "SYSTEM"
  end.

(** [_build_prompt], the same in the three variants *)
Definition _build_prompt (messages : list Turn) : string :=
  let parts :=
    List.map (fun m => role_upper (role m) ++ ":" ++ Py.nl ++ content m ++ Py.nl)
             messages in
  let open_header := "ASSISTANT:" ++ Py.nl in
  Py.join Py.nl (parts ++ [open_header])%list.

(** [str(v)] inside an f-string *)
Definition str_of (W : Env) (v : json) : string :=
  match v with
  | JStr s => s
  | _ => py_repr W v
  end.

Section Runtime.

Variable W : Env.

(** [_call_llm], the same in the three variants: the reply is stripped. *)
Definition _call_llm (messages : list Turn) : M string :=
  fun s =>
    let prompt := _build_prompt messages in
    let reply := Py.strip (llm W (List.length (prompts s)) prompt) in
    (Return reply, with_prompt s prompt).

(** The body of [_call_mcp_tool] from [async with Client(...)] on. *)
Definition client_call_tool (tool_name tool_args : json) : M string :=
  fun s =>
    (mcp W (List.length (tool_calls s)) tool_name tool_args,
     with_tool s tool_name tool_args).

(** Reading the global list in the middle of a computation *)
Definition get_history : M (list Turn) :=
  fun s => (Return (conversation_history s), s).

End Runtime.

(** Number of tool executions recorded between two states *)
Definition tools_since (s s' : State) : nat :=
  List.length (tool_calls s') - List.length (tool_calls s).

(** Number of engine calls recorded between two states *)
Definition prompts_since (s s' : State) : nat :=
  List.length (prompts s') - List.length (prompts s).

(* ------------------------------------------------------------------ *)
(** ** Lvl3Agent: [agent_core/agent.py] *)

Module Lvl3Agent.

Import Py.

Definition control_instruction : string :=
  "You are deciding what to do NEXT:" ++ nl ++
  "- If you ALREADY have enough info to answer the user's last request, " ++
  "  respond in FINAL_ANSWER mode (plain English, no JSON)." ++ nl ++
  "- If you STILL NEED more info, respond in TOOL_REQUEST mode by returning " ++
  "  STRICT JSON ONLY with {" ++ dq ++ "tool" ++ dq ++ ": ..., " ++
  dq ++ "arguments" ++ dq ++ ": {...}}." ++ nl ++
  "- DO NOT include any explanation outside the JSON in TOOL_REQUEST mode." ++ nl.

Definition safety_msg : string :=
  "I tried too many tool steps without producing a final answer. " ++
  "Here's what I gathered so far, but you should clarify:".

Definition max_steps : nat := 5.

Section Controller.

Variable W : Env.

(** [_call_mcp_tool]: nothing but the client call. *)
Definition _call_mcp_tool (tool_name tool_args : json) : M string :=
  client_call_tool W tool_name tool_args.

Definition _ask_model_for_next_action : M string :=
  history <- get_history ;;
  _call_llm W
    (mkTurn system (SYSTEM_PROMPT W) :: history ++ [mkTurn user control_instruction])%list.

Definition followup_instruction (tool_name tool_args : json) (tool_output : string)
  : string :=
  "The tool call just completed." ++ nl ++
  "Tool name: " ++ str_of W tool_name ++ nl ++
  "Tool arguments: " ++ json_dumps W tool_args ++ nl ++
  "Tool returned the following data (verbatim):" ++ nl ++ nl ++
  tool_output ++ nl ++ nl ++
  "Now decide what to do NEXT:" ++ nl ++
  "- If you STILL need more info, respond in TOOL_REQUEST mode by returning " ++
  "  STRICT JSON ONLY with {" ++ dq ++ "tool" ++ dq ++ ": ..., " ++
  dq ++ "arguments" ++ dq ++ ": {...}}." ++ nl ++
  "- Otherwise, provide FINAL_ANSWER in plain English (no JSON)." ++ nl ++
  "- In FINAL_ANSWER you may reference the tool result above and prior " ++
  "  conversation, but you must not invent data you haven't seen." ++ nl ++
  "- If you do math, show steps." ++ nl.

(** The tool request and the tool output go into the prompt only, not into
    [conversation_history]. *)
Definition _ask_model_after_tool (tool_name tool_args : json) (tool_output : string)
  : M string :=
  history <- get_history ;;
  let tool_request_json := JObj [("tool", tool_name); ("arguments", tool_args)] in
  _call_llm W
    (mkTurn system (SYSTEM_PROMPT W) :: history ++
       [mkTurn assistant (json_dumps W tool_request_json);
        mkTurn system (followup_instruction tool_name tool_args tool_output)])%list.

(** [_try_parse_tool_request]: the parsed dict, or [None]. *)
Definition _try_parse_tool_request (maybe_json : string) : option json :=
  let txt := strip maybe_json in
  if negb (startswith "{" txt && endswith "}" txt) then None
  else
    match json_loads W txt with
    | None => None
    | Some parsed =>
        match parsed with
        | JObj d =>
            if dict_has "tool" d && dict_has "arguments" d &&
               is_dict (dict_get_default "arguments" d)
            then Some parsed
            else None
        | _ => None
        end
    end.

(** One pass through the body of [while step_count < max_steps]: [Some a]
    when the body returns [a], [None] when it falls through to the next
    pass. *)
Definition loop_body : M (option string) :=
  model_reply <- _ask_model_for_next_action ;;
  match _try_parse_tool_request model_reply with
  | None =>
      let final_answer := strip model_reply in
      append_turn assistant final_answer ;;
      ret (Some final_answer)
  | Some parsed_tool_req =>
      tool_name <- lift (getitem parsed_tool_req "tool") ;;
      tool_args <- lift (getitem parsed_tool_req "arguments") ;;
      tool_output <- _call_mcp_tool tool_name tool_args ;;
      model_reply <- _ask_model_after_tool tool_name tool_args tool_output ;;
      match _try_parse_tool_request model_reply with
      | None =>
          let final_answer := strip model_reply in
          append_turn assistant final_answer ;;
          ret (Some final_answer)
      | Some parsed_tool_req_2 =>
          append_turn assistant (json_dumps W parsed_tool_req_2) ;;
          tool_name_2 <- lift (getitem parsed_tool_req_2 "tool") ;;
          tool_args_2 <- lift (getitem parsed_tool_req_2 "arguments") ;;
          tool_output_2 <- _call_mcp_tool tool_name_2 tool_args_2 ;;
          append_turn system
            ("Tool '" ++ str_of W tool_name_2 ++ "' returned:" ++ nl ++ tool_output_2) ;;
          ret None
      end
  end.

(** The loop with [remaining = max_steps - step_count] passes left; the
    counter is used for nothing else (both branches of
    [if step_count == 1] make the same call). *)
Fixpoint while_steps (remaining : nat) : M string :=
  match remaining with
  | O =>
      append_turn assistant safety_msg ;;
      ret safety_msg
  | S remaining' =>
      r <- loop_body ;;
      match r with
      | Some final_answer => ret final_answer
      | None => while_steps remaining'
      end
  end.

Definition run_agent_turn_async (user_text : string) : M string :=
  append_turn user user_text ;;
  while_steps max_steps.

End Controller.

End Lvl3Agent.

(* ------------------------------------------------------------------ *)
(** ** Agent_Pstorage: [agent_core/agent.py] *)

Module AgentPstorage.

Import Py.

Definition control_instruction : string :=
  "You are deciding what to do NEXT:" ++ nl ++
  "- If you ALREADY have enough info to answer the user's last request, provide FINAL_ANSWER in plain English." ++ nl ++
  "- If you STILL NEED more info or need to take an action, respond in TOOL_REQUEST mode with STRICT JSON ONLY." ++ nl.

Definition safety_msg : string :=
  "I tried too many tool steps without producing a final answer. " ++
  "Here's what I gathered so far, but you should clarify:".

Definition max_steps : nat := 5.

Definition summarize_hint : string :=
  nl ++ nl ++ "Please summarize the above tool data in plain English for the user.".

Section Controller.

Variable W : Env.

(** [_call_mcp_tool]: the server file must exist before the client call. *)
Definition _call_mcp_tool (tool_name tool_args : json) : M string :=
  if negb (server_exists W)
  then throw (FileNotFoundError ("mcp_server.py not found at: " ++ server_path W))
  else client_call_tool W tool_name tool_args.

(** [tool_args.get(k)]; a value that is no dict has no [get]. *)
Definition get_method (v : json) (k : string) : Outcome json :=
  match v with
  | JObj d => Return (dict_get_default k d)
  | _ => Raise (mkExn "AttributeError" "object has no attribute 'get'")
  end.

(** The [task_id] read from the output of [create_work_item]: [None] when
    the output is no JSON, no dict, or a dict without the key. *)
Definition task_id_of (tool_output : string) : json :=
  match json_loads W tool_output with
  | Some (JObj d) => dict_get_default "task_id" d
  | _ => JNull
  end.

(** The arguments sent to [record_task]. *)
Definition persist_args (borrower officer note task_id : json) : dict :=
  let args :=
    [("borrower", borrower); ("officer", officer); ("note", note);
     ("status", JStr "open")] in
  if truthy task_id then dict_set "task_id" task_id args else args.

Definition _maybe_persist_task (tool_name tool_args : json) (tool_output : string)
  : M unit :=
  if negb (eq_str tool_name "create_work_item") then ret tt
  else
    borrower <- lift (get_method tool_args "borrower") ;;
    officer <- lift (get_method tool_args "officer") ;;
    note <- lift (get_method tool_args "note") ;;
    let task_id := task_id_of tool_output in
    let args := persist_args borrower officer note task_id in
    try_except
      (_call_mcp_tool (JStr "record_task") (JObj args) ;; ret tt)
      (fun _ => ret tt).

Definition _ask_model_for_next_action : M string :=
  history <- get_history ;;
  _call_llm W
    (mkTurn system (SYSTEM_PROMPT W) :: history ++ [mkTurn user control_instruction])%list.

Definition followup_instruction (tool_name tool_args : json) (tool_output : string)
  : string :=
  "The tool call just completed." ++ nl ++
  "Tool name: " ++ str_of W tool_name ++ nl ++
  "Tool arguments: " ++ json_dumps W tool_args ++ nl ++
  "Tool returned the following data (verbatim):" ++ nl ++ nl ++
  tool_output ++ nl ++ nl ++
  "Now decide what to do NEXT:" ++ nl ++
  "- If you STILL need more info, respond in TOOL_REQUEST mode by returning STRICT JSON ONLY." ++ nl ++
  "- Otherwise, provide FINAL_ANSWER in plain English (no JSON). Summarize clearly." ++ nl.

Definition _ask_model_after_tool (tool_name tool_args : json) (tool_output : string)
  : M string :=
  history <- get_history ;;
  _call_llm W
    (mkTurn system (SYSTEM_PROMPT W) :: history ++
       [mkTurn assistant
          (json_dumps W (JObj [("tool", tool_name); ("arguments", tool_args)]));
        mkTurn system (followup_instruction tool_name tool_args tool_output)])%list.

Definition _try_parse_tool_request (maybe_json : string) : option json :=
  let txt := strip maybe_json in
  if negb (startswith "{" txt && endswith "}" txt) then None
  else
    match json_loads W txt with
    | None => None
    | Some parsed =>
        match parsed with
        | JObj d =>
            if dict_has "tool" d && dict_has "arguments" d &&
               is_dict (dict_get_default "arguments" d)
            then Some parsed
            else None
        | _ => None
        end
    end.

(** [if "pipeline" in lt or "queue" in lt], with [lt = user_text.lower()] *)
Definition override_matches (user_text : string) : bool :=
  let lt := lower user_text in
  contains "pipeline" lt || contains "queue" lt.

Definition override_tool_name : json := JStr "get_tasks".
Definition override_tool_args : json := JObj [("status", JStr "open")].

(** The pipeline override: one fixed tool call, one or two summaries. *)
Definition pipeline_override : M string :=
  let tool_name := override_tool_name in
  let tool_args := override_tool_args in
  tool_output <- _call_mcp_tool tool_name tool_args ;;
  reply <- _ask_model_after_tool tool_name tool_args
             (tool_output ++ nl ++ nl ++
              "Please summarize these tasks in plain English, grouped by officer if helpful.") ;;
  let summary := strip reply in
  summary <- (if negb (nonempty summary)
              then
                reply <- _ask_model_after_tool tool_name tool_args
                           (tool_output ++ nl ++ nl ++ "Summarize in plain English.") ;;
                ret (strip reply)
              else ret summary) ;;
  ret (if nonempty summary then summary else "No tasks found.").

(** One pass through the body of [while step_count < max_steps]. *)
Definition loop_body : M (option string) :=
  model_reply <- _ask_model_for_next_action ;;
  model_reply <- (if negb (nonempty model_reply) || negb (nonempty (strip model_reply))
                  then _ask_model_for_next_action
                  else ret model_reply) ;;
  match _try_parse_tool_request model_reply with
  | None =>
      let final_answer := strip model_reply in
      append_turn assistant final_answer ;;
      ret (Some final_answer)
  | Some parsed_tool_req =>
      tool_name <- lift (getitem parsed_tool_req "tool") ;;
      tool_args <- lift (getitem parsed_tool_req "arguments") ;;
      tool_output <- _call_mcp_tool tool_name tool_args ;;
      _maybe_persist_task tool_name tool_args tool_output ;;
      reply <- _ask_model_after_tool tool_name tool_args tool_output ;;
      let model_reply := strip reply in
      model_reply <- (if negb (nonempty model_reply)
                      then
                        reply <- _ask_model_after_tool tool_name tool_args
                                   (tool_output ++ summarize_hint) ;;
                        ret (strip reply)
                      else ret model_reply) ;;
      model_reply <- (if startswith "{" model_reply && endswith "}" model_reply
                      then _ask_model_after_tool tool_name tool_args
                             (tool_output ++ summarize_hint)
                      else ret model_reply) ;;
      match _try_parse_tool_request model_reply with
      | None =>
          let final_answer := strip model_reply in
          append_turn assistant final_answer ;;
          ret (Some final_answer)
      | Some parsed_tool_req_2 =>
          append_turn assistant (json_dumps W parsed_tool_req_2) ;;
          tool_name_2 <- lift (getitem parsed_tool_req_2 "tool") ;;
          tool_args_2 <- lift (getitem parsed_tool_req_2 "arguments") ;;
          tool_output_2 <- _call_mcp_tool tool_name_2 tool_args_2 ;;
          append_turn system
            ("Tool '" ++ str_of W tool_name_2 ++ "' returned:" ++ nl ++ tool_output_2) ;;
          ret None
      end
  end.

(** The loop with [remaining = max_steps - step_count] passes left. *)
Fixpoint while_steps (remaining : nat) : M string :=
  match remaining with
  | O =>
      append_turn assistant safety_msg ;;
      ret safety_msg
  | S remaining' =>
      r <- loop_body ;;
      match r with
      | Some final_answer => ret final_answer
      | None => while_steps remaining'
      end
  end.

Definition run_agent_turn_async (user_text : string) : M string :=
  append_turn user user_text ;;
  if override_matches user_text then pipeline_override
  else while_steps max_steps.

End Controller.

End AgentPstorage.

(* ------------------------------------------------------------------ *)
(** ** UWAgent: [agent_core/agent.py] *)

Module UWAgent.

Import Py.

Definition first_instruction : string :=
  "You must either answer in plain English OR request a tool in strict JSON.".

Definition retry_instruction : string :=
  "If the user mentioned a filename (like memo.txt), " ++
  "respond ONLY with JSON requesting read_file. " ++
  "If the user asked about pipeline/queue/status, " ++
  "respond ONLY with JSON requesting get_pipeline_summary. " ++
  "Otherwise answer plainly. Do not be empty.".

Section Controller.

Variable W : Env.

Definition _call_mcp_tool (tool_name tool_args : json) : M string :=
  client_call_tool W tool_name tool_args.

Definition _messages_for_first_attempt (history : list Turn) (extra_instruction : string)
  : list Turn :=
  (mkTurn system (SYSTEM_PROMPT W) :: history ++
     [mkTurn user
        (extra_instruction ++ nl ++ nl ++
         "Your job now: Either answer directly (MODE 1), " ++
         "OR respond with a JSON tool request (MODE 2). " ++
         "Do NOT stay silent.")])%list.

(** Step 3, the [try] block that detects a tool request: only
    [json.JSONDecodeError] is caught, the subscripts are inside the [try]. *)
Definition detect_tool_request (first_reply : string) : M (option (json * json)) :=
  match json_loads W first_reply with
  | None => ret None
  | Some parsed =>
      tool_name <- lift (getitem parsed "tool") ;;
      tool_args <- lift (getitem parsed "arguments") ;;
      ret (Some (tool_name, tool_args))
  end.

Definition followup_messages (history : list Turn) (first_reply : string)
  (tool_name : json) (tool_output : string) : list Turn :=
  (mkTurn system (SYSTEM_PROMPT W) :: history ++
     [mkTurn assistant first_reply;
      mkTurn system
        ("The tool '" ++ str_of W tool_name ++ "' returned this data:" ++ nl ++ nl ++
         tool_output ++ nl ++ nl ++
         "Now answer the user in plain English using ONLY this data " ++
         "and prior conversation context. " ++
         "If math is relevant, show steps. " ++
         "Do not claim to have read anything you were not given.")])%list.

Definition run_agent_turn_async (user_text : string) : M string :=
  append_turn user user_text ;;
  history <- get_history ;;
  first_reply <- _call_llm W (_messages_for_first_attempt history first_instruction) ;;
  first_reply <- (if negb (nonempty (strip first_reply))
                  then _call_llm W (_messages_for_first_attempt history retry_instruction)
                  else ret first_reply) ;;
  request <- detect_tool_request first_reply ;;
  match request with
  | None =>
      append_turn assistant first_reply ;;
      ret first_reply
  | Some (tool_name, tool_args) =>
      tool_output <- _call_mcp_tool tool_name tool_args ;;
      history <- get_history ;;
      final_reply <- _call_llm W
                       (followup_messages history first_reply tool_name tool_output) ;;
      append_turn assistant final_reply ;;
      ret final_reply
  end.

End Controller.

End UWAgent.

(* ------------------------------------------------------------------ *)
(** ** The tool servers: [agent_core/mcp_server.py] *)

(** What is found at an absolute path. *)
Inductive Node : Type :=
| Dir
| File (read_text : Outcome string).

(** The machine a tool server runs on.  The file system holds no symbolic
    link, so [Path.resolve] is the lexical normalisation of a path. *)
Record Host : Type := mkHost {
  (** [open(path, "r", encoding="utf-8")] followed by [f.read()] *)
  open_read : string -> Outcome string;
  (** the working directory, as the components of its absolute path *)
  cwd : list string;
  (** the node at an absolute path given by its components *)
  node_at : list string -> option Node;
  (** [str(x)] and [format(x, ".2f")] of a float *)
  float_str : float -> string;
  float_2f : float -> string
}.

(** Python float division *)
Definition py_div (a b : float) : Outcome float :=
  if PrimFloat.eqb b 0%float then Raise ZeroDivisionError
  else Return (PrimFloat.div a b).

Module PstorageServer.

Import Py.

(** The functions decorated with [@mcp.tool]. *)
Definition catalog : list string :=
  ["get_pipeline_summary"; "read_file"; "debt_yield"; "create_work_item";
   "record_task"; "get_tasks"; "db_health"].

(** The parameters [record_task] declares. *)
Definition record_task_params : list string :=
  ["borrower"; "officer"; "note"; "status"].

Section Tools.

Variable H : Host.

Definition read_file (path : string) : string :=
  match open_read H path with
  | Return text => text
  | Raise e => "[read_file error] " ++ exn_type e ++ ": " ++ exn_msg e
  end.

Definition debt_yield (noi loan_amount : float) : string :=
  let noi_val := noi in
  let loan_val := loan_amount in
  match py_div noi_val loan_val with
  | Raise e => "[debt_yield error] " ++ exn_type e ++ ": " ++ exn_msg e
  | Return ratio =>
      let dy := PrimFloat.mul ratio 100%float in
      "Debt Yield Calculation:" ++ nl ++
      "NOI = " ++ float_str H noi_val ++ nl ++
      "Loan Amount = " ++ float_str H loan_val ++ nl ++
      "Debt Yield = NOI / Loan Amount * 100" ++ nl ++
      "           = " ++ float_str H noi_val ++ " / " ++ float_str H loan_val ++
      " * 100" ++ nl ++
      "           = " ++ float_2f H dy ++ "%" ++ nl
  end.

End Tools.

End PstorageServer.

Module Lvl3Server.

Import Py.

Definition catalog : list string :=
  ["get_pipeline_summary"; "read_file"; "debt_yield"; "create_work_item"].

Section Tools.

Variable H : Host.

Definition read_file (path : string) : string :=
  match open_read H path with
  | Return text => text
  | Raise e => "[read_file error] " ++ exn_msg e
  end.

Definition debt_yield (noi loan_amount : float) : string :=
  let noi_val := noi in
  let loan_val := loan_amount in
  match py_div noi_val loan_val with
  | Raise e => "[debt_yield error] " ++ exn_msg e
  | Return ratio =>
      let dy := PrimFloat.mul ratio 100%float in
      "Debt Yield Calculation:" ++ nl ++
      "NOI = " ++ float_str H noi_val ++ nl ++
      "Loan Amount = " ++ float_str H loan_val ++ nl ++
      "Debt Yield = NOI / Loan Amount * 100" ++ nl ++
      "           = " ++ float_str H noi_val ++ " / " ++ float_str H loan_val ++
      " * 100" ++ nl ++
      "           = " ++ float_2f H dy ++ "%" ++ nl
  end.

End Tools.

End Lvl3Server.

Module UWServer.

Import Py.

Definition catalog : list string :=
  ["read_file"; "debt_yield"; "get_pipeline_summary"].

(** [s.split("/")] *)
Fixpoint parts_of (s : string) : list string :=
  match s with
  | EmptyString => [EmptyString]
  | String c r =>
      if (c =? "/")%char then EmptyString :: parts_of r
      else
        match parts_of r with
        | first :: rest => String c first :: rest
        | [] => [String c EmptyString]
        end
  end.

(** One component applied to an absolute path: [.] and the empty component
    stay, [..] goes up (the root is its own parent), a name goes down. *)
Definition enter (here : list string) (c : string) : list string :=
  if (c =? "") || (c =? ".") then here
  else if c =? ".." then removelast here
  else (here ++ [c])%list.

(** [(base / path).resolve()] for an absolute [base]: an absolute [path]
    replaces [base]. *)
Definition resolve_from (base : list string) (path : string) : list string :=
  fold_left enter (parts_of path) (if startswith "/" path then [] else base).

(** [str(p)] of an absolute path *)
Definition path_str (p : list string) : string := "/" ++ join "/" p.

Section Tools.

Variable H : Host.

(** [ALLOWED_ROOT = Path("./shared").resolve()] *)
Definition ALLOWED_ROOT : list string := resolve_from (cwd H) "./shared".

Definition read_file (path : string) : Outcome string :=
  let candidate := resolve_from ALLOWED_ROOT path in
  if negb (startswith (path_str ALLOWED_ROOT) (path_str candidate))
  then Raise (ValueError "Access denied: outside allowed directory.")
  else
    match node_at H candidate with
    | Some (File text) => text
    | _ => Raise (FileNotFoundError (path_str candidate ++ " not found."))
    end.

Definition debt_yield (noi loan_amount : float) : Outcome float :=
  if PrimFloat.eqb loan_amount 0%float
  then Raise (ValueError "loan_amount cannot be 0.")
  else Return (PrimFloat.div noi loan_amount).

End Tools.

(** A path lies in a directory when the directory's components are a
    prefix of the path's. *)
Fixpoint inside (root p : list string) : bool :=
  match root, p with
  | [], _ => true
  | r :: root', c :: p' => (r =? c) && inside root' p'
  | _ :: _, [] => false
  end.

End UWServer.

(* ------------------------------------------------------------------ *)
(** ** Lvl3Agent: [web/server.py] *)

Module Lvl3Web.

Import Py.

(** [JSONResponse({"answer": answer}, status_code=status_code)]; the status
    is 200 when none is given. *)
Record JSONResponse : Type := mkJSONResponse {
  status_code : nat;
  answer : string
}.

Section Handler.

Variable W : Env.

(** [ask_llm], the handler of [POST /ask].  What the handler prints when
    it catches an exception is left out. *)
Definition ask_llm (message : string) : M JSONResponse :=
  let user_msg := strip message in
  if negb (nonempty user_msg) then ret (mkJSONResponse 200 "(no input)")
  else
    try_except
      (answer <- Lvl3Agent.run_agent_turn_async W user_msg ;;
       ret (mkJSONResponse 200 answer))
      (fun e =>
         ret (mkJSONResponse 500
                ("[backend error] " ++ exn_type e ++ ": " ++ exn_msg e))).

End Handler.

End Lvl3Web.

(* ------------------------------------------------------------------ *)
(** ** Agent_Pstorage: the tools that reach n8n and Postgres *)

(** The body of a tool: [and_then] goes on after a result and stops at an
    exception; [catch] is [try: ... except Exception as e: ...]. *)
Definition and_then {A B : Type} (o : Outcome A) (k : A -> Outcome B) : Outcome B :=
  match o with
  | Return a => k a
  | Raise e => Raise e
  end.

Definition catch {A : Type} (o : Outcome A) (h : exn -> Outcome A) : Outcome A :=
  match o with
  | Return a => Return a
  | Raise e => h e
  end.

(** [r.status_code] and [r.text] of a [requests] response *)
Record HttpReply : Type := mkHttpReply {
  reply_status : Z;
  reply_text : string
}.

(** What the tool server of Agent_Pstorage reaches: its two settings, the
    HTTP client, the database driver and [json.dumps(v, indent=2,
    default=str)]. *)
Record Services : Type := mkServices {
  N8N_PIPELINE_URL : string;
  N8N_CREATE_TASK_URL : string;
  (** [requests.get(url, timeout=10)] *)
  requests_get : string -> Outcome HttpReply;
  (** [requests.post(url, json=payload, timeout=10, headers=...)] *)
  requests_post : string -> json -> Outcome HttpReply;
  dumps_indent : json -> string;
  (** [get_db_connection()] *)
  get_db_connection : Outcome unit;
  (** [cur.execute(sql, params)] and [cur.fetchall()] inside
      [with conn.cursor(cursor_factory=RealDictCursor)] *)
  fetch_all : string -> list string -> Outcome (list json);
  (** [conn.close()] *)
  close : Outcome unit
}.

Module PstorageRemote.

Import Py.

Definition RuntimeError (m : string) : exn := mkExn "RuntimeError" m.

Definition mock : json :=
  JObj [("pipeline_date", JStr "2025-11-01");
        ("deals",
         JArr [JObj [("borrower", JStr "ACME Industrial LLC");
                     ("stage", JStr "Underwriting");
                     ("officer", JStr "Smith");
                     ("exposure", JInt 15000000);
                     ("notes", JStr "Awaiting updated rent roll, DSCR tight")];
               JObj [("borrower", JStr "Greenfield Storage Partners");
                     ("stage", JStr "Spreading");
                     ("officer", JStr "Lopez");
                     ("exposure", JInt 4200000);
                     ("notes", JStr "Need YE2024 financials, leverage high")]])].

(** Truth value of an optional [str] argument: given and not empty. *)
Definition given (v : option string) : bool :=
  match v with
  | Some s => nonempty s
  | None => false
  end.

Definition value_of (v : option string) : string :=
  match v with
  | Some s => s
  | None => ""
  end.

(** The pattern of a partial match: the text between two percent signs. *)
Definition partial (s : string) : string := "%" ++ s ++ "%".

(** The statement and the parameters [get_tasks] hands to [cur.execute]. *)
Definition tasks_query (borrower officer status : option string)
  : string * list string :=
  let sql := "SELECT task_id, borrower_name, officer_name, description, status, created_at, updated_at FROM tasks WHERE 1=1" in
  let params : list string := [] in
  let '(sql, params) :=
    if given borrower
    then (sql ++ " AND borrower_name ILIKE %s",
          (params ++ [partial (value_of borrower)])%list)
    else (sql, params) in
  let '(sql, params) :=
    if given officer
    then (sql ++ " AND officer_name ILIKE %s",
          (params ++ [partial (value_of officer)])%list)
    else (sql, params) in
  let '(sql, params) :=
    if given status
    then (sql ++ " AND status = %s", (params ++ [value_of status])%list)
    else (sql, params) in
  (sql ++ " ORDER BY created_at DESC LIMIT 100", params).

Section Tools.

Variable S : Services.

Definition error_text (tool : string) (e : exn) : string :=
  "[" ++ tool ++ " error] " ++ exn_type e ++ ": " ++ exn_msg e.

Definition get_pipeline_summary : Outcome string :=
  if negb (nonempty (N8N_PIPELINE_URL S)) then Return (dumps_indent S mock)
  else
    catch
      (and_then (requests_get S (N8N_PIPELINE_URL S)) (fun r =>
         if negb (reply_status r =? 200)%Z
         then Raise (RuntimeError ("n8n error " ++ JsonRef.digits (reply_status r) ++
                                   ": " ++ reply_text r))
         else Return (reply_text r)))
      (fun e =>
         let fallback :=
           JObj [("error", JStr "Failed to reach n8n pipeline endpoint");
                 ("details", JStr (exn_type e ++ ": " ++ exn_msg e))] in
         Return (dumps_indent S fallback)).

Definition create_work_item (borrower officer note : string) : Outcome string :=
  if negb (nonempty (N8N_CREATE_TASK_URL S))
  then Return "[create_work_item error] N8N_CREATE_TASK_URL not configured"
  else
    let payload :=
      JObj [("borrower", JStr borrower); ("officer", JStr officer);
            ("note", JStr note)] in
    catch
      (and_then (requests_post S (N8N_CREATE_TASK_URL S) payload) (fun r =>
         if negb (reply_status r =? 200)%Z
         then Return ("[create_work_item error] n8n " ++
                      JsonRef.digits (reply_status r) ++ ": " ++ reply_text r)
         else Return (reply_text r)))
      (fun e => Return (error_text "create_work_item" e)).

Definition get_tasks (borrower officer status : option string) : Outcome string :=
  catch
    (and_then (get_db_connection S) (fun _ =>
     let '(sql, params) := tasks_query borrower officer status in
     and_then (fetch_all S sql params) (fun rows =>
     and_then (close S) (fun _ =>
     match rows with
     | [] => Return "No matching tasks found."
     | _ => Return (dumps_indent S (JArr rows))
     end))))
    (fun e => Return (error_text "get_tasks" e)).

End Tools.

End PstorageRemote.

(* ------------------------------------------------------------------ *)
(** ** Concrete environments for the runs below *)

Module Demo.

Import Py.

(** [str(v)] on values without floats whose strings hold no quote or
    backslash. *)
Fixpoint repr_ref (v : json) : string :=
  match v with
  | JNull => "None"
  | JBool true => "True"
  | JBool false => "False"
  | JStr s => "'" ++ s ++ "'"
  | JArr items => "[" ++ join ", " (List.map repr_ref items) ++ "]"
  | JObj members =>
      "{" ++ join ", "
               ((fix each (d : dict) : list string :=
                   match d with
                   | [] => []
                   | (k, x) :: r => ("'" ++ k ++ "': " ++ repr_ref x) :: each r
                   end) members) ++ "}"
  | _ => JsonRef.dumps_ref v
  end.

(** An engine that answers its [k]-th call with the [k]-th line of a
    script, and with nothing once the script is over. *)
Definition scripted (replies : list string) : nat -> string -> string :=
  fun k _ => nth k replies "".

Definition env (replies : list string) (present : bool)
  (tools : nat -> json -> json -> Outcome string) : Env :=
  mkEnv "You are a commercial credit analyst / credit operations assistant."
        (scripted replies)
        "/srv/bank_agent_app/agent_core/mcp_server.py"
        present
        tools
        JsonRef.loads_ref
        JsonRef.dumps_ref
        repr_ref.

Definition fresh : State := mkState [] [] [].

Definition quoted (s : string) : string := dq ++ s ++ dq.

(** [{"tool": "<name>", "arguments": <args>}] as the engine writes it *)
Definition request_text (name args : string) : string :=
  "{" ++ quoted "tool" ++ ": " ++ quoted name ++ ", " ++
  quoted "arguments" ++ ": " ++ args ++ "}".

End Demo.

Module DemoHost.

Import Py.

(** A machine with a memo in the shared directory, a key in a sibling
    directory whose name continues the name of the shared one, and a
    password file. *)
Definition node_at (p : list string) : option Node :=
  match p with
  | [] => Some Dir
  | ["etc"] | ["srv"] | ["srv"; "app"] | ["srv"; "app"; "shared"]
  | ["srv"; "app"; "shared_private"] => Some Dir
  | ["etc"; "passwd"] => Some (File (Return "root:x:0:0:root:/root:/bin/bash"))
  | ["srv"; "app"; "shared"; "memo.txt"] => Some (File (Return "DSCR is tight."))
  | ["srv"; "app"; "shared_private"; "key.txt"] => Some (File (Return "s3cr3t"))
  | _ => None
  end.

Definition working_directory : list string := ["srv"; "app"].

Definition open_read (path : string) : Outcome string :=
  match node_at (UWServer.resolve_from working_directory path) with
  | Some (File text) => text
  | Some Dir =>
      Raise (mkExn "IsADirectoryError" ("[Errno 21] Is a directory: '" ++ path ++ "'"))
  | None =>
      Raise (FileNotFoundError ("[Errno 2] No such file or directory: '" ++ path ++ "'"))
  end.

Definition host : Host :=
  mkHost open_read working_directory node_at
         JsonRef.float_str_ref JsonRef.float_2f_ref.

End DemoHost.

(** A machine whose n8n is down and whose database holds one task. *)
Module DemoServices.

Definition refused : exn :=
  mkExn "ConnectionError" "HTTPConnectionPool(host='localhost', port=5678)".

Definition row : json :=
  JObj [("task_id", JStr "1762000000000"); ("officer_name", JStr "Lopez");
        ("status", JStr "open")].

Definition offline : Services :=
  mkServices "http://localhost:5678/webhook/pipeline_summary/"
             "http://localhost:5678/webhook/create_work_item/"
             (fun _ => Raise refused)
             (fun _ _ => Raise refused)
             JsonRef.dumps_ref
             (Return tt)
             (fun _ _ => Return [row])
             (Return tt).

(** n8n answers with a server error. *)
Definition failing : Services :=
  mkServices "http://localhost:5678/webhook/pipeline_summary/"
             "http://localhost:5678/webhook/create_work_item/"
             (fun _ => Return (mkHttpReply 500 "workflow failed"))
             (fun _ _ => Return (mkHttpReply 500 "workflow failed"))
             JsonRef.dumps_ref
             (Raise (mkExn "OperationalError" "connection refused"))
             (fun _ _ => Return [])
             (Return tt).

End DemoServices.

(* ================================================================== *)
(** * Vocabulary of the properties *)

(* ------------------------------------------------------------------ *)
(** ** States and runs *)

(** From [s] to [s'] the history gained [turns] and the tool record gained
    [calls], both at the end; the prompt record gained something at the
    end. *)
Definition grows (s s' : State) (turns : list Turn) (calls : list (json * json))
  : Prop :=
  conversation_history s' = (conversation_history s ++ turns)%list /\
  tool_calls s' = (tool_calls s ++ calls)%list /\
  exists ps, prompts s' = (prompts s ++ ps)%list.

(** [m] appends at most [t] turns and makes at most [k] tool calls, and
    removes or reorders nothing. *)
Definition bounded {A : Type} (t k : nat) (m : M A) : Prop :=
  forall s, exists turns calls,
    grows s (snd (m s)) turns calls /\
    List.length turns <= t /\ List.length calls <= k.

(** [Q] holds of the outcome and the final state of [m] started in [s]. *)
Definition post {A : Type} (m : M A) (s : State) (Q : Outcome A -> State -> Prop)
  : Prop :=
  Q (fst (m s)) (snd (m s)).

(** What one pass of the loop leaves in the history: the final answer when
    it returns one, the request and the result of the chained tool call
    when it falls through, at most the request when it raises. *)
Definition body_shape (r : Outcome (option string)) (turns : list Turn) : Prop :=
  match r with
  | Return (Some a) => turns = [mkTurn assistant a]
  | Return None => exists x y, turns = [mkTurn assistant x; mkTurn system y]
  | Raise _ => List.length turns <= 1
  end.

(** The synthetic turns of a sequence of chained tool calls. *)
Definition pair_turns (pairs : list (string * string)) : list Turn :=
  flat_map (fun p => [mkTurn assistant (fst p); mkTurn system (snd p)]) pairs.

(** What the loop with [n] passes left leaves in the history when it
    returns [a]: the pairs of the passes that fell through and the answer,
    which is [msg] when all [n] passes fell through. *)
Definition loop_shape (msg : string) (n : nat) (r : Outcome string)
  (turns : list Turn) : Prop :=
  match r with
  | Return a =>
      exists pairs, (List.length pairs <= n)%nat /\
                    turns = (pair_turns pairs ++ [mkTurn assistant a])%list /\
                    (List.length pairs = n -> a = msg)
  | Raise _ => True
  end.

(* ------------------------------------------------------------------ *)
(** ** Turns of Lvl3Agent *)

Module Lvl3Spec.

Import Py Lvl3Agent.

Section Vocabulary.

Variable W : Env.

(** The prompt of [_ask_model_for_next_action] on a history, and the first
    reply of a turn that starts in [s]. *)
Definition next_action_prompt (history : list Turn) : string :=
  _build_prompt
    (mkTurn system (SYSTEM_PROMPT W) :: history ++ [mkTurn user control_instruction])%list.

Definition first_reply (s : State) (user_text : string) : string :=
  strip (llm W (List.length (prompts s))
             (next_action_prompt
                (conversation_history s ++ [mkTurn user user_text])%list)).

(** An engine that never gives a final answer, and tools that never fail. *)
Definition always_requests : Prop :=
  forall k p, _try_parse_tool_request W (strip (llm W k p)) <> None.

Definition tools_answer : Prop :=
  forall k n a, raises (mcp W k n a) = false.

End Vocabulary.

End Lvl3Spec.

(* ------------------------------------------------------------------ *)
(** ** Turns of Agent_Pstorage *)

Module PstorageSpec.

Import Py AgentPstorage.

Section Vocabulary.

Variable W : Env.

Definition next_action_prompt (history : list Turn) : string :=
  _build_prompt
    (mkTurn system (SYSTEM_PROMPT W) :: history ++ [mkTurn user control_instruction])%list.

Definition after_tool_prompt (history : list Turn) (n a : json) (out : string)
  : string :=
  _build_prompt
    (mkTurn system (SYSTEM_PROMPT W) :: history ++
       [mkTurn assistant (json_dumps W (JObj [("tool", n); ("arguments", a)]));
        mkTurn system (followup_instruction W n a out)])%list.

Definition grouped_hint : string :=
  nl ++ nl ++ "Please summarize these tasks in plain English, grouped by officer if helpful.".

Definition plain_hint : string := nl ++ nl ++ "Summarize in plain English.".

(** The two summaries the override may ask for, in a turn that starts in
    [s] and whose tool call returned [out]. *)
Definition first_summary (s : State) (user_text out : string) : string :=
  strip (strip (llm W (List.length (prompts s))
                    (after_tool_prompt
                       (conversation_history s ++ [mkTurn user user_text])%list
                       override_tool_name override_tool_args (out ++ grouped_hint)))).

Definition second_summary (s : State) (user_text out : string) : string :=
  strip (strip (llm W (S (List.length (prompts s)))
                    (after_tool_prompt
                       (conversation_history s ++ [mkTurn user user_text])%list
                       override_tool_name override_tool_args (out ++ plain_hint)))).

(** The first reply of a turn that is classified: the opening reply, or
    the reply to the one retry when the opening reply is empty. *)
Definition opening_reply (s : State) (user_text : string) : string :=
  strip (llm W (List.length (prompts s))
             (next_action_prompt
                (conversation_history s ++ [mkTurn user user_text])%list)).

Definition first_reply (s : State) (user_text : string) : string :=
  let model_reply := opening_reply s user_text in
  if negb (nonempty model_reply) || negb (nonempty (strip model_reply))
  then strip (llm W (S (List.length (prompts s)))
                  (next_action_prompt
                     (conversation_history s ++ [mkTurn user user_text])%list))
  else model_reply.

Definition missing_server : exn :=
  FileNotFoundError ("mcp_server.py not found at: " ++ server_path W).

Definition always_requests : Prop :=
  forall k p, _try_parse_tool_request W (strip (llm W k p)) <> None.

Definition tools_answer : Prop :=
  server_exists W = true /\ forall k n a, raises (mcp W k n a) = false.

End Vocabulary.

End PstorageSpec.

(* ------------------------------------------------------------------ *)
(** ** Turns of UWAgent *)

Module UWSpec.

Import Py UWAgent.

Section Vocabulary.

Variable W : Env.

(** The reply that is looked at for a tool request: the first reply, or
    the reply to the retry when the first is empty. *)
Definition opening_reply (s : State) (user_text : string) : string :=
  strip (llm W (List.length (prompts s))
             (_build_prompt
                (_messages_for_first_attempt W
                   (conversation_history s ++ [mkTurn user user_text])%list
                   first_instruction))).

Definition retried (s : State) (user_text : string) : bool :=
  negb (nonempty (strip (opening_reply s user_text))).

Definition first_reply (s : State) (user_text : string) : string :=
  if retried s user_text
  then strip (llm W (S (List.length (prompts s)))
                  (_build_prompt
                     (_messages_for_first_attempt W
                        (conversation_history s ++ [mkTurn user user_text])%list
                        retry_instruction)))
  else opening_reply s user_text.

(** The state when the first reply is in. *)
Definition asked (s : State) (user_text : string) : State :=
  let s1 :=
    with_prompt (with_turn s (mkTurn user user_text))
      (_build_prompt
         (_messages_for_first_attempt W
            (conversation_history s ++ [mkTurn user user_text])%list
            first_instruction)) in
  if retried s user_text
  then with_prompt s1
         (_build_prompt
            (_messages_for_first_attempt W
               (conversation_history s ++ [mkTurn user user_text])%list
               retry_instruction))
  else s1.

(** The reply to the follow-up prompt that shows the tool output. *)
Definition followup_prompt (s : State) (user_text : string) (n : json) (out : string)
  : string :=
  _build_prompt
    (followup_messages W (conversation_history s ++ [mkTurn user user_text])%list
       (first_reply s user_text) n out).

Definition final_reply (s : State) (user_text : string) (n : json) (out : string)
  : string :=
  strip (llm W (List.length (prompts (asked s user_text)))
             (followup_prompt s user_text n out)).

End Vocabulary.

End UWSpec.

(* ------------------------------------------------------------------ *)
(** ** Concrete turns *)

Module Scenarios.

Import Py Demo.

(** A transport that serves the tools of a table with a fixed text each and
    raises [ToolError] for any other name, as the client does when the
    server reports an unknown tool. *)
Definition transport (table : list (string * string))
  : nat -> json -> json -> Outcome string :=
  fun _ tool_name _ =>
    match tool_name with
    | JStr name =>
        match find (fun entry => fst entry =? name) table with
        | Some entry => Return (snd entry)
        | None => Raise (mkExn "ToolError" ("Unknown tool: " ++ name))
        end
    | _ => Raise (mkExn "ToolError" "Unknown tool")
    end.

Definition created_text : string :=
  "{" ++ quoted "task_id" ++ ": " ++ quoted "T-1" ++ ", " ++
  quoted "status" ++ ": " ++ quoted "created" ++ "}".

Definition open_tasks_text : string :=
  "[{" ++ quoted "officer_name" ++ ": " ++ quoted "Lopez" ++ ", " ++
  quoted "description" ++ ": " ++ quoted "chase the rent roll" ++ "}]".

(** The tools of the Agent_Pstorage server. *)
Definition served : list (string * string) :=
  [("get_pipeline_summary", "{}");
   ("read_file", "DSCR is tight.");
   ("debt_yield", "[debt_yield error] ZeroDivisionError: float division by zero");
   ("create_work_item", created_text);
   ("record_task", "{}");
   ("get_tasks", open_tasks_text);
   ("db_health", "{}")].

Definition assign_text : string := "assign Lopez a task to chase the rent roll".

Definition assign_args_text : string :=
  "{" ++ quoted "borrower" ++ ": " ++ quoted "ACME Industrial LLC" ++ ", " ++
  quoted "officer" ++ ": " ++ quoted "Lopez" ++ ", " ++
  quoted "note" ++ ": " ++ quoted "chase the rent roll" ++ "}".

Definition assign_args : json :=
  JObj [("borrower", JStr "ACME Industrial LLC"); ("officer", JStr "Lopez");
        ("note", JStr "chase the rent roll")].

Definition assign_request : json :=
  JObj [("tool", JStr "create_work_item"); ("arguments", assign_args)].

(** The engine asks for [create_work_item] at once, then reports. *)
Definition eager : Env :=
  env [request_text "create_work_item" assign_args_text; "The task is created."]
      true (transport served).

(** The engine asks for the pipeline summary whatever it is shown. *)
Definition restless : Env :=
  mkEnv "You are a commercial credit analyst / credit operations assistant."
        (fun _ _ => request_text "get_pipeline_summary" "{}")
        "/srv/bank_agent_app/agent_core/mcp_server.py"
        true
        (transport served)
        JsonRef.loads_ref JsonRef.dumps_ref repr_ref.

(** The same engine with a transport that answers any call. *)
Definition tireless : Env :=
  mkEnv "You are a commercial credit analyst / credit operations assistant."
        (fun _ _ => request_text "get_pipeline_summary" "{}")
        "/srv/bank_agent_app/agent_core/mcp_server.py"
        true
        (fun _ _ _ => Return "{}")
        JsonRef.loads_ref JsonRef.dumps_ref repr_ref.

(** The engine asks for [create_work_item] whatever it is shown. *)
Definition hasty : Env :=
  mkEnv "You are a commercial credit analyst / credit operations assistant."
        (fun _ _ => request_text "create_work_item" assign_args_text)
        "/srv/bank_agent_app/agent_core/mcp_server.py"
        true
        (transport served)
        JsonRef.loads_ref JsonRef.dumps_ref repr_ref.

(** The request and the result that a chained call to a tool leaves in
    the history. *)
Definition summary_pair : string * string :=
  (request_text "get_pipeline_summary" "{}",
   "Tool 'get_pipeline_summary' returned:" ++ nl ++ "{}").

(** The engine asks for a tool no server has. *)
Definition stray : Env :=
  env [request_text "delete_everything" "{}"; "Nothing was deleted."]
      true (transport served).


(** The same request with the server file missing. *)
Definition stray_offline : Env :=
  env [request_text "delete_everything" "{}"; "Nothing was deleted."]
      false (transport served).

(** The engine stays silent. *)
Definition silent : Env := env [] true (transport served).

(** The engine answers the override with a JSON object. *)
Definition structured : Env :=
  env ["{" ++ quoted "summary" ++ ": " ++ quoted "one task" ++ "}"]
      true (transport served).


Definition read_request : json :=
  JObj [("tool", JStr "read_file"); ("arguments", JObj [("path", JStr "memo.txt")])].

(** The engine answers a tool result with another tool request. *)
Definition chaining : Env :=
  env [request_text "read_file" ("{" ++ quoted "path" ++ ": " ++ quoted "memo.txt" ++ "}");
       request_text "get_pipeline_summary" "{}"]
      true (transport served).

(** The engine answers with JSON that is no tool request. *)
Definition off_shape : Env :=
  env ["{" ++ quoted "answer" ++ ": 42}"] true (transport served).

(** [create_work_item] answered with a null task identifier. *)
Definition null_task_text : string := "{" ++ quoted "task_id" ++ ": null}".

End Scenarios.

(* ------------------------------------------------------------------ *)
(** ** What a turn sends and what it calls *)

(** [m] sends at most [k] prompts to the engine, and removes or reorders
    none of the prompts sent before. *)
Definition asks {A : Type} (k : nat) (m : M A) : Prop :=
  forall s, exists ps,
    prompts (snd (m s)) = (prompts s ++ ps)%list /\ List.length ps <= k.

(** From [s] to [s'] the tool record gained calls that all satisfy [P]. *)
Definition calls_only (P : json * json -> Prop) (s s' : State) : Prop :=
  exists calls, tool_calls s' = (tool_calls s ++ calls)%list /\ Forall P calls.

(** From [s] to [s'] the prompt record gained prompts that all satisfy
    [P]. *)
Definition prompts_only (P : string -> Prop) (s s' : State) : Prop :=
  exists ps, prompts s' = (prompts s ++ ps)%list /\ Forall P ps.

(** A call the engine asked for: some reply of the engine is classified by
    [parse] as a tool request with the tool and the arguments of the
    call. *)
Definition requested (W : Env) (parse : string -> option json) (c : json * json)
  : Prop :=
  exists k p req,
    parse (Py.strip (llm W k p)) = Some req /\
    getitem req "tool" = Return (fst c) /\
    getitem req "arguments" = Return (snd c).

(** The mirror call: [record_task] on the fields of a requested
    [create_work_item] call that returned [out]. *)
Definition mirrored (W : Env) (c : json * json) : Prop :=
  exists d k out,
    requested W (AgentPstorage._try_parse_tool_request W)
      (JStr "create_work_item", JObj d) /\
    mcp W k (JStr "create_work_item") (JObj d) = Return out /\
    c = (JStr "record_task",
         JObj (AgentPstorage.persist_args
                 (dict_get_default "borrower" d) (dict_get_default "officer" d)
                 (dict_get_default "note" d) (AgentPstorage.task_id_of W out))).

(** A prompt that renders the system prompt, then every turn of [h] in
    order, then possibly more. *)
Definition carries (W : Env) (h : list Turn) (p : string) : Prop :=
  exists more,
    p = _build_prompt (mkTurn system (SYSTEM_PROMPT W) :: h ++ more)%list.

(** The calls Agent_Pstorage makes: those the engine asked for, the mirror
    calls, and the fixed call of the pipeline override. *)
Definition ps_justified (W : Env) (c : json * json) : Prop :=
  requested W (AgentPstorage._try_parse_tool_request W) c \/
  mirrored W c \/
  c = (AgentPstorage.override_tool_name, AgentPstorage.override_tool_args).

(** Number of places where [needle] occurs in [hay]. *)
Fixpoint occurrences (needle hay : string) : nat :=
  (if String.prefix needle hay then 1 else 0) +
  match hay with
  | EmptyString => 0
  | String _ r => occurrences needle r
  end.

(** A text of white space only. *)
Fixpoint blank (s : string) : bool :=
  match s with
  | EmptyString => true
  | String c r => Py.is_space c && blank r
  end.


(** An answer without white space at either end. *)
Definition trimmed_answer (r : Outcome string) : Prop :=
  match r with
  | Return a => Py.strip a = a
  | Raise _ => True
  end.

(* ------------------------------------------------------------------ *)
(** ** Passes of the loop *)







(* ------------------------------------------------------------------ *)
(** ** Paths beside a directory *)


(** A path lies beside a directory when it leaves the parent of the
    directory through an entry whose name begins with the name of the
    directory without being it: [/srv/app/shared_private/key.txt] lies
    beside [/srv/app/shared]. *)
Fixpoint beside (root p : list string) : bool :=
  match root, p with
  | [l], c :: _ => negb (l =? c) && String.prefix l c
  | r :: root', c :: p' => (r =? c) && beside root' p'
  | _, _ => false
  end.

(* ================================================================== *)
(** * Properties *)

(* ------------------------------------------------------------------ *)
(** ** Python strings *)

Module PyFacts.

Import Py.

Lemma rstrip_idempotent (s : string) : rstrip (rstrip s) = rstrip s.
Proof.
  induction s as [| c r IH]; [reflexivity |].
  cbn [rstrip]. destruct (rstrip r) as [| c' r'] eqn:E.
  - destruct (is_space c) eqn:Ec; [reflexivity |]. cbn. now rewrite Ec.
  - cbn [rstrip] in *. rewrite IH. reflexivity.
Qed.

Lemma rstrip_head (c : ascii) (r : string) :
  is_space c = false -> exists r', rstrip (String c r) = String c r'.
Proof.
  intros Hc. cbn [rstrip]. destruct (rstrip r); rewrite ?Hc; eauto.
Qed.

Lemma lstrip_cases (s : string) :
  lstrip s = EmptyString \/
  exists c r, lstrip s = String c r /\ is_space c = false.
Proof.
  induction s as [| c r IH]; [now left |].
  cbn [lstrip]. destruct (is_space c) eqn:Ec; [exact IH |]. right. eauto.
Qed.

Lemma strip_idempotent (s : string) : strip (strip s) = strip s.
Proof.
  unfold strip. destruct (lstrip_cases s) as [-> | (c & r & -> & Hc)];
    [reflexivity |].
  destruct (@rstrip_head c r Hc) as (r' & E). rewrite E. cbn [lstrip].
  rewrite Hc, <- E. apply rstrip_idempotent.
Qed.

End PyFacts.

(* ------------------------------------------------------------------ *)
(** ** How a computation changes the state *)

Lemma grows_refl (s : State) : grows s s [] [].
Proof.
  unfold grows. rewrite !app_nil_r. repeat split. exists []. now rewrite app_nil_r.
Qed.

Lemma grows_trans (s1 s2 s3 : State) turns1 calls1 turns2 calls2 :
  grows s1 s2 turns1 calls1 ->
  grows s2 s3 turns2 calls2 ->
  grows s1 s3 (turns1 ++ turns2)%list (calls1 ++ calls2)%list.
Proof.
  intros (H1 & C1 & p1 & P1) (H2 & C2 & p2 & P2).
  unfold grows. rewrite H2, H1, C2, C1, P2, P1, !app_assoc.
  repeat split. exists (p1 ++ p2)%list. now rewrite app_assoc.
Qed.

Lemma grows_with_turn (s : State) (t : Turn) : grows s (with_turn s t) [t] [].
Proof.
  unfold grows, with_turn; cbn. rewrite app_nil_r. repeat split.
  exists []. now rewrite app_nil_r.
Qed.

Lemma grows_with_prompt (s : State) (p : string) : grows s (with_prompt s p) [] [].
Proof.
  unfold grows, with_prompt; cbn. rewrite !app_nil_r. repeat split. now exists [p].
Qed.

Lemma grows_with_tool (s : State) (n a : json) :
  grows s (with_tool s n a) [] [(n, a)].
Proof.
  unfold grows, with_tool; cbn. rewrite app_nil_r. repeat split.
  exists []. now rewrite app_nil_r.
Qed.

Lemma grows_tools_since (s s' : State) turns calls :
  grows s s' turns calls -> tools_since s s' = List.length calls.
Proof.
  intros (_ & C & _). unfold tools_since. rewrite C, length_app. lia.
Qed.

Section Bounded.

Context {A B : Type}.

Lemma bounded_weaken (t k t' k' : nat) (m : M A) :
  bounded t k m -> t <= t' -> k <= k' -> bounded t' k' m.
Proof.
  intros Hm Ht Hk s. destruct (Hm s) as (turns & calls & G & Lt & Lk).
  exists turns, calls. split; [exact G | split; lia].
Qed.

Lemma bounded_ret (t k : nat) (a : A) : bounded t k (ret a).
Proof.
  intros s. exists [], []. cbn. split; [apply grows_refl | split; lia].
Qed.

Lemma bounded_throw (t k : nat) (e : exn) : bounded t k (@throw A e).
Proof.
  intros s. exists [], []. cbn. split; [apply grows_refl | split; lia].
Qed.

Lemma bounded_lift (o : Outcome A) : bounded 0 0 (lift o).
Proof.
  intros s. exists [], []. cbn. split; [apply grows_refl | split; lia].
Qed.

Lemma bounded_bind (t1 k1 t k : nat) (m : M A) (f : A -> M B) :
  bounded t1 k1 m -> t1 <= t -> k1 <= k ->
  (forall a, bounded (t - t1) (k - k1) (f a)) ->
  bounded t k (bind m f).
Proof.
  intros Hm Ht Hk Hf s. unfold bind.
  destruct (Hm s) as (turns & calls & G & Lt & Lk).
  destruct (m s) as [[a | e] s1]; cbn in *.
  - destruct (Hf a s1) as (turns' & calls' & G' & Lt' & Lk').
    exists (turns ++ turns')%list, (calls ++ calls')%list.
    split; [eapply grows_trans; eassumption |].
    rewrite !length_app. split; lia.
  - exists turns, calls. split; [exact G | split; lia].
Qed.

Lemma bounded_try_except (t1 k1 t k : nat) (m : M A) (h : exn -> M A) :
  bounded t1 k1 m -> t1 <= t -> k1 <= k ->
  (forall e, bounded (t - t1) (k - k1) (h e)) ->
  bounded t k (try_except m h).
Proof.
  intros Hm Ht Hk Hh s. unfold try_except.
  destruct (Hm s) as (turns & calls & G & Lt & Lk).
  destruct (m s) as [[a | e] s1]; cbn in *.
  - exists turns, calls. split; [exact G | split; lia].
  - destruct (Hh e s1) as (turns' & calls' & G' & Lt' & Lk').
    exists (turns ++ turns')%list, (calls ++ calls')%list.
    split; [eapply grows_trans; eassumption |].
    rewrite !length_app. split; lia.
Qed.

Lemma bounded_if (t k : nat) (c : bool) (m1 m2 : M A) :
  bounded t k m1 -> bounded t k m2 -> bounded t k (if c then m1 else m2).
Proof. now destruct c. Qed.

End Bounded.

Lemma bounded_append_turn (r : Role) (c : string) : bounded 1 0 (append_turn r c).
Proof.
  intros s. exists [mkTurn r c], []. cbn.
  split; [apply grows_with_turn | split; cbn; lia].
Qed.

Lemma bounded_get_history : bounded 0 0 get_history.
Proof.
  intros s. exists [], []. cbn. split; [apply grows_refl | split; lia].
Qed.

Lemma bounded_call_llm (W : Env) (msgs : list Turn) : bounded 0 0 (_call_llm W msgs).
Proof.
  intros s. exists [], []. cbn. split; [apply grows_with_prompt | split; lia].
Qed.

Lemma bounded_client_call_tool (W : Env) (n a : json) :
  bounded 0 1 (client_call_tool W n a).
Proof.
  intros s. exists [], [(n, a)]. cbn.
  split; [apply grows_with_tool | split; cbn; lia].
Qed.

Create HintDb bounded.
#[export] Hint Resolve bounded_lift bounded_append_turn bounded_get_history
  bounded_call_llm bounded_client_call_tool : bounded.

(** One step through a computation, for a goal [bounded t k m] with
    numerals [t] and [k]. *)
Ltac bounded_step :=
  lazymatch goal with
  | |- bounded _ _ (ret _) => apply bounded_ret
  | |- bounded _ _ (throw _) => apply bounded_throw
  | |- bounded _ _ (bind _ _) =>
      eapply bounded_bind;
      [ solve [eauto with bounded] | cbn; lia | cbn; lia | intros ?; cbn [Nat.sub] ]
  | |- bounded _ _ (try_except _ _) =>
      eapply bounded_try_except;
      [ solve [eauto with bounded] | cbn; lia | cbn; lia | intros ?; cbn [Nat.sub] ]
  | |- bounded _ _ (if _ then _ else _) => apply bounded_if
  | |- bounded _ _ (match ?x with _ => _ end) => destruct x
  | |- bounded _ _ _ =>
      solve [eapply bounded_weaken; [eauto with bounded | cbn; lia | cbn; lia]]
  end.

Ltac bounded_run := repeat bounded_step.

(* ------------------------------------------------------------------ *)
(** ** Running a computation from a given state *)

Section Post.

Context {A B : Type}.

Lemma post_ret (a : A) (s : State) (Q : Outcome A -> State -> Prop) :
  Q (Return a) s -> post (ret a) s Q.
Proof. exact (fun H => H). Qed.

Lemma post_throw (e : exn) (s : State) (Q : Outcome A -> State -> Prop) :
  Q (Raise e) s -> post (throw e) s Q.
Proof. exact (fun H => H). Qed.

Lemma post_lift (o : Outcome A) (s : State) (Q : Outcome A -> State -> Prop) :
  Q o s -> post (lift o) s Q.
Proof. exact (fun H => H). Qed.

Lemma post_bind (m : M A) (f : A -> M B) (s : State)
  (Q : Outcome B -> State -> Prop) :
  post m s (fun r s1 =>
              match r with
              | Return a => post (f a) s1 Q
              | Raise e => Q (Raise e) s1
              end) ->
  post (bind m f) s Q.
Proof.
  unfold post, bind. destruct (m s) as [[a | e] s1]; cbn; trivial.
Qed.

Lemma post_try_except (m : M A) (h : exn -> M A) (s : State)
  (Q : Outcome A -> State -> Prop) :
  post m s (fun r s1 =>
              match r with
              | Return a => Q (Return a) s1
              | Raise e => post (h e) s1 Q
              end) ->
  post (try_except m h) s Q.
Proof.
  unfold post, try_except. destruct (m s) as [[a | e] s1]; cbn; trivial.
Qed.

(** A computation known through its bounds only. *)
Lemma post_bounded (t k : nat) (m : M A) (s : State)
  (Q : Outcome A -> State -> Prop) :
  bounded t k m ->
  (forall r s' turns calls,
      grows s s' turns calls -> List.length turns <= t -> List.length calls <= k ->
      Q r s') ->
  post m s Q.
Proof.
  intros Hm HQ. unfold post. destruct (Hm s) as (turns & calls & G & Lt & Lk).
  eapply HQ; eassumption.
Qed.

End Post.

Lemma post_append_turn (r : Role) (c : string) (s : State)
  (Q : Outcome unit -> State -> Prop) :
  Q (Return tt) (with_turn s (mkTurn r c)) -> post (append_turn r c) s Q.
Proof. exact (fun H => H). Qed.

Lemma post_get_history (s : State) (Q : Outcome (list Turn) -> State -> Prop) :
  Q (Return (conversation_history s)) s -> post get_history s Q.
Proof. exact (fun H => H). Qed.

Lemma post_call_llm (W : Env) (msgs : list Turn) (s : State)
  (Q : Outcome string -> State -> Prop) :
  Q (Return (Py.strip (llm W (List.length (prompts s)) (_build_prompt msgs))))
    (with_prompt s (_build_prompt msgs)) ->
  post (_call_llm W msgs) s Q.
Proof. exact (fun H => H). Qed.

Lemma post_client_call_tool (W : Env) (n a : json) (s : State)
  (Q : Outcome string -> State -> Prop) :
  Q (mcp W (List.length (tool_calls s)) n a) (with_tool s n a) ->
  post (client_call_tool W n a) s Q.
Proof. exact (fun H => H). Qed.

(** One step of a run through the primitives. *)
Ltac post_step :=
  lazymatch goal with
  | |- post (ret _) _ _ => apply post_ret
  | |- post (throw _) _ _ => apply post_throw
  | |- post (lift _) _ _ => apply post_lift
  | |- post (bind _ _) _ _ => apply post_bind
  | |- post (try_except _ _) _ _ => apply post_try_except
  | |- post (append_turn _ _) _ _ => apply post_append_turn
  | |- post get_history _ _ => apply post_get_history
  | |- post (_call_llm _ _) _ _ => apply post_call_llm
  | |- post (client_call_tool _ _ _) _ _ => apply post_client_call_tool
  end; cbv beta iota.

(** The state after a chain of updates has grown from the state before. *)
Ltac grows_chain :=
  repeat first
    [ eassumption
    | apply grows_refl
    | apply grows_with_turn
    | apply grows_with_prompt
    | apply grows_with_tool
    | eapply grows_trans; [ | first [ apply grows_with_turn
                                    | apply grows_with_prompt
                                    | apply grows_with_tool
                                    | eassumption ] ] ].

Lemma post_conseq {A : Type} (m : M A) (s : State)
  (Q Q' : Outcome A -> State -> Prop) :
  post m s Q -> (forall r s', Q r s' -> Q' r s') -> post m s Q'.
Proof. unfold post. auto. Qed.

Ltac post_branch :=
  lazymatch goal with
  | |- post (match ?x with _ => _ end) _ _ => destruct x eqn:?
  | |- post (if ?x then _ else _) _ _ => destruct x eqn:?
  | |- match ?x with _ => _ end => destruct x eqn:?
  end.

Ltac post_run := repeat first [post_step | post_branch].

Lemma pair_turns_cons (x y : string) (pairs : list (string * string)) :
  pair_turns ((x, y) :: pairs) =
  (mkTurn assistant x :: mkTurn system y :: pair_turns pairs).
Proof. reflexivity. Qed.

Lemma grows_prompts (s s' : State) turns calls :
  grows s s' turns calls -> exists ps, prompts s' = (prompts s ++ ps)%list.
Proof. now intros (_ & _ & P). Qed.

Lemma length_snoc {X : Type} (l : list X) (x : X) :
  List.length (l ++ [x]) = S (List.length l).
Proof. rewrite length_app. cbn. lia. Qed.

Ltac state_simpl :=
  cbn [conversation_history prompts tool_calls with_turn with_prompt with_tool] in *.

Lemma grows_tool_calls (s s' : State) turns calls :
  grows s s' turns calls -> tool_calls s' = (tool_calls s ++ calls)%list.
Proof. now intros (_ & C & _). Qed.

Lemma grows_history (s s' : State) turns calls :
  grows s s' turns calls ->
  conversation_history s' = (conversation_history s ++ turns)%list.
Proof. now intros (C & _). Qed.

(* ------------------------------------------------------------------ *)
(** ** Lvl3Agent *)

Module Lvl3Facts.

Import Py Lvl3Agent.

Section Facts.

Variable W : Env.

Local Abbreviation next_action_prompt := (Lvl3Spec.next_action_prompt W).
Local Abbreviation first_reply := (Lvl3Spec.first_reply W).
Local Abbreviation always_requests := (Lvl3Spec.always_requests W).
Local Abbreviation tools_answer := (Lvl3Spec.tools_answer W).

Lemma lvl3_bounded_ask_next : bounded 0 0 (_ask_model_for_next_action W).
Proof. unfold _ask_model_for_next_action. bounded_run. Qed.

Lemma lvl3_bounded_ask_after (n a : json) (out : string) :
  bounded 0 0 (_ask_model_after_tool W n a out).
Proof. unfold _ask_model_after_tool. bounded_run. Qed.

Lemma lvl3_bounded_call_mcp_tool (n a : json) : bounded 0 1 (_call_mcp_tool W n a).
Proof. unfold _call_mcp_tool. auto with bounded. Qed.

#[local] Hint Resolve lvl3_bounded_ask_next lvl3_bounded_ask_after lvl3_bounded_call_mcp_tool : bounded.

Lemma lvl3_bounded_loop_body : bounded 2 2 (loop_body W).
Proof. unfold loop_body. bounded_run. Qed.

#[local] Hint Resolve lvl3_bounded_loop_body : bounded.

Lemma lvl3_bounded_while_steps (n : nat) :
  bounded (2 * n + 1) (2 * n) (while_steps W n).
Proof.
  induction n as [| n IH]; cbn [while_steps].
  - bounded_run.
  - eapply bounded_bind; [apply lvl3_bounded_loop_body | lia | lia |].
    intros [a |]; [apply bounded_ret |].
    eapply bounded_weaken; [exact IH | lia | lia].
Qed.

Lemma lvl3_bounded_run_agent_turn (user_text : string) :
  bounded 12 10 (run_agent_turn_async W user_text).
Proof.
  unfold run_agent_turn_async.
  eapply bounded_bind; [apply bounded_append_turn | lia | lia |].
  intros _. eapply bounded_weaken; [apply (lvl3_bounded_while_steps max_steps) | |];
    cbn; lia.
Qed.

(** A reply classified as a tool request has both subscripts. *)
Lemma lvl3_try_parse_some (reply : string) (req : json) :
  _try_parse_tool_request W reply = Some req ->
  exists n a, getitem req "tool" = Return n /\
              getitem req "arguments" = Return a /\
              is_dict a = true.
Proof.
  unfold _try_parse_tool_request.
  destruct (negb _); [discriminate |].
  destruct (json_loads W (strip reply)) as [[| | | | | | d] |]; try discriminate.
  destruct (dict_has "tool" d) eqn:Ht; cbn [andb]; [| discriminate].
  destruct (dict_has "arguments" d) eqn:Ha; cbn [andb]; [| discriminate].
  destruct (is_dict (dict_get_default "arguments" d)) eqn:Hd; [| discriminate].
  intros [= <-]. unfold dict_has, dict_get_default in *. cbn [getitem].
  destruct (dict_get "tool" d) as [n |]; [| discriminate].
  destruct (dict_get "arguments" d) as [a |]; [| discriminate].
  now exists n, a.
Qed.

(** A reply is classified as a final answer unless it is brace-delimited
    JSON for a dict with a [tool] key and an [arguments] dict. *)
Lemma lvl3_try_parse_none (reply : string) :
  _try_parse_tool_request W reply = None <->
  ~ (startswith "{" (strip reply) = true /\ endswith "}" (strip reply) = true /\
     exists d a, json_loads W (strip reply) = Some (JObj d) /\
                 dict_has "tool" d = true /\
                 dict_get "arguments" d = Some a /\ is_dict a = true).
Proof.
  unfold _try_parse_tool_request.
  destruct (startswith "{" (strip reply)); cbn [andb negb];
    [| split; [intros _ (H & _); discriminate | reflexivity]].
  destruct (endswith "}" (strip reply)); cbn [negb];
    [| split; [intros _ (_ & H & _); discriminate | reflexivity]].
  destruct (json_loads W (strip reply)) as [v |];
    [| split; [intros _ (_ & _ & d & a & H & _); discriminate | reflexivity]].
  destruct v as [| | | | | | d];
    try (split; [intros _ (_ & _ & d' & a & H & _); discriminate | reflexivity]).
  unfold dict_has, dict_get_default.
  destruct (dict_get "tool" d) as [n |] eqn:Ht; cbn [andb].
  - destruct (dict_get "arguments" d) as [a |] eqn:Ha; cbn [andb].
    + destruct (is_dict a) eqn:Hd.
      * split; [discriminate |]. intros H. exfalso. apply H.
        split; [reflexivity |]. split; [reflexivity |].
        exists d, a. rewrite Ht. auto.
      * split; [| reflexivity].
        intros _ (_ & _ & d' & a' & [= <-] & _ & Ha' & H). congruence.
    + cbn. split; [| reflexivity].
      intros _ (_ & _ & d' & a' & [= <-] & _ & H & _). congruence.
  - split; [| reflexivity].
    intros _ (_ & _ & d' & a' & [= <-] & H & _). rewrite Ht in H. discriminate.
Qed.

Lemma lvl3_loop_body_shape (s : State) :
  post (loop_body W) s
    (fun r s' => exists turns calls,
         grows s s' turns calls /\ body_shape r turns /\ List.length calls <= 2).
Proof.
  unfold loop_body, _ask_model_for_next_action, _ask_model_after_tool, _call_mcp_tool.
  post_run.
  all: eexists; eexists; split; [grows_chain |].
  all: cbn [app List.length body_shape]; split; solve [eauto | lia].
Qed.

Lemma lvl3_while_steps_succ (n : nat) :
  while_steps W (S n) =
  (r <- loop_body W ;;
   match r with
   | Some final_answer => ret final_answer
   | None => while_steps W n
   end).
Proof. reflexivity. Qed.

Lemma lvl3_while_steps_shape (n : nat) (s : State) :
  post (while_steps W n) s
    (fun r s' => exists turns calls,
         grows s s' turns calls /\ loop_shape safety_msg n r turns /\
         List.length calls <= 2 * n).
Proof.
  revert s. induction n as [| n IH]; intros s.
  - cbn [while_steps]. post_run. eexists; eexists; split; [grows_chain |].
    cbn [app List.length loop_shape]. split; [| lia]. exists [].
    split; [cbn; lia | split; reflexivity].
  - rewrite lvl3_while_steps_succ. apply post_bind.
    eapply post_conseq; [apply lvl3_loop_body_shape |].
    intros r s1 (turns & calls & G & Sh & Lc).
    destruct r as [[a |] | e]; cbn [body_shape] in Sh.
    + apply post_ret. exists turns, calls. split; [exact G |].
      split; [| lia]. subst turns. exists [].
      split; [cbn; lia | split; [reflexivity | cbn; lia]].
    + eapply post_conseq; [apply IH |].
      intros r s2 (turns2 & calls2 & G2 & Sh2 & Lc2).
      exists (turns ++ turns2)%list, (calls ++ calls2)%list.
      split; [eapply grows_trans; eassumption |].
      rewrite length_app. split; [| lia].
      destruct r as [a | e]; cbn [loop_shape] in *; trivial.
      destruct Sh as (x & y & ->). destruct Sh2 as (pairs & Lp & -> & Hs).
      exists ((x, y) :: pairs).
      split; [cbn; lia | split; [reflexivity | cbn; intros; apply Hs; lia]].
    + exists turns, calls. split; [exact G |]. split; [exact I | lia].
Qed.

Lemma lvl3_run_shape (user_text : string) (s : State) :
  post (run_agent_turn_async W user_text) s
    (fun r s' =>
       match r with
       | Return a =>
           exists pairs, (List.length pairs <= max_steps)%nat /\
             conversation_history s' =
             (conversation_history s ++
              mkTurn user user_text :: pair_turns pairs ++ [mkTurn assistant a])%list /\
             (List.length pairs = max_steps -> a = safety_msg)
       | Raise _ => True
       end).
Proof.
  unfold run_agent_turn_async. post_step. post_step.
  eapply post_conseq; [apply lvl3_while_steps_shape |].
  intros [a | e] s' (turns & calls & G & Sh & _); [| exact I].
  destruct Sh as (pairs & Lp & -> & Hs). exists pairs. split; [exact Lp |].
  split; [| exact Hs].
  apply grows_history in G. rewrite G. state_simpl. now rewrite <- app_assoc.
Qed.

(** The tool a first reply asks for is called, whatever the history holds. *)
Lemma lvl3_first_request_executed (s : State) (user_text : string) (req : json) :
  _try_parse_tool_request W (first_reply s user_text) = Some req ->
  exists n a rest,
    getitem req "tool" = Return n /\ getitem req "arguments" = Return a /\
    tool_calls (snd (run_agent_turn_async W user_text s)) =
    (tool_calls s ++ (n, a) :: rest)%list.
Proof.
  intros Hreq. destruct (lvl3_try_parse_some _ Hreq) as (n & a & Hn & Ha & _).
  exists n, a.
  enough (post (run_agent_turn_async W user_text) s
            (fun _ s' => exists rest,
                 tool_calls s' = (tool_calls s ++ (n, a) :: rest)%list))
    as (rest & H) by (exists rest; auto).
  unfold run_agent_turn_async, max_steps. rewrite lvl3_while_steps_succ.
  unfold loop_body at 1, _ask_model_for_next_action.
  repeat post_step.
  unfold Lvl3Spec.first_reply, Lvl3Spec.next_action_prompt in Hreq. state_simpl.
  rewrite Hreq. repeat post_step. rewrite Hn. repeat post_step. rewrite Ha.
  repeat post_step.
  unfold _call_mcp_tool at 1. repeat post_step.
  destruct (mcp _ _ _ _) as [out | e].
  - eapply (post_bounded (t := 2) (k := 1)); [bounded_run |].
    intros r s1 turns calls G _ _. apply grows_tool_calls in G. state_simpl.
    destruct r as [[ans |] | e]; post_run.
    + exists calls. rewrite G, <- app_assoc. reflexivity.
    + eapply post_bounded; [apply (lvl3_bounded_while_steps 4) |].
      intros r s2 turns2 calls2 G2 _ _. apply grows_tool_calls in G2.
      exists (calls ++ calls2)%list. rewrite G2, G, <- !app_assoc. reflexivity.
    + exists calls. rewrite G, <- app_assoc. reflexivity.
  - exists []. reflexivity.
Qed.

Ltac absurd_branch Hreq Hans :=
  match goal with
  | P : _try_parse_tool_request _ _ = None |- _ =>
      exfalso; eapply Hreq; eassumption
  | H : getitem ?j _ = Raise _, P : _try_parse_tool_request _ _ = Some ?j |- _ =>
      destruct (lvl3_try_parse_some _ P) as (? & ? & ? & ? & _); congruence
  | H : mcp W ?k ?n ?a = Raise _ |- _ =>
      let C := fresh in pose proof (Hans k n a) as C; rewrite H in C; discriminate
  end.

Lemma lvl3_loop_body_falls_through (s : State) :
  always_requests -> tools_answer ->
  post (loop_body W) s
    (fun r s' => r = Return None /\
                 exists turns calls, grows s s' turns calls /\
                                     List.length calls = 2).
Proof.
  intros Hreq Hans.
  unfold loop_body, _ask_model_for_next_action, _ask_model_after_tool, _call_mcp_tool.
  post_run.
  all: try absurd_branch Hreq Hans.
  split; [reflexivity |]. eexists; eexists. split; [grows_chain | reflexivity].
Qed.

Lemma lvl3_while_steps_exhausts (n : nat) (s : State) :
  always_requests -> tools_answer ->
  post (while_steps W n) s
    (fun r s' => r = Return safety_msg /\
                 exists turns calls, grows s s' turns calls /\
                                     List.length calls = 2 * n).
Proof.
  intros Hreq Hans. revert s. induction n as [| n IH]; intros s.
  - cbn [while_steps]. post_run. split; [reflexivity |].
    eexists; eexists. split; [grows_chain | reflexivity].
  - rewrite lvl3_while_steps_succ. apply post_bind.
    eapply post_conseq; [apply lvl3_loop_body_falls_through; assumption |].
    intros r s1 (-> & turns & calls & G & Lc).
    eapply post_conseq; [apply IH |].
    intros r s2 (-> & turns2 & calls2 & G2 & Lc2). split; [reflexivity |].
    exists (turns ++ turns2)%list, (calls ++ calls2)%list.
    split; [eapply grows_trans; eassumption |]. rewrite length_app. lia.
Qed.

(** With such an engine and such tools a turn runs its 5 passes, executes
    10 tools and returns the exhaustion message. *)
Lemma lvl3_turn_exhausts (user_text : string) (s : State) :
  always_requests -> tools_answer ->
  fst (run_agent_turn_async W user_text s) = Return safety_msg /\
  tools_since s (snd (run_agent_turn_async W user_text s)) = 10.
Proof.
  intros Hreq Hans.
  change (post (run_agent_turn_async W user_text) s
            (fun r s' => r = Return safety_msg /\ tools_since s s' = 10)).
  unfold run_agent_turn_async. post_step. post_step.
  eapply post_conseq; [apply lvl3_while_steps_exhausts; assumption |].
  intros r s' (-> & turns & calls & G & Lc). split; [reflexivity |].
  apply grows_tool_calls in G. unfold tools_since. state_simpl.
  rewrite G, length_app, Lc. cbn. lia.
Qed.

End Facts.

Example tireless_always_requests :
  Lvl3Spec.always_requests Scenarios.tireless /\
  Lvl3Spec.tools_answer Scenarios.tireless.
Proof.
  split.
  - intros k p. vm_compute. discriminate.
  - intros k n a. reflexivity.
Qed.

Example tireless_turn_exhausts :
  fst (run_agent_turn_async Scenarios.tireless "status?" Demo.fresh) =
    Return safety_msg /\
  tools_since Demo.fresh
    (snd (run_agent_turn_async Scenarios.tireless "status?" Demo.fresh)) = 10.
Proof.
  apply lvl3_turn_exhausts; apply tireless_always_requests.
Qed.

End Lvl3Facts.

(* ------------------------------------------------------------------ *)
(** ** Agent_Pstorage *)

Module PstorageFacts.

Import Py AgentPstorage.

Section Facts.
Variable W : Env.

Local Abbreviation next_action_prompt := (PstorageSpec.next_action_prompt W).
Local Abbreviation after_tool_prompt := (PstorageSpec.after_tool_prompt W).
Local Abbreviation first_summary := (PstorageSpec.first_summary W).
Local Abbreviation second_summary := (PstorageSpec.second_summary W).
Local Abbreviation opening_reply := (PstorageSpec.opening_reply W).
Local Abbreviation first_reply := (PstorageSpec.first_reply W).
Local Abbreviation missing_server := (PstorageSpec.missing_server W).
Local Abbreviation always_requests := (PstorageSpec.always_requests W).
Local Abbreviation tools_answer := (PstorageSpec.tools_answer W).
Local Abbreviation grouped_hint := PstorageSpec.grouped_hint.
Local Abbreviation plain_hint := PstorageSpec.plain_hint.

Lemma ps_bounded_ask_next : bounded 0 0 (_ask_model_for_next_action W).
Proof. unfold _ask_model_for_next_action. bounded_run. Qed.

Lemma ps_bounded_ask_after (n a : json) (out : string) :
  bounded 0 0 (_ask_model_after_tool W n a out).
Proof. unfold _ask_model_after_tool. bounded_run. Qed.

Lemma ps_bounded_call_mcp_tool (n a : json) : bounded 0 1 (_call_mcp_tool W n a).
Proof. unfold _call_mcp_tool. bounded_run. Qed.

#[local] Hint Resolve ps_bounded_ask_next ps_bounded_ask_after ps_bounded_call_mcp_tool : bounded.

Lemma ps_bounded_record_call (n a : json) :
  bounded 0 1 (_call_mcp_tool W n a ;; ret tt).
Proof. bounded_run. Qed.

#[local] Hint Resolve ps_bounded_record_call : bounded.

Lemma ps_bounded_persist (n a : json) (out : string) :
  bounded 0 1 (_maybe_persist_task W n a out).
Proof.
  unfold _maybe_persist_task. bounded_run.
Qed.

Lemma ps_bounded_retry_next (r : string) (c : bool) :
  bounded 0 0 (if c then _ask_model_for_next_action W else ret r).
Proof. bounded_run. Qed.

Lemma ps_bounded_retry_after (c : bool) (n a : json) (out r : string) :
  bounded 0 0 (if c then (reply <- _ask_model_after_tool W n a out ;; ret (strip reply))
               else ret r).
Proof. bounded_run. Qed.

Lemma ps_bounded_retry_json (c : bool) (n a : json) (out r : string) :
  bounded 0 0 (if c then _ask_model_after_tool W n a out else ret r).
Proof. bounded_run. Qed.

#[local] Hint Resolve ps_bounded_persist ps_bounded_retry_next ps_bounded_retry_after ps_bounded_retry_json : bounded.

Lemma ps_bounded_loop_body : bounded 2 3 (loop_body W).
Proof. unfold loop_body. bounded_run. Qed.

Lemma ps_bounded_pipeline_override : bounded 0 1 (pipeline_override W).
Proof. unfold pipeline_override. bounded_run. Qed.

Ltac post_persist :=
  lazymatch goal with
  | |- post (_maybe_persist_task _ _ _ _) _ _ =>
      eapply (post_bounded (t := 0) (k := 1)); [apply ps_bounded_persist |];
      let turns := fresh "turns" in
      intros ? ? turns ? ? ? ?;
      destruct turns; [| exfalso; cbn [List.length] in *; lia]; cbv beta iota
  end.

Lemma ps_loop_body_shape (s : State) :
  post (loop_body W) s
    (fun r s' => exists turns calls,
         grows s s' turns calls /\ body_shape r turns /\ List.length calls <= 3).
Proof.
  unfold loop_body, _ask_model_for_next_action, _ask_model_after_tool, _call_mcp_tool.
  repeat first [post_step | post_persist | post_branch].
  all: eexists; eexists; split; [grows_chain |].
  all: cbn [app List.length body_shape]; split; try solve [eauto | lia | rewrite ?length_app; cbn [List.length]; lia].
Qed.


#[local] Hint Resolve ps_bounded_loop_body ps_bounded_pipeline_override : bounded.

Lemma ps_bounded_while_steps (n : nat) :
  bounded (2 * n + 1) (3 * n) (while_steps W n).
Proof.
  induction n as [| n IH]; cbn [while_steps].
  - bounded_run.
  - eapply bounded_bind; [apply ps_bounded_loop_body | lia | lia |].
    intros [a |]; [apply bounded_ret |].
    eapply bounded_weaken; [exact IH | lia | lia].
Qed.

Lemma ps_bounded_run_agent_turn (user_text : string) :
  bounded 12 15 (run_agent_turn_async W user_text).
Proof.
  unfold run_agent_turn_async.
  eapply bounded_bind; [apply bounded_append_turn | lia | lia |].
  intros _. apply bounded_if.
  - eapply bounded_weaken; [apply ps_bounded_pipeline_override | |]; cbn; lia.
  - eapply bounded_weaken; [apply (ps_bounded_while_steps max_steps) | |]; cbn; lia.
Qed.

Lemma ps_try_parse_some (reply : string) (req : json) :
  _try_parse_tool_request W reply = Some req ->
  exists n a, getitem req "tool" = Return n /\
              getitem req "arguments" = Return a /\
              is_dict a = true.
Proof.
  unfold _try_parse_tool_request.
  destruct (negb _); [discriminate |].
  destruct (json_loads W (strip reply)) as [[| | | | | | d] |]; try discriminate.
  destruct (dict_has "tool" d) eqn:Ht; cbn [andb]; [| discriminate].
  destruct (dict_has "arguments" d) eqn:Ha; cbn [andb]; [| discriminate].
  destruct (is_dict (dict_get_default "arguments" d)) eqn:Hd; [| discriminate].
  intros [= <-]. unfold dict_has, dict_get_default in *. cbn [getitem].
  destruct (dict_get "tool" d) as [n |]; [| discriminate].
  destruct (dict_get "arguments" d) as [a |]; [| discriminate].
  now exists n, a.
Qed.

(** A reply is classified as a final answer unless it is brace-delimited
    JSON for a dict with a [tool] key and an [arguments] dict. *)
Lemma ps_try_parse_none (reply : string) :
  _try_parse_tool_request W reply = None <->
  ~ (startswith "{" (strip reply) = true /\ endswith "}" (strip reply) = true /\
     exists d a, json_loads W (strip reply) = Some (JObj d) /\
                 dict_has "tool" d = true /\
                 dict_get "arguments" d = Some a /\ is_dict a = true).
Proof.
  unfold _try_parse_tool_request.
  destruct (startswith "{" (strip reply)); cbn [andb negb];
    [| split; [intros _ (H & _); discriminate | reflexivity]].
  destruct (endswith "}" (strip reply)); cbn [negb];
    [| split; [intros _ (_ & H & _); discriminate | reflexivity]].
  destruct (json_loads W (strip reply)) as [v |];
    [| split; [intros _ (_ & _ & d & a & H & _); discriminate | reflexivity]].
  destruct v as [| | | | | | d];
    try (split; [intros _ (_ & _ & d' & a & H & _); discriminate | reflexivity]).
  unfold dict_has, dict_get_default.
  destruct (dict_get "tool" d) as [n |] eqn:Ht; cbn [andb].
  - destruct (dict_get "arguments" d) as [a |] eqn:Ha; cbn [andb].
    + destruct (is_dict a) eqn:Hd.
      * split; [discriminate |]. intros H. exfalso. apply H.
        split; [reflexivity |]. split; [reflexivity |].
        exists d, a. rewrite Ht. auto.
      * split; [| reflexivity].
        intros _ (_ & _ & d' & a' & [= <-] & _ & Ha' & H). congruence.
    + cbn. split; [| reflexivity].
      intros _ (_ & _ & d' & a' & [= <-] & _ & H & _). congruence.
  - split; [| reflexivity].
    intros _ (_ & _ & d' & a' & [= <-] & H & _). rewrite Ht in H. discriminate.
Qed.

Lemma ps_while_steps_succ (n : nat) :
  while_steps W (S n) =
  (r <- loop_body W ;;
   match r with
   | Some final_answer => ret final_answer
   | None => while_steps W n
   end).
Proof. reflexivity. Qed.

Lemma ps_while_steps_shape (n : nat) (s : State) :
  post (while_steps W n) s
    (fun r s' => exists turns calls,
         grows s s' turns calls /\ loop_shape safety_msg n r turns /\
         List.length calls <= 3 * n).
Proof.
  revert s. induction n as [| n IH]; intros s.
  - cbn [while_steps]. post_run. eexists; eexists; split; [grows_chain |].
    cbn [app List.length loop_shape]. split; [| lia]. exists [].
    split; [cbn; lia | split; reflexivity].
  - rewrite ps_while_steps_succ. apply post_bind.
    eapply post_conseq; [apply ps_loop_body_shape |].
    intros r s1 (turns & calls & G & Sh & Lc).
    destruct r as [[a |] | e]; cbn [body_shape] in Sh.
    + apply post_ret. exists turns, calls. split; [exact G |].
      split; [| lia]. subst turns. exists [].
      split; [cbn; lia | split; [reflexivity | cbn; lia]].
    + eapply post_conseq; [apply IH |].
      intros r s2 (turns2 & calls2 & G2 & Sh2 & Lc2).
      exists (turns ++ turns2)%list, (calls ++ calls2)%list.
      split; [eapply grows_trans; eassumption |].
      rewrite length_app. split; [| lia].
      destruct r as [a | e]; cbn [loop_shape] in *; trivial.
      destruct Sh as (x & y & ->). destruct Sh2 as (pairs & Lp & -> & Hs).
      exists ((x, y) :: pairs).
      split; [cbn; lia | split; [reflexivity | cbn; intros; apply Hs; lia]].
    + exists turns, calls. split; [exact G |]. split; [exact I | lia].
Qed.

(** A completed turn outside the override: the user turn, the pairs of the
    chained tool calls, the answer. *)
Lemma ps_run_shape (user_text : string) (s : State) :
  override_matches user_text = false ->
  post (run_agent_turn_async W user_text) s
    (fun r s' =>
       match r with
       | Return a =>
           exists pairs, (List.length pairs <= max_steps)%nat /\
             conversation_history s' =
             (conversation_history s ++
              mkTurn user user_text :: pair_turns pairs ++ [mkTurn assistant a])%list /\
             (List.length pairs = max_steps -> a = safety_msg)
       | Raise _ => True
       end).
Proof.
  intros Hov. unfold run_agent_turn_async. rewrite Hov. post_step. post_step.
  eapply post_conseq; [apply ps_while_steps_shape |].
  intros [a | e] s' (turns & calls & G & Sh & _); [| exact I].
  destruct Sh as (pairs & Lp & -> & Hs). exists pairs. split; [exact Lp |].
  split; [| exact Hs].
  apply grows_history in G. rewrite G. state_simpl. now rewrite <- app_assoc.
Qed.

Lemma ps_override_path (s : State) (user_text : string) :
  override_matches user_text = true ->
  server_exists W = true ->
  let r := run_agent_turn_async W user_text s in
  conversation_history (snd r) =
    (conversation_history s ++ [mkTurn user user_text])%list /\
  tool_calls (snd r) = (tool_calls s ++ [(override_tool_name, override_tool_args)])%list /\
  match mcp W (List.length (tool_calls s)) override_tool_name override_tool_args with
  | Raise e => fst r = Raise e /\ prompts_since s (snd r) = 0
  | Return out =>
      if nonempty (first_summary s user_text out)
      then fst r = Return (first_summary s user_text out) /\
           prompts_since s (snd r) = 1
      else fst r = Return (if nonempty (second_summary s user_text out)
                           then second_summary s user_text out
                           else "No tasks found.") /\
           prompts_since s (snd r) = 2
  end.
Proof.
  intros Hov Hsrv.
  change (post (run_agent_turn_async W user_text) s
            (fun r s' =>
               conversation_history s' =
                 (conversation_history s ++ [mkTurn user user_text])%list /\
               tool_calls s' =
                 (tool_calls s ++ [(override_tool_name, override_tool_args)])%list /\
               match mcp W (List.length (tool_calls s)) override_tool_name override_tool_args with
               | Raise e => r = Raise e /\ prompts_since s s' = 0
               | Return out =>
                   if nonempty (first_summary s user_text out)
                   then r = Return (first_summary s user_text out) /\
                        prompts_since s s' = 1
                   else r = Return (if nonempty (second_summary s user_text out)
                                    then second_summary s user_text out
                                    else "No tasks found.") /\
                        prompts_since s s' = 2
               end)).
  unfold PstorageSpec.first_summary, PstorageSpec.second_summary, PstorageSpec.after_tool_prompt, PstorageSpec.grouped_hint, PstorageSpec.plain_hint.
  unfold run_agent_turn_async. rewrite Hov. post_step. post_step.
  unfold pipeline_override, _call_mcp_tool, _ask_model_after_tool.
  rewrite Hsrv. cbn [negb]. post_step. post_step. state_simpl.
  destruct (mcp W _ _ _) as [out | e].
  - repeat post_step. state_simpl.
    match goal with
    | |- post (if negb (nonempty ?x) then _ else _) _ _ =>
        destruct (nonempty x) eqn:E1; cbn [negb]
    end.
    + repeat post_step. rewrite E1. state_simpl. unfold prompts_since. state_simpl.
      rewrite length_snoc. repeat split; lia.
    + repeat post_step. state_simpl. rewrite length_snoc.
      unfold prompts_since. state_simpl. rewrite !length_snoc.
      repeat split; lia.
  - unfold prompts_since. state_simpl. repeat split; lia.
Qed.

Lemma ps_post_persist_dict (n a : json) (out : string) (s : State)
  (Q : Outcome unit -> State -> Prop) :
  is_dict a = true ->
  (forall s' calls, grows s s' [] calls -> List.length calls <= 1 -> Q (Return tt) s') ->
  post (_maybe_persist_task W n a out) s Q.
Proof.
  intros Hd HQ. destruct a; try discriminate.
  unfold _maybe_persist_task, _call_mcp_tool. cbn [get_method].
  post_run; eapply HQ; try solve [grows_chain]; cbn; lia.
Qed.

Lemma ps_first_request (s : State) (user_text : string) (req : json) :
  override_matches user_text = false ->
  _try_parse_tool_request W (first_reply s user_text) = Some req ->
  exists n a,
    getitem req "tool" = Return n /\ getitem req "arguments" = Return a /\
    post (run_agent_turn_async W user_text) s
      (fun r s' =>
         if server_exists W then
           (exists rest, tool_calls s' = (tool_calls s ++ (n, a) :: rest)%list) /\
           match mcp W (List.length (tool_calls s)) n a with
           | Raise e =>
               r = Raise e /\
               tool_calls s' = (tool_calls s ++ [(n, a)])%list /\
               conversation_history s' =
                 (conversation_history s ++ [mkTurn user user_text])%list
           | Return out =>
               In (after_tool_prompt
                     (conversation_history s ++ [mkTurn user user_text])%list n a out)
                  (prompts s')
           end
         else
           r = Raise missing_server /\
           tool_calls s' = tool_calls s /\
           conversation_history s' =
             (conversation_history s ++ [mkTurn user user_text])%list).
Proof.
  intros Hov Hreq. destruct (ps_try_parse_some _ Hreq) as (n & a & Hn & Ha & Hd).
  exists n, a. split; [exact Hn |]. split; [exact Ha |].
  unfold run_agent_turn_async, max_steps. rewrite Hov, ps_while_steps_succ.
  unfold loop_body at 1, _ask_model_for_next_action.
  repeat post_step.
  unfold PstorageSpec.first_reply, PstorageSpec.opening_reply, PstorageSpec.next_action_prompt in Hreq. state_simpl.
  match goal with
  | |- post (if ?c then _ else _) _ _ => destruct c eqn:Eretry
  end; repeat post_step; state_simpl; try rewrite length_snoc; rewrite Hreq;
    repeat post_step; rewrite Hn; repeat post_step; rewrite Ha; repeat post_step;
    unfold _call_mcp_tool at 1; destruct (server_exists W); cbn [negb];
    repeat post_step; state_simpl; try (repeat split; reflexivity).
  all: destruct (mcp W _ n a) as [out | e];
    [| split; [exists []; reflexivity | repeat split; reflexivity]].
  all: apply post_bind; apply ps_post_persist_dict; [exact Hd |];
    intros s1 calls1 G1 _; apply post_bind; unfold _ask_model_after_tool at 1;
    apply post_bind; apply post_get_history; cbv beta iota;
    apply post_call_llm; cbv beta iota;
    eapply (post_bounded (t := 2) (k := 1)); [bounded_run |];
    intros r s2 turns2 calls2 G2 _ _;
    assert (G : exists ps,
               tool_calls s2 = (tool_calls s ++ (n, a) :: calls1 ++ calls2)%list /\
               prompts s2 =
               (prompts s1 ++
                after_tool_prompt
                  (conversation_history s ++ [mkTurn user user_text])%list n a out
                :: ps)%list)
      by (destruct (grows_prompts G2) as (ps & P2);
          apply grows_tool_calls in G2; pose proof (grows_history G1) as H1;
          apply grows_tool_calls in G1; state_simpl; exists ps;
          unfold PstorageSpec.after_tool_prompt; rewrite G2, G1, P2, H1, app_nil_r, <- !app_assoc;
          split; reflexivity);
    destruct G as (ps & GT & GP); clear G1 G2.
  all: destruct r as [[ans |] | e]; post_run;
    try (split; [eexists; exact GT | rewrite GP; apply in_or_app; right; now left]).
  all: eapply post_bounded; [apply (ps_bounded_while_steps 4) |];
    intros r s3 turns3 calls3 G3 _ _;
    destruct (grows_prompts G3) as (ps3 & P3); apply grows_tool_calls in G3;
    (split; [exists (calls1 ++ calls2 ++ calls3)%list;
             rewrite G3, GT, <- app_assoc, <- app_comm_cons, <- app_assoc;
             reflexivity
            | rewrite P3, GP; apply in_or_app; left; apply in_or_app; right;
              now left]).
Qed.

Lemma ps_try_parse_args_dict (reply : string) (req a : json) :
  _try_parse_tool_request W reply = Some req ->
  getitem req "arguments" = Return a -> is_dict a = true.
Proof.
  intros Hreq Ha. destruct (ps_try_parse_some _ Hreq) as (n & a' & _ & Ha' & Hd).
  congruence.
Qed.

Ltac absurd_branch Hreq Hans :=
  match goal with
  | P : _try_parse_tool_request _ _ = None |- _ =>
      exfalso; eapply Hreq; eassumption
  | H : getitem ?j _ = Raise _, P : _try_parse_tool_request _ _ = Some ?j |- _ =>
      destruct (ps_try_parse_some _ P) as (? & ? & ? & ? & _); congruence
  | H : mcp W ?k ?n ?a = Raise _ |- _ =>
      let C := fresh in
      pose proof (proj2 Hans k n a) as C; rewrite H in C; discriminate
  | H : negb (server_exists W) = true |- _ =>
      rewrite (proj1 Hans) in H; discriminate
  end.

Ltac post_persist_checked :=
  lazymatch goal with
  | |- post (_maybe_persist_task _ _ _ _) _ _ =>
      apply ps_post_persist_dict;
      [ eapply ps_try_parse_args_dict; eassumption | intros ? ? ? ? ]
  end.

Lemma ps_loop_body_falls_through (s : State) :
  always_requests -> tools_answer ->
  post (loop_body W) s
    (fun r s' => r = Return None /\
                 exists turns calls, grows s s' turns calls /\
                                     2 <= List.length calls <= 3).
Proof.
  intros Hreq Hans.
  unfold loop_body, _ask_model_for_next_action, _ask_model_after_tool, _call_mcp_tool.
  repeat first [post_step | post_persist_checked | post_branch].
  all: rewrite ?PyFacts.strip_idempotent in *.
  all: try absurd_branch Hreq Hans.
  all: split; [reflexivity |]; eexists; eexists; (split; [grows_chain |]).
  all: rewrite ?length_app; cbn [app List.length]; lia.
Qed.

Lemma ps_while_steps_exhausts (n : nat) (s : State) :
  always_requests -> tools_answer ->
  post (while_steps W n) s
    (fun r s' => r = Return safety_msg /\
                 exists turns calls, grows s s' turns calls /\
                                     2 * n <= List.length calls <= 3 * n).
Proof.
  intros Hreq Hans. revert s. induction n as [| n IH]; intros s.
  - cbn [while_steps]. post_run. split; [reflexivity |].
    eexists; eexists. split; [grows_chain | cbn; lia].
  - rewrite ps_while_steps_succ. apply post_bind.
    eapply post_conseq; [apply ps_loop_body_falls_through; assumption |].
    intros r s1 (-> & turns & calls & G & Lc).
    eapply post_conseq; [apply IH |].
    intros r s2 (-> & turns2 & calls2 & G2 & Lc2). split; [reflexivity |].
    exists (turns ++ turns2)%list, (calls ++ calls2)%list.
    split; [eapply grows_trans; eassumption |]. rewrite length_app. lia.
Qed.

(** The mirror call of [_maybe_persist_task] after [create_work_item]. *)
Lemma ps_persist_run (d : dict) (out : string) (s : State) :
  server_exists W = true ->
  _maybe_persist_task W (JStr "create_work_item") (JObj d) out s =
  (Return tt,
   with_tool s (JStr "record_task")
     (JObj (persist_args (dict_get_default "borrower" d)
                         (dict_get_default "officer" d)
                         (dict_get_default "note" d)
                         (task_id_of W out)))).
Proof.
  intros Hsrv. unfold _maybe_persist_task, _call_mcp_tool. rewrite Hsrv.
  cbn. unfold try_except, bind, lift, client_call_tool, ret. cbn.
  now destruct (mcp W _ _ _).
Qed.

Lemma ps_persist_quiet (n a : json) (out : string) (s : State) :
  is_dict a = true ->
  fst (_maybe_persist_task W n a out s) = Return tt /\
  conversation_history (snd (_maybe_persist_task W n a out s)) =
  conversation_history s /\
  prompts (snd (_maybe_persist_task W n a out s)) = prompts s.
Proof.
  intros Hd. destruct a; try discriminate.
  unfold _maybe_persist_task, _call_mcp_tool. cbn [get_method].
  change (post
            (if negb (eq_str n "create_work_item") then ret tt
             else
               borrower <- lift (Return (dict_get_default "borrower" members));;
               officer <- lift (Return (dict_get_default "officer" members));;
               note <- lift (Return (dict_get_default "note" members));;
               try_except
                 ((if negb (server_exists W)
                   then throw (FileNotFoundError
                                 ("mcp_server.py not found at: " ++ server_path W))
                   else client_call_tool W (JStr "record_task")
                          (JObj (persist_args borrower officer note (task_id_of W out))));;
                  ret tt)
                 (fun _ => ret tt)) s
            (fun r s' => r = Return tt /\
                         conversation_history s' = conversation_history s /\
                         prompts s' = prompts s)).
  post_run; state_simpl; auto.
Qed.
End Facts.

End PstorageFacts.

(* ------------------------------------------------------------------ *)
(** ** UWAgent *)

Module UWFacts.

Import Py UWAgent.

Section Facts.

Variable W : Env.

Local Abbreviation opening_reply := (UWSpec.opening_reply W).
Local Abbreviation retried := (UWSpec.retried W).
Local Abbreviation first_reply := (UWSpec.first_reply W).
Local Abbreviation asked := (UWSpec.asked W).
Local Abbreviation followup_prompt := (UWSpec.followup_prompt W).
Local Abbreviation final_reply := (UWSpec.final_reply W).

Lemma uw_bounded_detect (reply : string) : bounded 0 0 (detect_tool_request W reply).
Proof. unfold detect_tool_request. bounded_run. Qed.

Lemma uw_bounded_retry (c : bool) (msgs : list Turn) (r : string) :
  bounded 0 0 (if c then _call_llm W msgs else ret r).
Proof. bounded_run. Qed.

#[local] Hint Resolve uw_bounded_detect uw_bounded_retry : bounded.

Lemma uw_bounded_run_agent_turn (user_text : string) :
  bounded 2 1 (run_agent_turn_async W user_text).
Proof.
  unfold run_agent_turn_async, _call_mcp_tool. bounded_run.
Qed.

(** The turn up to the detection of a tool request. *)
Lemma uw_run_prefix (user_text : string) (s : State)
  (Q : Outcome string -> State -> Prop) :
  post (request <- detect_tool_request W (first_reply s user_text) ;;
        match request with
        | None =>
            append_turn assistant (first_reply s user_text) ;;
            ret (first_reply s user_text)
        | Some (tool_name, tool_args) =>
            tool_output <- _call_mcp_tool W tool_name tool_args ;;
            history <- get_history ;;
            final_reply <- _call_llm W
                             (followup_messages W history (first_reply s user_text)
                                tool_name tool_output) ;;
            append_turn assistant final_reply ;;
            ret final_reply
        end) (asked s user_text) Q ->
  post (run_agent_turn_async W user_text) s Q.
Proof.
  unfold run_agent_turn_async, UWSpec.first_reply, UWSpec.asked, UWSpec.retried, UWSpec.opening_reply.
  intros H. repeat post_step. state_simpl.
  match goal with
  | |- post (if negb ?c then _ else _) _ _ => destruct (negb c) eqn:E
  end; post_step; state_simpl; rewrite ?length_snoc; exact H.
Qed.

(** With a tool request detected and a tool that answers, the turn is one
    tool call and one more engine call, whose reply is the answer. *)
Lemma uw_tool_turn (user_text : string) (s : State) (parsed n a : json)
  (out : string) :
  json_loads W (first_reply s user_text) = Some parsed ->
  getitem parsed "tool" = Return n ->
  getitem parsed "arguments" = Return a ->
  mcp W (List.length (tool_calls s)) n a = Return out ->
  run_agent_turn_async W user_text s =
  (Return (final_reply s user_text n out),
   with_turn
     (with_prompt (with_tool (asked s user_text) n a)
        (followup_prompt s user_text n out))
     (mkTurn assistant (final_reply s user_text n out))).
Proof.
  intros Hl Hn Ha Hout.
  enough (post (run_agent_turn_async W user_text) s
            (fun r s' =>
               (r, s') =
               (Return (final_reply s user_text n out),
                with_turn
                  (with_prompt (with_tool (asked s user_text) n a)
                     (followup_prompt s user_text n out))
                  (mkTurn assistant (final_reply s user_text n out))))) as H.
  { unfold post in H. now rewrite <- H, <- surjective_pairing. }
  apply uw_run_prefix. unfold detect_tool_request, _call_mcp_tool.
  rewrite Hl. repeat post_step. rewrite Hn. repeat post_step. rewrite Ha.
  repeat post_step.
  assert (Ht : tool_calls (asked s user_text) = tool_calls s)
    by (unfold UWSpec.asked; destruct (retried s user_text); reflexivity).
  assert (Hh : conversation_history (asked s user_text) =
               (conversation_history s ++ [mkTurn user user_text])%list)
    by (unfold UWSpec.asked; destruct (retried s user_text); reflexivity).
  rewrite Ht, Hout. repeat post_step. state_simpl. rewrite Hh. reflexivity.
Qed.

(** A reply that decodes but cannot be subscripted with ["tool"] ends the
    turn in the exception of the subscript, with the user turn recorded
    and no answer. *)
Lemma uw_subscript_error_escapes (user_text : string) (s : State) (parsed : json)
  (e : exn) :
  json_loads W (first_reply s user_text) = Some parsed ->
  getitem parsed "tool" = Raise e ->
  fst (run_agent_turn_async W user_text s) = Raise e /\
  conversation_history (snd (run_agent_turn_async W user_text s)) =
    (conversation_history s ++ [mkTurn user user_text])%list.
Proof.
  intros Hl He.
  change (post (run_agent_turn_async W user_text) s
            (fun r s' =>
               r = Raise e /\
               conversation_history s' =
                 (conversation_history s ++ [mkTurn user user_text])%list)).
  apply uw_run_prefix. unfold detect_tool_request. rewrite Hl.
  repeat post_step. rewrite He. split; [reflexivity |].
  unfold UWSpec.asked. destruct (retried s user_text); reflexivity.
Qed.

End Facts.

End UWFacts.

Unset Implicit Arguments.

(* ------------------------------------------------------------------ *)
(** ** Texts *)

Module TextFacts.

Import Py.

Lemma append_assoc (a b c : string) : (a ++ b) ++ c = a ++ b ++ c.
Proof. induction a as [| x a IH]; cbn; [reflexivity | now rewrite IH]. Qed.

Lemma append_nil_r (a : string) : a ++ "" = a.
Proof. induction a as [| x a IH]; cbn; [reflexivity | now rewrite IH]. Qed.

Lemma prefix_nil (s : string) : String.prefix "" s = true.
Proof. now destruct s. Qed.

Lemma prefix_append_both (a x y : string) :
  String.prefix (a ++ x) (a ++ y) = String.prefix x y.
Proof.
  induction a as [| c a IH]; cbn; [reflexivity |].
  destruct (Ascii.ascii_dec c c) as [_ | N]; [exact IH | now destruct N].
Qed.

Lemma startswith_append (p x : string) : startswith p (p ++ x) = true.
Proof.
  unfold startswith. rewrite <- (append_nil_r p) at 1.
  rewrite prefix_append_both. apply prefix_nil.
Qed.

Lemma endswith_refl (p : string) : endswith p p = true.
Proof. destruct p; cbn [endswith]; now rewrite String.eqb_refl. Qed.

Lemma endswith_append (p x y : string) :
  endswith p y = true -> endswith p (x ++ y) = true.
Proof.
  intros H. induction x as [| c x IH]; cbn [append]; [exact H |].
  cbn [endswith]. rewrite IH. apply orb_true_r.
Qed.

Lemma join_cons (sep a : string) (rest : list string) :
  rest <> [] -> join sep (a :: rest) = a ++ sep ++ join sep rest.
Proof. destruct rest; [congruence | reflexivity]. Qed.

End TextFacts.

(* ------------------------------------------------------------------ *)
(** ** Paths *)

Module PathFacts.

Import Py UWServer.

Lemma inside_app (root rest : list string) : inside root (root ++ rest)%list = true.
Proof.
  induction root as [| r root IH]; [reflexivity |].
  cbn. now rewrite String.eqb_refl.
Qed.




End PathFacts.


Module BesideFacts.

Import Py UWServer.
















End BesideFacts.

(* ------------------------------------------------------------------ *)
(** ** Requested calls and mirror calls *)

Lemma eq_str_true (v : json) (s : string) : eq_str v s = true -> v = JStr s.
Proof.
  destruct v; try discriminate. cbn. intros H. apply String.eqb_eq in H. now subst.
Qed.

Lemma get_method_return (v x : json) (k : string) :
  AgentPstorage.get_method v k = Return x ->
  exists d, v = JObj d /\ x = dict_get_default k d.
Proof.
  destruct v; try discriminate. cbn. intros [= <-]. now exists members.
Qed.

Ltac requested_here :=
  idtac;
  match goal with
  | Hp : _ = Some ?req, Hn : getitem ?req "tool" = Return ?n,
    Ha : getitem ?req "arguments" = Return ?a |- requested _ _ (?n, ?a) =>
      unfold requested; cbn [fst snd];
      do 2 eexists; exists req; split; [exact Hp | split; [exact Hn | exact Ha]]
  end.

Ltac mirrored_here :=
  idtac;
  match goal with
  | Hc : negb (eq_str ?n "create_work_item") = false,
    Hb : AgentPstorage.get_method ?a "borrower" = Return _,
    Ho : AgentPstorage.get_method ?a "officer" = Return _,
    Hn : AgentPstorage.get_method ?a "note" = Return _,
    Hout : mcp _ ?k ?n ?a = Return ?out |- mirrored _ _ =>
      apply negb_false_iff, eq_str_true in Hc;
      let d := fresh "d" in
      destruct (get_method_return _ _ _ Hb) as (d & -> & ->);
      cbn [AgentPstorage.get_method] in Ho, Hn;
      injection Ho as <-; injection Hn as <-; subst n;
      exists d, k, out; split; [requested_here | split; [exact Hout | reflexivity]]
  end.

(* ------------------------------------------------------------------ *)
(** ** What the passes of the loop leave behind *)





Section Passes.

Variable W : Env.










End Passes.

(* ================================================================== *)
(** * The claims *)

Unset Implicit Arguments.

Section Claims.

Import Py.

Lemma bounded_tools_since {A : Type} (t k : nat) (m : M A) (s : State) :
  bounded t k m -> tools_since s (snd (m s)) <= k.
Proof.
  intros Hm. destruct (Hm s) as (turns & calls & G & _ & Lk).
  now rewrite (@grows_tools_since _ _ _ _ G).
Qed.


Lemma pair_turns_length (pairs : list (string * string)) :
  List.length (pair_turns pairs) = 2 * List.length pairs.
Proof.
  induction pairs as [| [x y] pairs IH]; [reflexivity |].
  rewrite pair_turns_cons. cbn [List.length]. lia.
Qed.

(** Two readings of one history as pairs and a last turn have as many
    pairs. *)
Lemma pairs_unique (h : list Turn) (t x y : Turn) (p1 p2 : list (string * string)) :
  (h ++ t :: pair_turns p1 ++ [x])%list = (h ++ t :: pair_turns p2 ++ [y])%list ->
  List.length p1 = List.length p2.
Proof.
  intros E. apply (f_equal (@List.length Turn)) in E.
  rewrite !length_app in E. cbn [List.length] in E.
  rewrite !length_app, !pair_turns_length in E. cbn [List.length] in E. lia.
Qed.

(** C1 (as amended).  The turn controller has no confirmation gate of its
    own.  In Lvl3Agent and in Agent_Pstorage (outside the pipeline
    override, with the server file in place), whenever the first reply of
    a turn is classified as a tool request, the tool it names, mutating or
    not, is called with the arguments it gives, whatever the earlier turns
    of the conversation hold.  Asking the user first is left to the
    engine, which the system prompt tells to do so. *)
Theorem requested_tool_is_executed
  (W : Env) (s : State) (user_text : string) (req : json) :
  (Lvl3Agent._try_parse_tool_request W (Lvl3Spec.first_reply W s user_text) = Some req ->
   exists n a rest,
     getitem req "tool" = Return n /\ getitem req "arguments" = Return a /\
     tool_calls (snd (Lvl3Agent.run_agent_turn_async W user_text s)) =
     (tool_calls s ++ (n, a) :: rest)%list) /\
  (AgentPstorage.override_matches user_text = false ->
   server_exists W = true ->
   AgentPstorage._try_parse_tool_request W (PstorageSpec.first_reply W s user_text) =
   Some req ->
   exists n a rest,
     getitem req "tool" = Return n /\ getitem req "arguments" = Return a /\
     tool_calls (snd (AgentPstorage.run_agent_turn_async W user_text s)) =
     (tool_calls s ++ (n, a) :: rest)%list).
Proof.
  split.
  - apply Lvl3Facts.lvl3_first_request_executed.
  - intros Hov Hsrv Hreq.
    destruct (@PstorageFacts.ps_first_request W s user_text req Hov Hreq)
      as (n & a & Hn & Ha & H).
    unfold post in H. rewrite Hsrv in H. destruct H as ((rest & H) & _).
    now exists n, a, rest.
Qed.

Lemma requested_tool_is_executed_witness :
  exists n a rest,
    getitem Scenarios.assign_request "tool" = Return n /\
    getitem Scenarios.assign_request "arguments" = Return a /\
    tool_calls (snd (Lvl3Agent.run_agent_turn_async Scenarios.eager
                       Scenarios.assign_text Demo.fresh)) =
    (tool_calls Demo.fresh ++ (n, a) :: rest)%list.
Proof.
  apply (proj1 (requested_tool_is_executed Scenarios.eager Demo.fresh
                  Scenarios.assign_text Scenarios.assign_request)).
  vm_compute. reflexivity.
Defined.

(** C1 fails as stated: on an empty conversation, a first reply naming
    [create_work_item] makes both controllers call the tool (and
    Agent_Pstorage mirror it through [record_task]); the answer is the
    engine's report, not a confirmation question. *)
Lemma confirmation_gate_absent :
  conversation_history Demo.fresh = [] /\
  fst (Lvl3Agent.run_agent_turn_async Scenarios.eager Scenarios.assign_text
         Demo.fresh) = Return "The task is created." /\
  tool_calls (snd (Lvl3Agent.run_agent_turn_async Scenarios.eager
                     Scenarios.assign_text Demo.fresh)) =
  [(JStr "create_work_item", Scenarios.assign_args)] /\
  fst (AgentPstorage.run_agent_turn_async Scenarios.eager Scenarios.assign_text
         Demo.fresh) = Return "The task is created." /\
  tool_calls (snd (AgentPstorage.run_agent_turn_async Scenarios.eager
                     Scenarios.assign_text Demo.fresh)) =
  [(JStr "create_work_item", Scenarios.assign_args);
   (JStr "record_task",
    JObj [("borrower", JStr "ACME Industrial LLC"); ("officer", JStr "Lopez");
          ("note", JStr "chase the rent roll"); ("status", JStr "open");
          ("task_id", JStr "T-1")])].
Proof. vm_compute. repeat split. Qed.

(** C2 (as amended).  The ceiling of 5 bounds the passes of the loop, not
    the tool executions: a pass executes up to two requested tools, and in
    Agent_Pstorage one [record_task] mirror more, so a turn executes at
    most 10 tools in Lvl3Agent and at most 15 in Agent_Pstorage.  Whenever
    a turn returns after all 5 passes fell through without a final answer
    (the store then holds the user turn, the request and result of the 5
    passes, and one more turn), the returned string is the fixed
    exhaustion message. *)
Theorem tool_budget_per_turn (W : Env) (s : State) (user_text : string) :
  tools_since s (snd (Lvl3Agent.run_agent_turn_async W user_text s)) <=
    2 * Lvl3Agent.max_steps /\
  tools_since s (snd (AgentPstorage.run_agent_turn_async W user_text s)) <=
    3 * AgentPstorage.max_steps /\
  (forall pairs last,
      raises (fst (Lvl3Agent.run_agent_turn_async W user_text s)) = false ->
      conversation_history (snd (Lvl3Agent.run_agent_turn_async W user_text s)) =
        (conversation_history s ++
         mkTurn user user_text :: pair_turns pairs ++ [last])%list ->
      List.length pairs = Lvl3Agent.max_steps ->
      fst (Lvl3Agent.run_agent_turn_async W user_text s) =
      Return Lvl3Agent.safety_msg) /\
  (AgentPstorage.override_matches user_text = false ->
   forall pairs last,
      raises (fst (AgentPstorage.run_agent_turn_async W user_text s)) = false ->
      conversation_history (snd (AgentPstorage.run_agent_turn_async W user_text s)) =
        (conversation_history s ++
         mkTurn user user_text :: pair_turns pairs ++ [last])%list ->
      List.length pairs = AgentPstorage.max_steps ->
      fst (AgentPstorage.run_agent_turn_async W user_text s) =
      Return AgentPstorage.safety_msg).
Proof.
  split; [| split; [| split]].
  - apply (@bounded_tools_since _ _ _ _ s (Lvl3Facts.lvl3_bounded_run_agent_turn W user_text)).
  - apply (@bounded_tools_since _ _ _ _ s (PstorageFacts.ps_bounded_run_agent_turn W user_text)).
  - intros pairs last Hr Hh Hl.
    pose proof (@Lvl3Facts.lvl3_run_shape W user_text s) as H. unfold post in H.
    destruct (fst (Lvl3Agent.run_agent_turn_async W user_text s)) as [a | e];
      [| discriminate].
    destruct H as (pairs' & _ & Hh' & Hs). f_equal. apply Hs.
    rewrite Hh in Hh'. apply pairs_unique in Hh'. congruence.
  - intros Hov pairs last Hr Hh Hl.
    pose proof (@PstorageFacts.ps_run_shape W user_text s Hov) as H. unfold post in H.
    destruct (fst (AgentPstorage.run_agent_turn_async W user_text s)) as [a | e];
      [| discriminate].
    destruct H as (pairs' & _ & Hh' & Hs). f_equal. apply Hs.
    rewrite Hh in Hh'. apply pairs_unique in Hh'. congruence.
Qed.

Lemma tool_budget_per_turn_witness :
  fst (Lvl3Agent.run_agent_turn_async Scenarios.restless "status?" Demo.fresh) =
  Return Lvl3Agent.safety_msg.
Proof.
  apply (proj1 (proj2 (proj2 (tool_budget_per_turn Scenarios.restless Demo.fresh
                                "status?")))
           (repeat Scenarios.summary_pair 5)
           (mkTurn assistant Lvl3Agent.safety_msg)).
  - vm_compute. reflexivity.
  - vm_compute. reflexivity.
  - reflexivity.
Defined.

(** C2 fails as stated: with an engine that keeps asking for tools, one
    turn of Lvl3Agent executes 10 tools and one turn of Agent_Pstorage
    executes 15, both more than 5. *)
Lemma more_than_five_tool_executions :
  tools_since Demo.fresh
    (snd (Lvl3Agent.run_agent_turn_async Scenarios.restless "status?" Demo.fresh)) = 10 /\
  tools_since Demo.fresh
    (snd (AgentPstorage.run_agent_turn_async Scenarios.hasty Scenarios.assign_text
            Demo.fresh)) = 15 /\
  ~ tools_since Demo.fresh
      (snd (Lvl3Agent.run_agent_turn_async Scenarios.restless "status?" Demo.fresh)) <= 5.
Proof.
  assert (E : tools_since Demo.fresh
                (snd (Lvl3Agent.run_agent_turn_async Scenarios.restless "status?"
                        Demo.fresh)) = 10) by (vm_compute; reflexivity).
  split; [exact E |]. split; [vm_compute; reflexivity |]. rewrite E. lia.
Qed.

(** C3 at the failing input.  The engine answers with the JSON object
    [{"answer": 42}].  The classifier of Lvl3Agent and Agent_Pstorage takes
    it for a final answer; the inline classifier of UWAgent decodes it,
    subscripts it with ["tool"] and lets the [KeyError] escape, so the turn
    of UWAgent ends in an exception and no answer is recorded. *)
Theorem uw_classifier_raises_key_error :
  json_loads Scenarios.off_shape (UWSpec.first_reply Scenarios.off_shape Demo.fresh "hello") =
    Some (JObj [("answer", JInt 42)]) /\
  Lvl3Agent._try_parse_tool_request Scenarios.off_shape
    (UWSpec.first_reply Scenarios.off_shape Demo.fresh "hello") = None /\
  AgentPstorage._try_parse_tool_request Scenarios.off_shape
    (UWSpec.first_reply Scenarios.off_shape Demo.fresh "hello") = None /\
  fst (UWAgent.run_agent_turn_async Scenarios.off_shape "hello" Demo.fresh) =
    Raise (KeyError "tool") /\
  conversation_history
    (snd (UWAgent.run_agent_turn_async Scenarios.off_shape "hello" Demo.fresh)) =
    [mkTurn user "hello"].
Proof. vm_compute. repeat split. Qed.




(** C5 (as amended).  For a user text that contains [pipeline] or [queue]
    in any letter case, with the server file in place, the turn makes
    exactly one tool call, [get_tasks] with status [open], and records the
    user turn only.  When the tool call raises, so does the turn, with no
    engine call.  Otherwise the engine is asked once for a summary; a
    non-empty trimmed reply, structured JSON included, is returned as it
    is; only an empty reply is followed by one more, shorter, summary
    request, and when that reply is empty too the fixed text
    [No tasks found.] is returned, never the raw tool result. *)
Theorem override_single_call_and_summary (W : Env) (s : State) (user_text : string) :
  AgentPstorage.override_matches user_text = true ->
  server_exists W = true ->
  let r := AgentPstorage.run_agent_turn_async W user_text s in
  conversation_history (snd r) =
    (conversation_history s ++ [mkTurn user user_text])%list /\
  tool_calls (snd r) =
    (tool_calls s ++
     [(AgentPstorage.override_tool_name, AgentPstorage.override_tool_args)])%list /\
  match mcp W (List.length (tool_calls s))
          AgentPstorage.override_tool_name AgentPstorage.override_tool_args with
  | Raise e => fst r = Raise e /\ prompts_since s (snd r) = 0
  | Return out =>
      if nonempty (PstorageSpec.first_summary W s user_text out)
      then fst r = Return (PstorageSpec.first_summary W s user_text out) /\
           prompts_since s (snd r) = 1
      else fst r = Return (if nonempty (PstorageSpec.second_summary W s user_text out)
                           then PstorageSpec.second_summary W s user_text out
                           else "No tasks found.") /\
           prompts_since s (snd r) = 2
  end.
Proof. apply PstorageFacts.ps_override_path. Qed.

(** The match ignores the letter case. *)
Example override_matches_any_case :
  AgentPstorage.override_matches "What's in the PIPELINE?" = true /\
  AgentPstorage.override_matches "Show my Queue" = true /\
  AgentPstorage.override_matches "summarize memo.txt" = false.
Proof. vm_compute. repeat split. Qed.

Lemma override_single_call_and_summary_witness :
  let r := AgentPstorage.run_agent_turn_async Scenarios.silent
             "what's in the pipeline" Demo.fresh in
  conversation_history (snd r) = [mkTurn user "what's in the pipeline"] /\
  tool_calls (snd r) = [(JStr "get_tasks", JObj [("status", JStr "open")])] /\
  fst r = Return "No tasks found." /\
  prompts_since Demo.fresh (snd r) = 2.
Proof.
  exact (override_single_call_and_summary Scenarios.silent Demo.fresh
           "what's in the pipeline" eq_refl eq_refl).
Defined.

(** C5 fails as stated: when both summaries come back empty the turn
    returns [No tasks found.], not the raw tool result, after two engine
    calls; and a reply that is structured JSON is returned at once, after
    one engine call, with no retry. *)
Lemma override_fallback_is_fixed_text :
  mcp Scenarios.silent 0 AgentPstorage.override_tool_name
      AgentPstorage.override_tool_args = Return Scenarios.open_tasks_text /\
  fst (AgentPstorage.run_agent_turn_async Scenarios.silent "what's in the pipeline"
         Demo.fresh) = Return "No tasks found." /\
  "No tasks found." <> Scenarios.open_tasks_text /\
  prompts_since Demo.fresh
    (snd (AgentPstorage.run_agent_turn_async Scenarios.silent "what's in the pipeline"
            Demo.fresh)) = 2 /\
  fst (AgentPstorage.run_agent_turn_async Scenarios.structured "what's in the pipeline"
         Demo.fresh) =
    Return ("{" ++ Demo.quoted "summary" ++ ": " ++ Demo.quoted "one task" ++ "}") /\
  prompts_since Demo.fresh
    (snd (AgentPstorage.run_agent_turn_async Scenarios.structured
            "what's in the pipeline" Demo.fresh)) = 1.
Proof.
  repeat split; try (vm_compute; reflexivity). vm_compute. discriminate.
Qed.







(** The check of UWAgent compares texts, not paths: a sibling directory
    whose name continues the name of the allowed root passes it. *)
Example uw_read_file_sibling_directory :
  UWServer.inside (UWServer.ALLOWED_ROOT DemoHost.host)
    (UWServer.resolve_from (UWServer.ALLOWED_ROOT DemoHost.host)
       "../shared_private/key.txt") = false /\
  beside (UWServer.ALLOWED_ROOT DemoHost.host)
    (UWServer.resolve_from (UWServer.ALLOWED_ROOT DemoHost.host)
       "../shared_private/key.txt") = true /\
  UWServer.read_file DemoHost.host "../shared_private/key.txt" = Return "s3cr3t".
Proof. vm_compute. repeat split. Qed.

(** C8 (as amended).  With a loan amount equal to zero, the [debt_yield]
    of Agent_Pstorage and of Lvl3Agent catches the division error and
    returns a text that starts with [[debt_yield error]]; the [debt_yield]
    of UWAgent guards the division and raises [ValueError] with the
    message [loan_amount cannot be 0.] instead of returning a text. *)
Theorem debt_yield_zero_loan (H : Host) (noi loan_amount : float) :
  PrimFloat.eqb loan_amount 0%float = true ->
  PstorageServer.debt_yield H noi loan_amount =
    "[debt_yield error] ZeroDivisionError: float division by zero" /\
  Lvl3Server.debt_yield H noi loan_amount =
    "[debt_yield error] float division by zero" /\
  UWServer.debt_yield noi loan_amount = Raise (ValueError "loan_amount cannot be 0.").
Proof.
  intros Hz.
  unfold PstorageServer.debt_yield, Lvl3Server.debt_yield, UWServer.debt_yield, py_div.
  rewrite Hz. repeat split.
Qed.

Lemma debt_yield_zero_loan_witness :
  PstorageServer.debt_yield DemoHost.host 100000%float 0%float =
    "[debt_yield error] ZeroDivisionError: float division by zero" /\
  Lvl3Server.debt_yield DemoHost.host 100000%float 0%float =
    "[debt_yield error] float division by zero" /\
  UWServer.debt_yield 100000%float 0%float =
    Raise (ValueError "loan_amount cannot be 0.").
Proof.
  apply (debt_yield_zero_loan DemoHost.host 100000%float 0%float).
  vm_compute. reflexivity.
Defined.

(** C8 fails as stated: with [noi = 100000] and [loan_amount = 0] the
    [debt_yield] of UWAgent raises and returns no text. *)
Lemma uw_debt_yield_raises :
  UWServer.debt_yield 100000%float 0%float =
    Raise (ValueError "loan_amount cannot be 0.") /\
  forall x, UWServer.debt_yield 100000%float 0%float <> Return x.
Proof. split; [reflexivity | intros x; vm_compute; discriminate]. Qed.

(** C9.  In UWAgent a turn makes at most one tool call.  When the reply
    that is looked at decodes to a value with a [tool] and an [arguments]
    entry and the tool answers, the turn is that one tool call followed by
    one engine call on the follow-up prompt; the reply to it is returned as
    it is and appended to the history as the assistant turn, without
    being decoded or classified. *)
Theorem uw_single_tool_per_turn (W : Env) (s : State) (user_text : string) :
  tools_since s (snd (UWAgent.run_agent_turn_async W user_text s)) <= 1 /\
  forall parsed n a out,
    json_loads W (UWSpec.first_reply W s user_text) = Some parsed ->
    getitem parsed "tool" = Return n ->
    getitem parsed "arguments" = Return a ->
    mcp W (List.length (tool_calls s)) n a = Return out ->
    let r := UWAgent.run_agent_turn_async W user_text s in
    fst r = Return (UWSpec.final_reply W s user_text n out) /\
    tool_calls (snd r) = (tool_calls s ++ [(n, a)])%list /\
    conversation_history (snd r) =
      (conversation_history s ++
       [mkTurn user user_text;
        mkTurn assistant (UWSpec.final_reply W s user_text n out)])%list.
Proof.
  split.
  - apply (@bounded_tools_since _ _ _ _ s (UWFacts.uw_bounded_run_agent_turn W user_text)).
  - intros parsed n a out Hl Hn Ha Hout r. subst r.
    rewrite (@UWFacts.uw_tool_turn W user_text s parsed n a out Hl Hn Ha Hout).
    cbn [fst snd]. state_simpl.
    assert (Ht : tool_calls (UWSpec.asked W s user_text) = tool_calls s)
      by (unfold UWSpec.asked; destruct (UWSpec.retried W s user_text); reflexivity).
    assert (Hh : conversation_history (UWSpec.asked W s user_text) =
                 (conversation_history s ++ [mkTurn user user_text])%list)
      by (unfold UWSpec.asked; destruct (UWSpec.retried W s user_text); reflexivity).
    rewrite Ht, Hh, <- app_assoc. repeat split.
Qed.

Lemma uw_single_tool_per_turn_witness :
  let r := UWAgent.run_agent_turn_async Scenarios.chaining "summarize memo.txt"
             Demo.fresh in
  fst r = Return (Demo.request_text "get_pipeline_summary" "{}") /\
  tool_calls (snd r) = [(JStr "read_file", JObj [("path", JStr "memo.txt")])] /\
  conversation_history (snd r) =
    [mkTurn user "summarize memo.txt";
     mkTurn assistant (Demo.request_text "get_pipeline_summary" "{}")].
Proof.
  exact (proj2 (uw_single_tool_per_turn Scenarios.chaining Demo.fresh
                  "summarize memo.txt")
           Scenarios.read_request (JStr "read_file") (JObj [("path", JStr "memo.txt")])
           "DSCR is tight." eq_refl eq_refl eq_refl eq_refl).
Defined.

(** C10 (as amended).  After a [create_work_item] call, with the server
    file in place, [_maybe_persist_task] calls [record_task] once with the
    borrower, officer, note and status [open].  When the tool output
    decodes to a JSON object whose [task_id] is true in the Python sense
    (not null, false, zero or empty), the arguments carry that value under
    a fifth key [task_id], which is not among the parameters [record_task]
    declares.  When the [task_id] is false in that sense, when the object
    has no [task_id], and when the output is no JSON object, the four
    fields are all that is sent.  The helper returns nothing and ends in
    the same state whether [record_task] answered or raised; it never
    raises itself and touches neither the history nor the prompts. *)
Theorem task_mirror (W : Env) (d : dict) (out : string) (s : State) :
  server_exists W = true ->
  let fields :=
    [("borrower", dict_get_default "borrower" d);
     ("officer", dict_get_default "officer" d);
     ("note", dict_get_default "note" d);
     ("status", JStr "open")] in
  let run := AgentPstorage._maybe_persist_task W (JStr "create_work_item") (JObj d) out s in
  (forall dout v,
      json_loads W out = Some (JObj dout) ->
      dict_get "task_id" dout = Some v ->
      truthy v = true ->
      run = (Return tt,
             with_tool s (JStr "record_task") (JObj (fields ++ [("task_id", v)])%list))) /\
  (forall dout v,
      json_loads W out = Some (JObj dout) ->
      dict_get "task_id" dout = Some v ->
      truthy v = false ->
      run = (Return tt, with_tool s (JStr "record_task") (JObj fields))) /\
  (forall dout,
      json_loads W out = Some (JObj dout) ->
      dict_get "task_id" dout = None ->
      run = (Return tt, with_tool s (JStr "record_task") (JObj fields))) /\
  ((forall dout, json_loads W out <> Some (JObj dout)) ->
   run = (Return tt, with_tool s (JStr "record_task") (JObj fields))) /\
  ~ In "task_id" PstorageServer.record_task_params /\
  (forall n a,
      is_dict a = true ->
      fst (AgentPstorage._maybe_persist_task W n a out s) = Return tt /\
      conversation_history (snd (AgentPstorage._maybe_persist_task W n a out s)) =
        conversation_history s /\
      prompts (snd (AgentPstorage._maybe_persist_task W n a out s)) = prompts s).
Proof.
  intros Hsrv fields run. subst fields run.
  rewrite (@PstorageFacts.ps_persist_run W d out s Hsrv).
  unfold AgentPstorage.persist_args, AgentPstorage.task_id_of, dict_get_default.
  split; [| split; [| split; [| split; [| split]]]].
  - intros dout v Hl Hv Ht. rewrite Hl, Hv, Ht. reflexivity.
  - intros dout v Hl Hv Ht. rewrite Hl, Hv, Ht. reflexivity.
  - intros dout Hl Hv. rewrite Hl, Hv. reflexivity.
  - intros Hno. destruct (json_loads W out) as [[| | | | | | dout] |]; try reflexivity.
    now destruct (Hno dout).
  - cbn. intros [H | [H | [H | [H | []]]]]; discriminate.
  - intros n a Hd. now apply PstorageFacts.ps_persist_quiet.
Qed.

Lemma task_mirror_witness :
  AgentPstorage._maybe_persist_task Scenarios.eager (JStr "create_work_item")
    Scenarios.assign_args Scenarios.created_text Demo.fresh =
  (Return tt,
   with_tool Demo.fresh (JStr "record_task")
     (JObj [("borrower", JStr "ACME Industrial LLC"); ("officer", JStr "Lopez");
            ("note", JStr "chase the rent roll"); ("status", JStr "open");
            ("task_id", JStr "T-1")])).
Proof.
  exact (proj1 (task_mirror Scenarios.eager
                  [("borrower", JStr "ACME Industrial LLC"); ("officer", JStr "Lopez");
                   ("note", JStr "chase the rent roll")]
                  Scenarios.created_text Demo.fresh eq_refl)
           [("task_id", JStr "T-1"); ("status", JStr "created")] (JStr "T-1")
           eq_refl eq_refl eq_refl).
Defined.

(** C10 fails as stated: the output [{"task_id": null}] decodes to a JSON
    object that contains a [task_id] field, yet the arguments sent to
    [record_task] carry no [task_id] key. *)
Lemma null_task_id_not_forwarded :
  json_loads Scenarios.eager Scenarios.null_task_text = Some (JObj [("task_id", JNull)]) /\
  dict_has "task_id" [("task_id", JNull)] = true /\
  tool_calls
    (snd (AgentPstorage._maybe_persist_task Scenarios.eager (JStr "create_work_item")
            Scenarios.assign_args Scenarios.null_task_text Demo.fresh)) =
  [(JStr "record_task",
    JObj [("borrower", JStr "ACME Industrial LLC"); ("officer", JStr "Lopez");
          ("note", JStr "chase the rent roll"); ("status", JStr "open")])].
Proof. vm_compute. repeat split. Qed.

End Claims.

(* ================================================================== *)
(** * Further properties of the controllers and the tools *)

(* ------------------------------------------------------------------ *)
(** ** Calls to the engine *)

Section Asks.

Context {A B : Type}.

Lemma asks_weaken (k k' : nat) (m : M A) : asks k m -> k <= k' -> asks k' m.
Proof.
  intros Hm Hk s. destruct (Hm s) as (ps & E & L). exists ps. split; [exact E | lia].
Qed.

Lemma asks_ret (k : nat) (a : A) : asks k (ret a).
Proof. intros s. exists []. cbn. rewrite app_nil_r. split; [reflexivity | lia]. Qed.

Lemma asks_throw (k : nat) (e : exn) : asks k (@throw A e).
Proof. intros s. exists []. cbn. rewrite app_nil_r. split; [reflexivity | lia]. Qed.

Lemma asks_lift (o : Outcome A) : asks 0 (lift o).
Proof. intros s. exists []. cbn. rewrite app_nil_r. split; [reflexivity | lia]. Qed.

Lemma asks_bind (k1 k : nat) (m : M A) (f : A -> M B) :
  asks k1 m -> k1 <= k -> (forall a, asks (k - k1) (f a)) -> asks k (bind m f).
Proof.
  intros Hm Hk Hf s. unfold bind. destruct (Hm s) as (ps & E & L).
  destruct (m s) as [[a | e] s1]; cbn in *.
  - destruct (Hf a s1) as (ps' & E' & L'). exists (ps ++ ps')%list.
    rewrite E', E, app_assoc, length_app. split; [reflexivity | lia].
  - exists ps. split; [exact E | lia].
Qed.

Lemma asks_try_except (k1 k : nat) (m : M A) (h : exn -> M A) :
  asks k1 m -> k1 <= k -> (forall e, asks (k - k1) (h e)) ->
  asks k (try_except m h).
Proof.
  intros Hm Hk Hh s. unfold try_except. destruct (Hm s) as (ps & E & L).
  destruct (m s) as [[a | e] s1]; cbn in *.
  - exists ps. split; [exact E | lia].
  - destruct (Hh e s1) as (ps' & E' & L'). exists (ps ++ ps')%list.
    rewrite E', E, app_assoc, length_app. split; [reflexivity | lia].
Qed.

Lemma asks_if (k : nat) (c : bool) (m1 m2 : M A) :
  asks k m1 -> asks k m2 -> asks k (if c then m1 else m2).
Proof. now destruct c. Qed.

End Asks.

Lemma asks_append_turn (r : Role) (c : string) : asks 0 (append_turn r c).
Proof. intros s. exists []. cbn. rewrite app_nil_r. split; [reflexivity | lia]. Qed.

Lemma asks_get_history : asks 0 get_history.
Proof. intros s. exists []. cbn. rewrite app_nil_r. split; [reflexivity | lia]. Qed.

Lemma asks_call_llm (W : Env) (msgs : list Turn) : asks 1 (_call_llm W msgs).
Proof. intros s. exists [_build_prompt msgs]. cbn. split; [reflexivity | lia]. Qed.

Lemma asks_client_call_tool (W : Env) (n a : json) : asks 0 (client_call_tool W n a).
Proof. intros s. exists []. cbn. rewrite app_nil_r. split; [reflexivity | lia]. Qed.

Create HintDb asks.
#[export] Hint Resolve asks_lift asks_append_turn asks_get_history asks_call_llm
  asks_client_call_tool : asks.

(** One step through a computation, for a goal [asks k m] with a numeral
    [k]. *)
Ltac asks_step :=
  lazymatch goal with
  | |- asks _ (ret _) => apply asks_ret
  | |- asks _ (throw _) => apply asks_throw
  | |- asks _ (bind _ _) =>
      eapply asks_bind;
      [ solve [eauto with asks] | cbn; lia | intros ?; cbn [Nat.sub] ]
  | |- asks _ (try_except _ _) =>
      eapply asks_try_except;
      [ solve [eauto with asks] | cbn; lia | intros ?; cbn [Nat.sub] ]
  | |- asks _ (if _ then _ else _) => apply asks_if
  | |- asks _ (match ?x with _ => _ end) => destruct x
  | |- asks _ _ => solve [eapply asks_weaken; [eauto with asks | cbn; lia]]
  end.

Ltac asks_run := repeat asks_step.

Lemma asks_prompts_since {A : Type} (k : nat) (m : M A) (s : State) :
  asks k m -> prompts_since s (snd (m s)) <= k.
Proof.
  intros Hm. destruct (Hm s) as (ps & E & L). unfold prompts_since.
  rewrite E, length_app. lia.
Qed.

Section AsksOfTheControllers.

Variable W : Env.

Lemma lvl3_asks_next : asks 1 (Lvl3Agent._ask_model_for_next_action W).
Proof. unfold Lvl3Agent._ask_model_for_next_action. asks_run. Qed.

Lemma lvl3_asks_after (n a : json) (out : string) :
  asks 1 (Lvl3Agent._ask_model_after_tool W n a out).
Proof. unfold Lvl3Agent._ask_model_after_tool. asks_run. Qed.

Lemma lvl3_asks_call_mcp_tool (n a : json) : asks 0 (Lvl3Agent._call_mcp_tool W n a).
Proof. unfold Lvl3Agent._call_mcp_tool. auto with asks. Qed.

#[local] Hint Resolve lvl3_asks_next lvl3_asks_after lvl3_asks_call_mcp_tool : asks.

Lemma lvl3_asks_loop_body : asks 2 (Lvl3Agent.loop_body W).
Proof. unfold Lvl3Agent.loop_body. asks_run. Qed.

Lemma lvl3_asks_while_steps (n : nat) : asks (2 * n) (Lvl3Agent.while_steps W n).
Proof.
  induction n as [| n IH]; cbn [Lvl3Agent.while_steps].
  - asks_run.
  - eapply asks_bind; [apply lvl3_asks_loop_body | lia |].
    intros [a |]; [apply asks_ret |]. eapply asks_weaken; [exact IH | lia].
Qed.

Lemma lvl3_asks_turn (user_text : string) :
  asks 10 (Lvl3Agent.run_agent_turn_async W user_text).
Proof.
  unfold Lvl3Agent.run_agent_turn_async.
  eapply asks_bind; [apply asks_append_turn | lia |].
  intros _. apply (lvl3_asks_while_steps Lvl3Agent.max_steps).
Qed.

Lemma ps_asks_next : asks 1 (AgentPstorage._ask_model_for_next_action W).
Proof. unfold AgentPstorage._ask_model_for_next_action. asks_run. Qed.

Lemma ps_asks_after (n a : json) (out : string) :
  asks 1 (AgentPstorage._ask_model_after_tool W n a out).
Proof. unfold AgentPstorage._ask_model_after_tool. asks_run. Qed.

Lemma ps_asks_call_mcp_tool (n a : json) : asks 0 (AgentPstorage._call_mcp_tool W n a).
Proof. unfold AgentPstorage._call_mcp_tool. asks_run. Qed.

#[local] Hint Resolve ps_asks_next ps_asks_after ps_asks_call_mcp_tool : asks.

Lemma ps_asks_record_call (n a : json) :
  asks 0 (AgentPstorage._call_mcp_tool W n a ;; ret tt).
Proof. asks_run. Qed.

#[local] Hint Resolve ps_asks_record_call : asks.

Lemma ps_asks_persist (n a : json) (out : string) :
  asks 0 (AgentPstorage._maybe_persist_task W n a out).
Proof. unfold AgentPstorage._maybe_persist_task. asks_run. Qed.

Lemma ps_asks_retry_next (r : string) (c : bool) :
  asks 1 (if c then AgentPstorage._ask_model_for_next_action W else ret r).
Proof. asks_run. Qed.

Lemma ps_asks_retry_after (c : bool) (n a : json) (out r : string) :
  asks 1 (if c
          then (reply <- AgentPstorage._ask_model_after_tool W n a out ;;
                ret (Py.strip reply))
          else ret r).
Proof. asks_run. Qed.

Lemma ps_asks_retry_json (c : bool) (n a : json) (out r : string) :
  asks 1 (if c then AgentPstorage._ask_model_after_tool W n a out else ret r).
Proof. asks_run. Qed.

#[local] Hint Resolve ps_asks_persist ps_asks_retry_next ps_asks_retry_after
  ps_asks_retry_json : asks.

Lemma ps_asks_loop_body : asks 5 (AgentPstorage.loop_body W).
Proof. unfold AgentPstorage.loop_body. asks_run. Qed.

Lemma ps_asks_pipeline_override : asks 2 (AgentPstorage.pipeline_override W).
Proof. unfold AgentPstorage.pipeline_override. asks_run. Qed.

Lemma ps_asks_while_steps (n : nat) : asks (5 * n) (AgentPstorage.while_steps W n).
Proof.
  induction n as [| n IH]; cbn [AgentPstorage.while_steps].
  - asks_run.
  - eapply asks_bind; [apply ps_asks_loop_body | lia |].
    intros [a |]; [apply asks_ret |]. eapply asks_weaken; [exact IH | lia].
Qed.

Lemma ps_asks_turn (user_text : string) :
  asks (if AgentPstorage.override_matches user_text then 2 else 25)
       (AgentPstorage.run_agent_turn_async W user_text).
Proof.
  unfold AgentPstorage.run_agent_turn_async.
  eapply asks_bind; [apply asks_append_turn | lia |].
  intros _. rewrite Nat.sub_0_r. destruct (AgentPstorage.override_matches user_text).
  - apply ps_asks_pipeline_override.
  - apply (ps_asks_while_steps AgentPstorage.max_steps).
Qed.

Lemma uw_asks_detect (reply : string) : asks 0 (UWAgent.detect_tool_request W reply).
Proof. unfold UWAgent.detect_tool_request. asks_run. Qed.

Lemma uw_asks_retry (c : bool) (msgs : list Turn) (r : string) :
  asks 1 (if c then _call_llm W msgs else ret r).
Proof. asks_run. Qed.

#[local] Hint Resolve uw_asks_detect uw_asks_retry : asks.

Lemma uw_asks_turn (user_text : string) :
  asks 3 (UWAgent.run_agent_turn_async W user_text).
Proof. unfold UWAgent.run_agent_turn_async, UWAgent._call_mcp_tool. asks_run. Qed.

End AsksOfTheControllers.

(** X1.  A turn sends a bounded number of prompts to the reasoning engine,
    whatever the engine and the tools answer: at most 10 in Lvl3Agent, at
    most 25 in Agent_Pstorage (at most 2 when the pipeline override takes
    the turn), at most 3 in UWAgent. *)
Theorem engine_calls_per_turn (W : Env) (user_text : string) (s : State) :
  prompts_since s (snd (Lvl3Agent.run_agent_turn_async W user_text s)) <= 10 /\
  prompts_since s (snd (AgentPstorage.run_agent_turn_async W user_text s)) <=
    (if AgentPstorage.override_matches user_text then 2 else 25) /\
  prompts_since s (snd (UWAgent.run_agent_turn_async W user_text s)) <= 3.
Proof.
  split; [| split].
  - apply asks_prompts_since, lvl3_asks_turn.
  - apply asks_prompts_since, ps_asks_turn.
  - apply asks_prompts_since, uw_asks_turn.
Qed.

(* ------------------------------------------------------------------ *)
(** ** Where the tool calls of a turn come from *)

Section CallsOnly.

Variable P : json * json -> Prop.

Lemma calls_only_refl (s : State) : calls_only P s s.
Proof. exists []. rewrite app_nil_r. split; [reflexivity | constructor]. Qed.

Lemma calls_only_trans (s1 s2 s3 : State) :
  calls_only P s1 s2 -> calls_only P s2 s3 -> calls_only P s1 s3.
Proof.
  intros (c1 & E1 & F1) (c2 & E2 & F2). exists (c1 ++ c2)%list.
  rewrite E2, E1, app_assoc. split; [reflexivity | now apply Forall_app].
Qed.

Lemma calls_only_turn (s s1 : State) (t : Turn) :
  calls_only P s s1 -> calls_only P s (with_turn s1 t).
Proof. exact (fun H => H). Qed.

Lemma calls_only_prompt (s s1 : State) (p : string) :
  calls_only P s s1 -> calls_only P s (with_prompt s1 p).
Proof. exact (fun H => H). Qed.

Lemma calls_only_tool (s s1 : State) (n a : json) :
  calls_only P s s1 -> P (n, a) -> calls_only P s (with_tool s1 n a).
Proof.
  intros H Hp. eapply calls_only_trans; [exact H |].
  exists [(n, a)]. split; [reflexivity | now constructor].
Qed.

Lemma calls_only_grows (s s' : State) (turns : list Turn) :
  grows s s' turns [] -> calls_only P s s'.
Proof.
  intros (_ & C & _). exists []. split; [exact C | constructor].
Qed.

End CallsOnly.

Lemma calls_only_weaken (P Q : json * json -> Prop) (s s' : State) :
  (forall c, P c -> Q c) -> calls_only P s s' -> calls_only Q s s'.
Proof.
  intros H (calls & E & F). exists calls. split; [exact E |].
  eapply Forall_impl; eassumption.
Qed.


(** The state after a chain of updates, when each tool call of the chain
    is justified by the hypotheses at hand. *)
Ltac calls_chain justify :=
  repeat first
    [ apply calls_only_refl
    | apply calls_only_turn
    | apply calls_only_prompt
    | apply calls_only_tool; [| solve [justify] ] ].


Section Provenance.

Variable W : Env.

Lemma lvl3_loop_body_calls (s : State) :
  post (Lvl3Agent.loop_body W) s
    (fun _ s' =>
       calls_only (requested W (Lvl3Agent._try_parse_tool_request W)) s s').
Proof.
  unfold Lvl3Agent.loop_body, Lvl3Agent._ask_model_for_next_action,
    Lvl3Agent._ask_model_after_tool, Lvl3Agent._call_mcp_tool.
  post_run.
  all: calls_chain requested_here.
Qed.

Lemma lvl3_while_steps_calls (n : nat) (s : State) :
  post (Lvl3Agent.while_steps W n) s
    (fun _ s' =>
       calls_only (requested W (Lvl3Agent._try_parse_tool_request W)) s s').
Proof.
  revert s. induction n as [| n IH]; intros s.
  - cbn [Lvl3Agent.while_steps]. post_run. calls_chain idtac.
  - rewrite Lvl3Facts.lvl3_while_steps_succ. apply post_bind.
    eapply post_conseq; [apply lvl3_loop_body_calls |].
    intros [[a |] | e] s1 H1; cbv beta iota; [exact H1 | | exact H1].
    eapply post_conseq; [apply IH |].
    intros r s2 H2. eapply calls_only_trans; eassumption.
Qed.

End Provenance.

(** X2.  Lvl3Agent calls no tool of its own accord: every tool call of a
    turn, in whatever way the turn ends, has the tool and the arguments of
    a reply of the engine that the classifier takes for a tool request,
    and the calls made before the turn stay in the record. *)
Theorem lvl3_calls_are_requested (W : Env) (user_text : string) (s : State) :
  calls_only (requested W (Lvl3Agent._try_parse_tool_request W))
    s (snd (Lvl3Agent.run_agent_turn_async W user_text s)).
Proof.
  change (post (Lvl3Agent.run_agent_turn_async W user_text) s
            (fun _ s' =>
               calls_only (requested W (Lvl3Agent._try_parse_tool_request W)) s s')).
  unfold Lvl3Agent.run_agent_turn_async. post_step. post_step.
  eapply post_conseq; [apply lvl3_while_steps_calls |].
  intros r s' H. exact H.
Qed.


Ltac ps_justified_here :=
  idtac;
  first [ left; requested_here
        | right; left; mirrored_here
        | right; right; reflexivity ].

Section PstorageProvenance.

Variable W : Env.

Lemma ps_loop_body_calls (s : State) :
  post (AgentPstorage.loop_body W) s (fun _ s' => calls_only (ps_justified W) s s').
Proof.
  unfold AgentPstorage.loop_body, AgentPstorage._ask_model_for_next_action,
    AgentPstorage._ask_model_after_tool, AgentPstorage._maybe_persist_task,
    AgentPstorage._call_mcp_tool.
  post_run.
  all: rewrite ?PyFacts.strip_idempotent in *.
  all: calls_chain ps_justified_here.
Qed.

Lemma ps_while_steps_calls (n : nat) (s : State) :
  post (AgentPstorage.while_steps W n) s
    (fun _ s' => calls_only (ps_justified W) s s').
Proof.
  revert s. induction n as [| n IH]; intros s.
  - cbn [AgentPstorage.while_steps]. post_run. calls_chain idtac.
  - rewrite PstorageFacts.ps_while_steps_succ. apply post_bind.
    eapply post_conseq; [apply ps_loop_body_calls |].
    intros [[a |] | e] s1 H1; cbv beta iota; [exact H1 | | exact H1].
    eapply post_conseq; [apply IH |].
    intros r s2 H2. eapply calls_only_trans; eassumption.
Qed.

Lemma ps_override_calls (s : State) :
  post (AgentPstorage.pipeline_override W) s
    (fun _ s' => calls_only (ps_justified W) s s').
Proof.
  unfold AgentPstorage.pipeline_override, AgentPstorage._ask_model_after_tool,
    AgentPstorage._call_mcp_tool.
  post_run.
  all: calls_chain ps_justified_here.
Qed.

End PstorageProvenance.

(** X3.  Every tool call of a turn of Agent_Pstorage, in whatever way the
    turn ends, is of one of three kinds: a call with the tool and the
    arguments of a reply of the engine that the classifier takes for a
    tool request; the [record_task] mirror of a requested
    [create_work_item] call that returned, on the fields of that call; or
    the fixed [get_tasks] call of the pipeline override. *)
Theorem ps_calls_are_justified (W : Env) (user_text : string) (s : State) :
  calls_only (ps_justified W)
    s (snd (AgentPstorage.run_agent_turn_async W user_text s)).
Proof.
  change (post (AgentPstorage.run_agent_turn_async W user_text) s
            (fun _ s' => calls_only (ps_justified W) s s')).
  unfold AgentPstorage.run_agent_turn_async. post_step. post_step.
  destruct (AgentPstorage.override_matches user_text).
  - eapply post_conseq; [apply ps_override_calls |]. intros r s' H. exact H.
  - eapply post_conseq; [apply ps_while_steps_calls |]. intros r s' H. exact H.
Qed.

(* ------------------------------------------------------------------ *)
(** ** What the prompts of a turn show *)

Section PromptsOnly.

Variable P : string -> Prop.

Lemma prompts_only_refl (s : State) : prompts_only P s s.
Proof. exists []. rewrite app_nil_r. split; [reflexivity | constructor]. Qed.

Lemma prompts_only_trans (s1 s2 s3 : State) :
  prompts_only P s1 s2 -> prompts_only P s2 s3 -> prompts_only P s1 s3.
Proof.
  intros (p1 & E1 & F1) (p2 & E2 & F2). exists (p1 ++ p2)%list.
  rewrite E2, E1, app_assoc. split; [reflexivity | now apply Forall_app].
Qed.

Lemma prompts_only_turn (s s1 : State) (t : Turn) :
  prompts_only P s s1 -> prompts_only P s (with_turn s1 t).
Proof. exact (fun H => H). Qed.

Lemma prompts_only_tool (s s1 : State) (n a : json) :
  prompts_only P s s1 -> prompts_only P s (with_tool s1 n a).
Proof. exact (fun H => H). Qed.

Lemma prompts_only_prompt (s s1 : State) (p : string) :
  prompts_only P s s1 -> P p -> prompts_only P s (with_prompt s1 p).
Proof.
  intros H Hp. eapply prompts_only_trans; [exact H |].
  exists [p]. split; [reflexivity | now constructor].
Qed.

End PromptsOnly.

(** A history that continues [h0]. *)
Ltac continues_here H :=
  state_simpl;
  first [ eexists; reflexivity
        | rewrite ?H; rewrite <- ?app_assoc; eexists; reflexivity ].

Ltac carries_here H :=
  idtac; unfold carries; continues_here H.

Ltac prompts_chain H :=
  repeat first
    [ apply prompts_only_refl
    | apply prompts_only_turn
    | apply prompts_only_tool
    | apply prompts_only_prompt; [| solve [carries_here H] ] ].

Section Carried.

Variable W : Env.
Variable h0 : list Turn.

Lemma lvl3_loop_body_prompts (s : State) (m : list Turn) :
  conversation_history s = (h0 ++ m)%list ->
  post (Lvl3Agent.loop_body W) s
    (fun _ s' =>
       (exists m', conversation_history s' = (h0 ++ m')%list) /\
       prompts_only (carries W h0) s s').
Proof.
  intros Hm.
  unfold Lvl3Agent.loop_body, Lvl3Agent._ask_model_for_next_action,
    Lvl3Agent._ask_model_after_tool, Lvl3Agent._call_mcp_tool.
  post_run.
  all: split; [continues_here Hm | prompts_chain Hm].
Qed.

Lemma lvl3_while_steps_prompts (n : nat) (s : State) (m : list Turn) :
  conversation_history s = (h0 ++ m)%list ->
  post (Lvl3Agent.while_steps W n) s (fun _ s' => prompts_only (carries W h0) s s').
Proof.
  revert s m. induction n as [| n IH]; intros s m Hm.
  - cbn [Lvl3Agent.while_steps]. post_run. prompts_chain Hm.
  - rewrite Lvl3Facts.lvl3_while_steps_succ. apply post_bind.
    eapply post_conseq; [apply (lvl3_loop_body_prompts s m Hm) |].
    intros [[a |] | e] s1 ((m1 & Hm1) & H1); cbv beta iota;
      [exact H1 | | exact H1].
    eapply post_conseq; [apply (IH s1 m1 Hm1) |].
    intros r s2 H2. eapply prompts_only_trans; eassumption.
Qed.

Lemma ps_loop_body_prompts (s : State) (m : list Turn) :
  conversation_history s = (h0 ++ m)%list ->
  post (AgentPstorage.loop_body W) s
    (fun _ s' =>
       (exists m', conversation_history s' = (h0 ++ m')%list) /\
       prompts_only (carries W h0) s s').
Proof.
  intros Hm.
  unfold AgentPstorage.loop_body, AgentPstorage._ask_model_for_next_action,
    AgentPstorage._ask_model_after_tool, AgentPstorage._maybe_persist_task,
    AgentPstorage._call_mcp_tool.
  post_run.
  all: split; [continues_here Hm | prompts_chain Hm].
Qed.

Lemma ps_while_steps_prompts (n : nat) (s : State) (m : list Turn) :
  conversation_history s = (h0 ++ m)%list ->
  post (AgentPstorage.while_steps W n) s
    (fun _ s' => prompts_only (carries W h0) s s').
Proof.
  revert s m. induction n as [| n IH]; intros s m Hm.
  - cbn [AgentPstorage.while_steps]. post_run. prompts_chain Hm.
  - rewrite PstorageFacts.ps_while_steps_succ. apply post_bind.
    eapply post_conseq; [apply (ps_loop_body_prompts s m Hm) |].
    intros [[a |] | e] s1 ((m1 & Hm1) & H1); cbv beta iota;
      [exact H1 | | exact H1].
    eapply post_conseq; [apply (IH s1 m1 Hm1) |].
    intros r s2 H2. eapply prompts_only_trans; eassumption.
Qed.

Lemma ps_override_prompts (s : State) (m : list Turn) :
  conversation_history s = (h0 ++ m)%list ->
  post (AgentPstorage.pipeline_override W) s
    (fun _ s' => prompts_only (carries W h0) s s').
Proof.
  intros Hm.
  unfold AgentPstorage.pipeline_override, AgentPstorage._ask_model_after_tool,
    AgentPstorage._call_mcp_tool.
  post_run.
  all: prompts_chain Hm.
Qed.

End Carried.

(** X4.  No prompt of a turn leaves anything of the conversation out: in
    the three variants, every prompt sent to the engine during a turn
    renders the system prompt first and then the whole history as it was
    when the turn began, followed by the new user turn, in order and
    unabridged; what follows differs from prompt to prompt. *)
Theorem prompts_carry_the_history (W : Env) (user_text : string) (s : State) :
  let h0 := (conversation_history s ++ [mkTurn user user_text])%list in
  prompts_only (carries W h0) s (snd (Lvl3Agent.run_agent_turn_async W user_text s)) /\
  prompts_only (carries W h0) s
    (snd (AgentPstorage.run_agent_turn_async W user_text s)) /\
  prompts_only (carries W h0) s (snd (UWAgent.run_agent_turn_async W user_text s)).
Proof.
  intros h0.
  assert (H0 : conversation_history (with_turn s (mkTurn user user_text)) =
               (h0 ++ [])%list) by (subst h0; cbn; now rewrite app_nil_r).
  split; [| split].
  - change (post (Lvl3Agent.run_agent_turn_async W user_text) s
              (fun _ s' => prompts_only (carries W h0) s s')).
    unfold Lvl3Agent.run_agent_turn_async. post_step. post_step.
    eapply post_conseq; [apply (lvl3_while_steps_prompts W h0 _ _ [] H0) |].
    intros r s' H. exact H.
  - change (post (AgentPstorage.run_agent_turn_async W user_text) s
              (fun _ s' => prompts_only (carries W h0) s s')).
    unfold AgentPstorage.run_agent_turn_async. post_step. post_step.
    destruct (AgentPstorage.override_matches user_text).
    + eapply post_conseq; [apply (ps_override_prompts W h0 _ [] H0) |].
      intros r s' H. exact H.
    + eapply post_conseq; [apply (ps_while_steps_prompts W h0 _ _ [] H0) |].
      intros r s' H. exact H.
  - change (post (UWAgent.run_agent_turn_async W user_text) s
              (fun _ s' => prompts_only (carries W h0) s s')).
    unfold UWAgent.run_agent_turn_async, UWAgent.detect_tool_request,
      UWAgent._call_mcp_tool, UWAgent._messages_for_first_attempt,
      UWAgent.followup_messages.
    post_run.
    all: subst h0; prompts_chain (@app_nil_r Turn).
Qed.


(* ------------------------------------------------------------------ *)
(** ** The prompt and the classifier *)

(** X5.  The layout of a prompt: [_build_prompt] renders the messages in
    order, each as its role in capitals, a colon, a line feed, its content
    and a blank line, and closes with the open header of the assistant;
    so every prompt ends in that header, and the prompt of a longer list
    of messages is the rendering of the first message followed by the
    prompt of the rest. *)
Theorem build_prompt_layout (m : Turn) (messages : list Turn) :
  _build_prompt [] = "ASSISTANT:" ++ Py.nl /\
  _build_prompt (m :: messages) =
    role_upper (role m) ++ ":" ++ Py.nl ++ content m ++ Py.nl ++ Py.nl ++
    _build_prompt messages /\
  Py.endswith ("ASSISTANT:" ++ Py.nl) (_build_prompt messages) = true.
Proof.
  assert (E : forall m' rest,
             _build_prompt (m' :: rest) =
             role_upper (role m') ++ ":" ++ Py.nl ++ content m' ++ Py.nl ++ Py.nl ++
             _build_prompt rest).
  { intros m' rest. unfold _build_prompt. cbn [List.map app].
    rewrite TextFacts.join_cons; [| now destruct (List.map _ rest)].
    now rewrite !TextFacts.append_assoc. }
  split; [reflexivity |]. split; [apply E |].
  induction messages as [| m' rest IH]; [reflexivity |].
  rewrite E. do 6 apply TextFacts.endswith_append. exact IH.
Qed.

(** X6.  What the classifier accepts.  [_try_parse_tool_request] returns a
    request exactly for a reply that, once stripped, starts with an
    opening and ends with a closing brace and decodes to a dict with a
    [tool] key and an [arguments] key whose value is a dict; the request
    it returns is the decoded dict itself.  Lvl3Agent and Agent_Pstorage
    classify alike. *)
Theorem classifier_accepts_exactly (W : Env) (reply : string) (req : json) :
  (Lvl3Agent._try_parse_tool_request W reply = Some req <->
   Py.startswith "{" (Py.strip reply) = true /\
   Py.endswith "}" (Py.strip reply) = true /\
   json_loads W (Py.strip reply) = Some req /\
   exists d a, req = JObj d /\ dict_has "tool" d = true /\
               dict_get "arguments" d = Some a /\ is_dict a = true) /\
  AgentPstorage._try_parse_tool_request W reply =
  Lvl3Agent._try_parse_tool_request W reply.
Proof.
  split; [| reflexivity]. unfold Lvl3Agent._try_parse_tool_request.
  destruct (Py.startswith "{" (Py.strip reply)); cbn [andb negb];
    [| split; [discriminate | intros (H & _); discriminate]].
  destruct (Py.endswith "}" (Py.strip reply)); cbn [negb];
    [| split; [discriminate | intros (_ & H & _); discriminate]].
  destruct (json_loads W (Py.strip reply)) as [v |];
    [| split; [discriminate | intros (_ & _ & H & _); discriminate]].
  destruct v as [| | | | | | d];
    try (split; [discriminate | intros (_ & _ & [= <-] & d' & a & H & _); discriminate]).
  unfold dict_has, dict_get_default.
  destruct (dict_get "tool" d) as [n |] eqn:Ht; cbn [andb].
  - destruct (dict_get "arguments" d) as [a |] eqn:Ha; cbn [andb].
    + destruct (is_dict a) eqn:Hd.
      * split.
        -- intros [= <-]. repeat split. exists d, a. rewrite Ht. auto.
        -- intros (_ & _ & [= <-] & _). reflexivity.
      * split; [discriminate |].
        intros (_ & _ & [= <-] & d' & a' & [= <-] & _ & Ha' & H). congruence.
    + cbn. split; [discriminate |].
      intros (_ & _ & [= <-] & d' & a' & [= <-] & _ & H & _). congruence.
  - split; [discriminate |].
    intros (_ & _ & [= <-] & d' & a' & [= <-] & H & _). rewrite Ht in H. discriminate.
Qed.

(* ------------------------------------------------------------------ *)
(** ** Turns that need no tool *)

(** X7.  A direct answer in Lvl3Agent.  When the first reply of a turn is
    classified as a final answer, the turn is over after that one call to
    the engine: the reply, stripped, is returned and appended to the
    history after the user turn, and no tool is called. *)
Theorem lvl3_direct_answer (W : Env) (user_text : string) (s : State) :
  Lvl3Agent._try_parse_tool_request W (Lvl3Spec.first_reply W s user_text) = None ->
  let answer := Py.strip (Lvl3Spec.first_reply W s user_text) in
  let r := Lvl3Agent.run_agent_turn_async W user_text s in
  fst r = Return answer /\
  conversation_history (snd r) =
    (conversation_history s ++ [mkTurn user user_text; mkTurn assistant answer])%list /\
  tool_calls (snd r) = tool_calls s /\
  prompts (snd r) =
    (prompts s ++
     [Lvl3Spec.next_action_prompt W
        (conversation_history s ++ [mkTurn user user_text])])%list.
Proof.
  intros H answer r. subst answer r.
  change (post (Lvl3Agent.run_agent_turn_async W user_text) s
            (fun r s' =>
               r = Return (Py.strip (Lvl3Spec.first_reply W s user_text)) /\
               conversation_history s' =
                 (conversation_history s ++
                  [mkTurn user user_text;
                   mkTurn assistant (Py.strip (Lvl3Spec.first_reply W s user_text))])%list /\
               tool_calls s' = tool_calls s /\
               prompts s' =
                 (prompts s ++
                  [Lvl3Spec.next_action_prompt W
                     (conversation_history s ++ [mkTurn user user_text])])%list)).
  unfold Lvl3Spec.first_reply, Lvl3Spec.next_action_prompt in *.
  unfold Lvl3Agent.run_agent_turn_async, Lvl3Agent.max_steps.
  cbn [Lvl3Agent.while_steps].
  unfold Lvl3Agent.loop_body at 1, Lvl3Agent._ask_model_for_next_action.
  repeat post_step. state_simpl. rewrite H. repeat post_step. state_simpl.
  rewrite <- ?app_assoc. repeat split.
Qed.

Lemma lvl3_direct_answer_witness :
  fst (Lvl3Agent.run_agent_turn_async Scenarios.off_shape "hello" Demo.fresh) =
  Return ("{" ++ Demo.quoted "answer" ++ ": 42}").
Proof.
  exact (proj1 (lvl3_direct_answer Scenarios.off_shape "hello" Demo.fresh eq_refl)).
Defined.

(** X8.  A direct answer in Agent_Pstorage.  Outside the pipeline
    override, when the reply that is classified (the opening reply, or the
    reply to the one retry when the opening reply is empty) is a final
    answer, the turn is over: the reply is returned and appended after the
    user turn, no tool is called, and the engine was asked once, or twice
    with the same prompt when the opening reply was empty. *)
Theorem ps_direct_answer (W : Env) (user_text : string) (s : State) :
  AgentPstorage.override_matches user_text = false ->
  AgentPstorage._try_parse_tool_request W (PstorageSpec.first_reply W s user_text) =
    None ->
  let answer := Py.strip (PstorageSpec.first_reply W s user_text) in
  let p := PstorageSpec.next_action_prompt W
             (conversation_history s ++ [mkTurn user user_text])%list in
  let r := AgentPstorage.run_agent_turn_async W user_text s in
  fst r = Return answer /\
  conversation_history (snd r) =
    (conversation_history s ++ [mkTurn user user_text; mkTurn assistant answer])%list /\
  tool_calls (snd r) = tool_calls s /\
  prompts (snd r) =
    (prompts s ++
     (if Py.nonempty (PstorageSpec.opening_reply W s user_text) then [p] else [p; p]))%list.
Proof.
  intros Hov H answer p r. subst answer p r.
  change (post (AgentPstorage.run_agent_turn_async W user_text) s
            (fun r s' =>
               r = Return (Py.strip (PstorageSpec.first_reply W s user_text)) /\
               conversation_history s' =
                 (conversation_history s ++
                  [mkTurn user user_text;
                   mkTurn assistant
                     (Py.strip (PstorageSpec.first_reply W s user_text))])%list /\
               tool_calls s' = tool_calls s /\
               prompts s' =
                 (prompts s ++
                  (if Py.nonempty (PstorageSpec.opening_reply W s user_text)
                   then [PstorageSpec.next_action_prompt W
                           (conversation_history s ++ [mkTurn user user_text])]
                   else [PstorageSpec.next_action_prompt W
                           (conversation_history s ++ [mkTurn user user_text]);
                         PstorageSpec.next_action_prompt W
                           (conversation_history s ++ [mkTurn user user_text])]))%list)).
  unfold PstorageSpec.first_reply, PstorageSpec.opening_reply,
    PstorageSpec.next_action_prompt in *.
  unfold AgentPstorage.run_agent_turn_async, AgentPstorage.max_steps.
  rewrite Hov. cbn [AgentPstorage.while_steps].
  unfold AgentPstorage.loop_body at 1, AgentPstorage._ask_model_for_next_action.
  repeat post_step. state_simpl.
  rewrite PyFacts.strip_idempotent in *. rewrite orb_diag in *.
  match goal with
  | |- post (if negb (Py.nonempty ?x) then _ else _) _ _ =>
      destruct (Py.nonempty x) eqn:E; cbn [negb] in *
  end.
  - repeat post_step. rewrite H. repeat post_step. state_simpl.
    rewrite <- ?app_assoc. repeat split.
  - repeat post_step. state_simpl. rewrite length_snoc. rewrite H.
    repeat post_step. state_simpl. rewrite <- ?app_assoc. repeat split.
Qed.

Lemma ps_direct_answer_witness :
  fst (AgentPstorage.run_agent_turn_async Scenarios.silent "hello" Demo.fresh) =
  Return "".
Proof.
  exact (proj1 (ps_direct_answer Scenarios.silent "hello" Demo.fresh eq_refl eq_refl)).
Defined.

Lemma uw_asked_state (W : Env) (user_text : string) (s : State) :
  conversation_history (UWSpec.asked W s user_text) =
    (conversation_history s ++ [mkTurn user user_text])%list /\
  tool_calls (UWSpec.asked W s user_text) = tool_calls s /\
  prompts_since s (UWSpec.asked W s user_text) =
    (if UWSpec.retried W s user_text then 2 else 1).
Proof.
  unfold UWSpec.asked, prompts_since.
  destruct (UWSpec.retried W s user_text); state_simpl;
    rewrite ?length_app; cbn [List.length]; repeat split; lia.
Qed.

(** X9.  A direct answer in UWAgent.  When the reply that is looked at
    (the first reply, or the reply to the one retry when the first is
    empty) is no JSON, the turn is over: the reply is returned as it is
    and appended after the user turn, no tool is called, and the engine
    was asked once, or twice when it was retried. *)
Theorem uw_direct_answer (W : Env) (user_text : string) (s : State) :
  json_loads W (UWSpec.first_reply W s user_text) = None ->
  let answer := UWSpec.first_reply W s user_text in
  let r := UWAgent.run_agent_turn_async W user_text s in
  fst r = Return answer /\
  conversation_history (snd r) =
    (conversation_history s ++ [mkTurn user user_text; mkTurn assistant answer])%list /\
  tool_calls (snd r) = tool_calls s /\
  prompts_since s (snd r) = (if UWSpec.retried W s user_text then 2 else 1).
Proof.
  intros H answer r. subst answer r.
  change (post (UWAgent.run_agent_turn_async W user_text) s
            (fun r s' =>
               r = Return (UWSpec.first_reply W s user_text) /\
               conversation_history s' =
                 (conversation_history s ++
                  [mkTurn user user_text;
                   mkTurn assistant (UWSpec.first_reply W s user_text)])%list /\
               tool_calls s' = tool_calls s /\
               prompts_since s s' = (if UWSpec.retried W s user_text then 2 else 1))).
  apply UWFacts.uw_run_prefix. unfold UWAgent.detect_tool_request. rewrite H.
  repeat post_step.
  destruct (uw_asked_state W user_text s) as (Hh & Ht & Hp).
  unfold prompts_since in *. state_simpl. rewrite Hh, <- app_assoc.
  repeat split; assumption.
Qed.

Lemma uw_direct_answer_witness :
  fst (UWAgent.run_agent_turn_async Scenarios.silent "hello" Demo.fresh) = Return "".
Proof.
  exact (proj1 (uw_direct_answer Scenarios.silent "hello" Demo.fresh eq_refl)).
Defined.

(** X10.  What a turn of UWAgent leaves in the history.  A turn appends
    the user turn and, when it returns, the answer it returns, and nothing
    else: neither the tool request nor the tool output is recorded.  A
    turn that raises leaves the user turn without an answer. *)
Theorem uw_turn_record (W : Env) (user_text : string) (s : State) :
  let r := UWAgent.run_agent_turn_async W user_text s in
  conversation_history (snd r) =
  (conversation_history s ++
   mkTurn user user_text ::
   match fst r with
   | Return answer => [mkTurn assistant answer]
   | Raise _ => []
   end)%list.
Proof.
  intros r. subst r.
  change (post (UWAgent.run_agent_turn_async W user_text) s
            (fun r s' =>
               conversation_history s' =
               (conversation_history s ++
                mkTurn user user_text ::
                match r with
                | Return answer => [mkTurn assistant answer]
                | Raise _ => []
                end)%list)).
  unfold UWAgent.run_agent_turn_async, UWAgent.detect_tool_request,
    UWAgent._call_mcp_tool.
  post_run.
  all: state_simpl; rewrite <- ?app_assoc; reflexivity.
Qed.

(** X11.  A reply that decodes but is no tool request ends the turn of
    UWAgent in an exception.  When the reply that is looked at decodes to
    a value whose subscript ["tool"] fails, or whose subscript ["tool"]
    succeeds and whose subscript ["arguments"] fails, the exception of the
    failing subscript leaves [run_agent_turn_async]; no tool is called and
    the history holds the user turn without an answer. *)
Theorem uw_failed_subscript_ends_the_turn
  (W : Env) (user_text : string) (s : State) (parsed : json) (e : exn) :
  json_loads W (UWSpec.first_reply W s user_text) = Some parsed ->
  getitem parsed "tool" = Raise e \/
  (raises (getitem parsed "tool") = false /\ getitem parsed "arguments" = Raise e) ->
  let r := UWAgent.run_agent_turn_async W user_text s in
  fst r = Raise e /\
  tool_calls (snd r) = tool_calls s /\
  conversation_history (snd r) =
    (conversation_history s ++ [mkTurn user user_text])%list.
Proof.
  intros Hl He r. subst r.
  change (post (UWAgent.run_agent_turn_async W user_text) s
            (fun r s' =>
               r = Raise e /\ tool_calls s' = tool_calls s /\
               conversation_history s' =
                 (conversation_history s ++ [mkTurn user user_text])%list)).
  apply UWFacts.uw_run_prefix. unfold UWAgent.detect_tool_request. rewrite Hl.
  destruct (uw_asked_state W user_text s) as (Hh & Ht & _).
  destruct He as [He | [Hn He]].
  - repeat post_step. rewrite He. repeat split; assumption.
  - destruct (getitem parsed "tool") as [n |] eqn:En; [| discriminate].
    repeat post_step. rewrite He.
    repeat split; assumption.
Qed.

Lemma uw_failed_subscript_ends_the_turn_witness :
  fst (UWAgent.run_agent_turn_async Scenarios.structured "hello" Demo.fresh) =
  Raise (KeyError "tool").
Proof.
  exact (proj1 (uw_failed_subscript_ends_the_turn Scenarios.structured "hello"
                  Demo.fresh (JObj [("summary", JStr "one task")]) (KeyError "tool")
                  eq_refl (or_introl eq_refl))).
Defined.

(** The history after a turn of Lvl3Agent, whether it returns or raises. *)
Lemma lvl3_turn_history (W : Env) (user_text : string) (s : State) :
  let r := Lvl3Agent.run_agent_turn_async W user_text s in
  match fst r with
  | Return answer =>
      exists pairs,
        List.length pairs <= 5 /\
        conversation_history (snd r) =
          (conversation_history s ++
           mkTurn user user_text :: pair_turns pairs ++ [mkTurn assistant answer])%list /\
        (List.length pairs = 5 -> answer = Lvl3Agent.safety_msg)
  | Raise _ =>
      exists turns,
        conversation_history (snd r) =
          (conversation_history s ++ mkTurn user user_text :: turns)%list
  end.
Proof.
  intros r. subst r.
  change (post (Lvl3Agent.run_agent_turn_async W user_text) s
            (fun r s' =>
               match r with
               | Return answer =>
                   exists pairs,
                     List.length pairs <= 5 /\
                     conversation_history s' =
                       (conversation_history s ++
                        mkTurn user user_text ::
                        pair_turns pairs ++ [mkTurn assistant answer])%list /\
                     (List.length pairs = 5 -> answer = Lvl3Agent.safety_msg)
               | Raise _ =>
                   exists turns,
                     conversation_history s' =
                       (conversation_history s ++ mkTurn user user_text :: turns)%list
               end)).
  unfold Lvl3Agent.run_agent_turn_async. post_step. post_step.
  eapply post_conseq; [apply Lvl3Facts.lvl3_while_steps_shape |].
  intros [a | e] s' (turns & calls & G & Sh & _);
    apply grows_history in G; rewrite G; state_simpl.
  - destruct Sh as (pairs & Lp & -> & Hs). exists pairs. split; [exact Lp |].
    split; [| exact Hs]. now rewrite <- app_assoc.
  - exists turns. now rewrite <- app_assoc.
Qed.


(* ------------------------------------------------------------------ *)
(** ** The handler of [POST /ask] *)

Lemma lstrip_blank (s : string) : blank s = true -> Py.lstrip s = "".
Proof.
  induction s as [| c r IH]; [reflexivity |]. cbn [blank Py.lstrip].
  intros H. apply andb_true_iff in H as [Hc Hr]. rewrite Hc. now apply IH.
Qed.

Lemma strip_blank (s : string) : blank s = true -> Py.strip s = "".
Proof. intros H. unfold Py.strip. now rewrite lstrip_blank. Qed.

(** X13.  The handler of [POST /ask] answers every request.  Whatever the
    engine and the tools do, [ask_llm] returns a response and raises
    nothing.  The status is 200 or 500; a 500 answer starts with the
    backend error marker.  For a message that is not blank the turn
    controller was run on the stripped message, whose user turn stays in
    the history even when the turn failed, and a 200 answer is the last
    turn of the history. *)
Theorem ask_llm_always_responds (W : Env) (message : string) (s : State) :
  let r := Lvl3Web.ask_llm W message s in
  exists resp,
    fst r = Return resp /\
    (Lvl3Web.status_code resp = 200 \/
     (Lvl3Web.status_code resp = 500 /\
      Py.startswith "[backend error] " (Lvl3Web.answer resp) = true)) /\
    (Py.nonempty (Py.strip message) = true ->
     exists turns,
       conversation_history (snd r) =
         (conversation_history s ++ mkTurn user (Py.strip message) :: turns)%list /\
       (Lvl3Web.status_code resp = 200 ->
        exists front, turns = (front ++ [mkTurn assistant (Lvl3Web.answer resp)])%list)).
Proof.
  intros r. subst r. unfold Lvl3Web.ask_llm.
  destruct (Py.nonempty (Py.strip message)) eqn:E; cbn [negb].
  - pose proof (lvl3_turn_history W (Py.strip message) s) as T. cbv zeta in T.
    unfold try_except, bind, ret.
    destruct (Lvl3Agent.run_agent_turn_async W (Py.strip message) s) as [[a | e] s'];
      cbn [fst snd] in *.
    + eexists. split; [reflexivity |]. cbn [Lvl3Web.status_code Lvl3Web.answer].
      split; [now left |]. intros _. destruct T as (pairs & _ & -> & _).
      eexists. split; [reflexivity |]. intros _. now exists (pair_turns pairs).
    + eexists. split; [reflexivity |]. cbn [Lvl3Web.status_code Lvl3Web.answer].
      split.
      * right. split; [reflexivity |]. apply TextFacts.startswith_append.
      * intros _. destruct T as (turns & ->). exists turns.
        split; [reflexivity | discriminate].
  - eexists. split; [reflexivity |]. split; [now left | discriminate].
Qed.

(** X14.  A blank message starts no turn.  For a message of white space
    only, the empty message included, [ask_llm] answers 200 with the text
    [(no input)] and leaves the history, the engine and the tools
    untouched. *)
Theorem ask_llm_blank_message (W : Env) (message : string) (s : State) :
  blank message = true ->
  Lvl3Web.ask_llm W message s =
  (Return (Lvl3Web.mkJSONResponse 200 "(no input)"), s).
Proof.
  intros H. unfold Lvl3Web.ask_llm. now rewrite (strip_blank message H).
Qed.

Lemma ask_llm_blank_message_witness :
  Lvl3Web.ask_llm Scenarios.hasty ("  " ++ Py.nl) Demo.fresh =
  (Return (Lvl3Web.mkJSONResponse 200 "(no input)"), Demo.fresh).
Proof.
  exact (ask_llm_blank_message Scenarios.hasty ("  " ++ Py.nl) Demo.fresh eq_refl).
Defined.

(* ------------------------------------------------------------------ *)
(** ** The tools that reach n8n and Postgres *)

(** X15.  The statement of [get_tasks] is parameterised.  Whatever the
    filters, the statement handed to the database has as many [%s]
    placeholders as there are parameters, selects from [tasks] and ends
    with the ordering and the limit of 100 rows; the parameters are the
    filters that are given and not empty, in the order borrower, officer,
    status, the first two wrapped in percent signs for a partial match. *)
Theorem get_tasks_statement (borrower officer status : option string) :
  let q := PstorageRemote.tasks_query borrower officer status in
  occurrences "%s" (fst q) = List.length (snd q) /\
  Py.startswith "SELECT task_id, " (fst q) = true /\
  Py.endswith " ORDER BY created_at DESC LIMIT 100" (fst q) = true /\
  snd q =
    ((if PstorageRemote.given borrower
      then [PstorageRemote.partial (PstorageRemote.value_of borrower)] else []) ++
     (if PstorageRemote.given officer
      then [PstorageRemote.partial (PstorageRemote.value_of officer)] else []) ++
     (if PstorageRemote.given status
      then [PstorageRemote.value_of status] else []))%list.
Proof.
  unfold PstorageRemote.tasks_query.
  destruct (PstorageRemote.given borrower), (PstorageRemote.given officer),
    (PstorageRemote.given status); cbv zeta; cbn [fst snd app List.length];
    repeat split; vm_compute; reflexivity.
Qed.

(** X16.  No filter value reaches the text of the statement: two calls of
    [get_tasks] that give the same filters, with whatever values, hand the
    same statement to the database.  A filter given as the empty string
    counts as not given. *)
Theorem get_tasks_statement_is_fixed
  (borrower officer status borrower' officer' status' : option string) :
  PstorageRemote.given borrower = PstorageRemote.given borrower' ->
  PstorageRemote.given officer = PstorageRemote.given officer' ->
  PstorageRemote.given status = PstorageRemote.given status' ->
  fst (PstorageRemote.tasks_query borrower officer status) =
  fst (PstorageRemote.tasks_query borrower' officer' status').
Proof.
  intros Hb Ho Hs. unfold PstorageRemote.tasks_query. rewrite Hb, Ho, Hs.
  destruct (PstorageRemote.given borrower'), (PstorageRemote.given officer'),
    (PstorageRemote.given status'); reflexivity.
Qed.

Lemma get_tasks_statement_is_fixed_witness :
  fst (PstorageRemote.tasks_query (Some "ACME") None (Some "open")) =
  fst (PstorageRemote.tasks_query (Some "x' OR 1=1 --") (Some "") (Some "done")).
Proof.
  exact (get_tasks_statement_is_fixed (Some "ACME") None (Some "open")
           (Some "x' OR 1=1 --") (Some "") (Some "done") eq_refl eq_refl eq_refl).
Defined.



(* ------------------------------------------------------------------ *)
(** ** The allowed directory of UWAgent *)





(* ------------------------------------------------------------------ *)
(** ** More on Agent_Pstorage *)

Lemma lower_append (a b : string) : Py.lower (a ++ b) = Py.lower a ++ Py.lower b.
Proof. induction a as [| c a IH]; cbn; [reflexivity | now rewrite IH]. Qed.

Lemma contains_prefix (needle hay : string) :
  String.prefix needle hay = true -> Py.contains needle hay = true.
Proof. intros H. destruct hay; cbn [Py.contains]; now rewrite H. Qed.

Lemma contains_append (needle x y : string) :
  Py.contains needle (x ++ needle ++ y) = true.
Proof.
  induction x as [| c x IH]; cbn [append].
  - apply contains_prefix, TextFacts.startswith_append.
  - cbn [Py.contains]. rewrite IH. apply orb_true_r.
Qed.

(** X21.  The words that trigger the pipeline override.  A user text takes
    the override as soon as it holds [pipeline] or [queue] somewhere,
    in any mix of upper and lower case and whatever stands before and
    after, inside a longer word included. *)
Theorem override_trigger_words (before word after : string) :
  Py.lower word = "pipeline" \/ Py.lower word = "queue" ->
  AgentPstorage.override_matches (before ++ word ++ after) = true.
Proof.
  intros H. unfold AgentPstorage.override_matches. rewrite !lower_append.
  destruct H as [-> | ->]; rewrite contains_append; [reflexivity | apply orb_true_r].
Qed.

Lemma override_trigger_words_witness :
  AgentPstorage.override_matches "Please enQUEUE this memo" = true.
Proof.
  exact (override_trigger_words "Please en" "QUEUE" " this memo" (or_intror eq_refl)).
Defined.

Section WithoutServer.

Variable W : Env.

Hypothesis missing : server_exists W = false.

Lemma ps_first_pass_without_server (s : State) :
  post (AgentPstorage.loop_body W) s
    (fun r s' =>
       tool_calls s' = tool_calls s /\
       match r with
       | Return (Some a) =>
           conversation_history s' = (conversation_history s ++ [mkTurn assistant a])%list
       | Return None => False
       | Raise e => conversation_history s' = conversation_history s
       end).
Proof.
  unfold AgentPstorage.loop_body, AgentPstorage._ask_model_for_next_action,
    AgentPstorage._call_mcp_tool.
  rewrite missing. cbn [negb].
  post_run.
  all: state_simpl; rewrite <- ?app_assoc; repeat split; reflexivity.
Qed.

Lemma ps_turn_without_server (user_text : string) (s : State) :
  post (AgentPstorage.run_agent_turn_async W user_text) s
    (fun r s' => tool_calls s' = tool_calls s).
Proof.
  unfold AgentPstorage.run_agent_turn_async. post_step. post_step.
  destruct (AgentPstorage.override_matches user_text).
  - unfold AgentPstorage.pipeline_override, AgentPstorage._call_mcp_tool.
    rewrite missing. cbn [negb]. post_run. reflexivity.
  - unfold AgentPstorage.max_steps. rewrite PstorageFacts.ps_while_steps_succ.
    apply post_bind.
    eapply post_conseq; [apply ps_first_pass_without_server |].
    intros [[a |] | e] s' (Ht & Hh); state_simpl.
    + apply post_ret. exact Ht.
    + destruct Hh.
    + exact Ht.
Qed.

Lemma ps_override_without_server (user_text : string) (s : State) :
  AgentPstorage.override_matches user_text = true ->
  AgentPstorage.run_agent_turn_async W user_text s =
  (Raise (PstorageSpec.missing_server W), with_turn s (mkTurn user user_text)).
Proof.
  intros Hov.
  unfold AgentPstorage.run_agent_turn_async, AgentPstorage.pipeline_override,
    AgentPstorage._call_mcp_tool.
  rewrite Hov, missing. reflexivity.
Qed.

Lemma ps_loop_without_server (user_text : string) (s : State) :
  AgentPstorage.override_matches user_text = false ->
  post (AgentPstorage.run_agent_turn_async W user_text) s
    (fun r s' =>
       match AgentPstorage._try_parse_tool_request W
               (PstorageSpec.first_reply W s user_text) with
       | Some _ =>
           r = Raise (PstorageSpec.missing_server W) /\
           conversation_history s' =
             (conversation_history s ++ [mkTurn user user_text])%list
       | None =>
           r = Return (Py.strip (PstorageSpec.first_reply W s user_text)) /\
           conversation_history s' =
             (conversation_history s ++
              [mkTurn user user_text;
               mkTurn assistant
                 (Py.strip (PstorageSpec.first_reply W s user_text))])%list
       end).
Proof.
  intros Hov.
  unfold PstorageSpec.first_reply, PstorageSpec.opening_reply,
    PstorageSpec.next_action_prompt, PstorageSpec.missing_server.
  unfold AgentPstorage.run_agent_turn_async, AgentPstorage.max_steps.
  rewrite Hov. cbn [AgentPstorage.while_steps].
  unfold AgentPstorage.loop_body at 1, AgentPstorage._ask_model_for_next_action,
    AgentPstorage._call_mcp_tool.
  rewrite missing. cbn [negb].
  repeat post_step. state_simpl.
  rewrite PyFacts.strip_idempotent. rewrite orb_diag.
  match goal with
  | |- post (if negb (Py.nonempty ?x) then _ else _) _ _ =>
      destruct (Py.nonempty x) eqn:E; cbn [negb]
  end.
  - repeat post_step.
    match goal with
    | |- context [AgentPstorage._try_parse_tool_request W ?x] =>
        destruct (AgentPstorage._try_parse_tool_request W x) as [j |] eqn:P
    end.
    + destruct (@PstorageFacts.ps_try_parse_some _ _ _ P) as (n & a & Hn & Ha & _).
      repeat post_step. rewrite Hn. repeat post_step. rewrite Ha.
      repeat post_step. state_simpl. split; reflexivity.
    + repeat post_step. state_simpl. rewrite <- ?app_assoc. split; reflexivity.
  - repeat post_step. state_simpl. rewrite length_snoc.
    match goal with
    | |- context [AgentPstorage._try_parse_tool_request W ?x] =>
        destruct (AgentPstorage._try_parse_tool_request W x) as [j |] eqn:P
    end.
    + destruct (@PstorageFacts.ps_try_parse_some _ _ _ P) as (n & a & Hn & Ha & _).
      repeat post_step. rewrite Hn. repeat post_step. rewrite Ha.
      repeat post_step. state_simpl. split; reflexivity.
    + repeat post_step. state_simpl. rewrite <- ?app_assoc. split; reflexivity.
Qed.

End WithoutServer.

(** X22.  Without its server file Agent_Pstorage reaches no tool.  When
    [mcp_server.py] is missing, no turn records a tool call.  A turn that
    takes the pipeline override raises [FileNotFoundError] before any
    call to the engine.  Outside the override, when the reply that is
    classified (the opening reply, or the reply to the one retry) is a
    tool request, the turn raises [FileNotFoundError] and leaves the user
    turn without an answer; when it is a final answer, the turn returns
    it, stripped, and records it after the user turn. *)
Theorem ps_without_server (W : Env) (user_text : string) (s : State) :
  server_exists W = false ->
  let r := AgentPstorage.run_agent_turn_async W user_text s in
  tool_calls (snd r) = tool_calls s /\
  (AgentPstorage.override_matches user_text = true ->
   fst r = Raise (PstorageSpec.missing_server W) /\
   prompts (snd r) = prompts s /\
   conversation_history (snd r) =
     (conversation_history s ++ [mkTurn user user_text])%list) /\
  (AgentPstorage.override_matches user_text = false ->
   match AgentPstorage._try_parse_tool_request W
           (PstorageSpec.first_reply W s user_text) with
   | Some _ =>
       fst r = Raise (PstorageSpec.missing_server W) /\
       conversation_history (snd r) =
         (conversation_history s ++ [mkTurn user user_text])%list
   | None =>
       fst r = Return (Py.strip (PstorageSpec.first_reply W s user_text)) /\
       conversation_history (snd r) =
         (conversation_history s ++
          [mkTurn user user_text;
           mkTurn assistant (Py.strip (PstorageSpec.first_reply W s user_text))])%list
   end).
Proof.
  intros Hm r. subst r. split; [| split].
  - exact (ps_turn_without_server W Hm user_text s).
  - intros Hov. rewrite (ps_override_without_server W Hm user_text s Hov).
    repeat split.
  - intros Hov. exact (ps_loop_without_server W Hm user_text s Hov).
Qed.

Lemma ps_without_server_witness :
  tool_calls
    (snd (AgentPstorage.run_agent_turn_async Scenarios.stray_offline "clean up"
            Demo.fresh)) = tool_calls Demo.fresh.
Proof.
  exact (proj1 (ps_without_server Scenarios.stray_offline "clean up" Demo.fresh
                  eq_refl)).
Defined.

(* ------------------------------------------------------------------ *)
(** ** Answers *)

Ltac trimmed_leaf :=
  cbn [trimmed_answer];
  repeat match goal with
         | |- context [if ?c then _ else _] => destruct c
         end;
  rewrite ?PyFacts.strip_idempotent;
  first [ reflexivity | exact I | vm_compute; reflexivity ].

Section Trimmed.

Variable W : Env.

Lemma lvl3_loop_body_trimmed (s : State) :
  post (Lvl3Agent.loop_body W) s
    (fun r _ =>
       match r with
       | Return (Some a) => Py.strip a = a
       | _ => True
       end).
Proof.
  unfold Lvl3Agent.loop_body, Lvl3Agent._ask_model_for_next_action,
    Lvl3Agent._ask_model_after_tool, Lvl3Agent._call_mcp_tool.
  post_run.
  all: trimmed_leaf.
Qed.

Lemma lvl3_while_steps_trimmed (n : nat) (s : State) :
  post (Lvl3Agent.while_steps W n) s (fun r _ => trimmed_answer r).
Proof.
  revert s. induction n as [| n IH]; intros s.
  - cbn [Lvl3Agent.while_steps]. post_run. trimmed_leaf.
  - rewrite Lvl3Facts.lvl3_while_steps_succ. apply post_bind.
    eapply post_conseq; [apply lvl3_loop_body_trimmed |].
    intros [[a |] | e] s1 H1; cbv beta iota; [exact H1 | apply IH | exact I].
Qed.

Lemma ps_loop_body_trimmed (s : State) :
  post (AgentPstorage.loop_body W) s
    (fun r _ =>
       match r with
       | Return (Some a) => Py.strip a = a
       | _ => True
       end).
Proof.
  unfold AgentPstorage.loop_body, AgentPstorage._ask_model_for_next_action,
    AgentPstorage._ask_model_after_tool, AgentPstorage._maybe_persist_task,
    AgentPstorage._call_mcp_tool.
  post_run.
  all: trimmed_leaf.
Qed.

Lemma ps_while_steps_trimmed (n : nat) (s : State) :
  post (AgentPstorage.while_steps W n) s (fun r _ => trimmed_answer r).
Proof.
  revert s. induction n as [| n IH]; intros s.
  - cbn [AgentPstorage.while_steps]. post_run. trimmed_leaf.
  - rewrite PstorageFacts.ps_while_steps_succ. apply post_bind.
    eapply post_conseq; [apply ps_loop_body_trimmed |].
    intros [[a |] | e] s1 H1; cbv beta iota; [exact H1 | apply IH | exact I].
Qed.

End Trimmed.

(** X23.  Answers are trimmed.  In the three variants the answer a turn
    returns has no white space at either end: it is a stripped reply of
    the engine, the safety message, or the fixed text of the override. *)
Theorem answers_are_trimmed (W : Env) (user_text : string) (s : State) :
  trimmed_answer (fst (Lvl3Agent.run_agent_turn_async W user_text s)) /\
  trimmed_answer (fst (AgentPstorage.run_agent_turn_async W user_text s)) /\
  trimmed_answer (fst (UWAgent.run_agent_turn_async W user_text s)).
Proof.
  split; [| split].
  - change (post (Lvl3Agent.run_agent_turn_async W user_text) s
              (fun r _ => trimmed_answer r)).
    unfold Lvl3Agent.run_agent_turn_async. post_step. post_step.
    apply lvl3_while_steps_trimmed.
  - change (post (AgentPstorage.run_agent_turn_async W user_text) s
              (fun r _ => trimmed_answer r)).
    unfold AgentPstorage.run_agent_turn_async. post_step. post_step.
    destruct (AgentPstorage.override_matches user_text).
    + unfold AgentPstorage.pipeline_override, AgentPstorage._ask_model_after_tool,
        AgentPstorage._call_mcp_tool.
      post_run.
      all: trimmed_leaf.
    + apply ps_while_steps_trimmed.
  - change (post (UWAgent.run_agent_turn_async W user_text) s
              (fun r _ => trimmed_answer r)).
    unfold UWAgent.run_agent_turn_async, UWAgent.detect_tool_request,
      UWAgent._call_mcp_tool.
    post_run.
    all: trimmed_leaf.
Qed.

(* ------------------------------------------------------------------ *)
(** ** Concrete runs *)

(** The bound of ten prompts is reached by an engine that asks for a tool
    in every reply. *)
Example lvl3_ten_prompts :
  prompts_since Demo.fresh
    (snd (Lvl3Agent.run_agent_turn_async Scenarios.tireless "status?" Demo.fresh)) = 10.
Proof. vm_compute. reflexivity. Qed.

(** A server error of n8n: the pipeline tool wraps it, the task tool
    reports it, and neither hands the body back as data. *)
Example n8n_server_error :
  PstorageRemote.get_pipeline_summary DemoServices.failing =
    Return (JsonRef.dumps_ref
              (JObj [("error", JStr "Failed to reach n8n pipeline endpoint");
                     ("details", JStr "RuntimeError: n8n error 500: workflow failed")])) /\
  PstorageRemote.create_work_item DemoServices.failing "ACME" "Lopez" "rent roll" =
    Return "[create_work_item error] n8n 500: workflow failed".
Proof. vm_compute. split; reflexivity. Qed.

(** The database down, and the database with one open task. *)
Example get_tasks_runs :
  PstorageRemote.get_tasks DemoServices.failing None None (Some "open") =
    Return "[get_tasks error] OperationalError: connection refused" /\
  PstorageRemote.get_tasks DemoServices.offline None (Some "Lopez") None =
    Return (JsonRef.dumps_ref (JArr [DemoServices.row])) /\
  PstorageRemote.tasks_query None (Some "Lopez") (Some "open") =
    ("SELECT task_id, borrower_name, officer_name, description, status, created_at, updated_at FROM tasks WHERE 1=1 AND officer_name ILIKE %s AND status = %s ORDER BY created_at DESC LIMIT 100",
     ["%Lopez%"; "open"]).
Proof. vm_compute. repeat split. Qed.

(** A failed turn answers with status 500 and leaves its user turn. *)
Example ask_llm_backend_error :
  Lvl3Web.ask_llm Scenarios.stray " clean up " Demo.fresh =
  (Return (Lvl3Web.mkJSONResponse 500
             "[backend error] ToolError: Unknown tool: delete_everything"),
   mkState [mkTurn user "clean up"]
           [Lvl3Spec.next_action_prompt Scenarios.stray [mkTurn user "clean up"]]
           [(JStr "delete_everything", JObj [])]).
Proof. vm_compute. reflexivity. Qed.
